(* ===== verification/_CoqProject ===== *)
-Q . S2P
Prelude.v
Js.v
JsDate.v
Calendar.v
IsoDate.v
Sdk.v
Async.v
Firebase.v
Login.v
Register.v
Schema.v
Pipeline.v
Favorites.v
Session.v
Concurrency.v
Views.v
Styles.v
Interaction.v
