(* ===== verification/Prelude.v ===== *)
(** * Huellitas PETSHOP screens: a verification development

    The repository is a React Native application with three screens under
    [src/screens/]: [Login.js], [RegisterScreen.js] and [Favorites.js].
    Each screen is a function component that keeps its form fields in
    [useState] hooks and reacts to user events; the only multi-step logic
    lives in two asynchronous handlers that call the Firebase SDK:
    [logueo] (Login.js, sign-in then navigate to "Home") and
    [handleRegister] (RegisterScreen.js, create the account, optionally
    fetch and upload the profile image, write the profile document, then
    navigate to "Login"), plus [pickImage], which awaits the Expo image
    picker.

    How the development is laid out (one file per part, in the order of
    [_CoqProject]):
    - [Prelude] (this file): the scope [huellitas_scope], the hint
      databases [huellitas] and [huellitas_rw], the shared tactics and the
      generic lemmas on strings, lists and options.
    - [Js]: the fragment of JavaScript the screens rely on: error objects
      ([js_error]), promise settlement ([settled]), ToBoolean on strings
      and nullable strings ([if (imageUri)], [{error ? ... : null}]),
      strict string inequality ([!==]) and [String.prototype.split] with a
      one-character separator, with its join round trip.
    - [JsDate]: the JavaScript [Date] as a time value in milliseconds
      (ECMAScript's Day / civil-calendar decomposition, [toISOString],
      [toDateString] under a local time-zone offset).  It models
      [birthDate.toISOString().split('T')[0]] (RegisterScreen.js line 54)
      and the "Selected Date" line (line 133).
    - [Calendar]: ECMAScript's own calendar ([DayFromYear], [InLeapYear],
      the month table, [MakeDay]) as the reference against which the era
      algorithm [civil_from_days] of [JsDate] is proved.
    - [IsoDate]: a reader [parse_iso_date] of the [YYYY-MM-DD] and
      [±YYYYYY-MM-DD] strings [toISOString] produces, against which the
      stored birth date is proved decodable.
    - [Sdk]: the boundary of the program: the SDK calls the screens await
      ([signInWithEmailAndPassword], [createUserWithEmailAndPassword],
      [fetch], [response.blob], [uploadBytes], [getDownloadURL], [setDoc],
      [ImagePicker.launchImageLibraryAsync]) as an inductive type [call]
      with the answer type of each call, the synchronous effects
      ([Alert.alert], [navigation.navigate], [console.log] and the two
      state setters called from async code), and the class [Env] of
      environments that settle calls.  Firebase itself is not code of this
      repository: the class is the contract the screens are proved against.
    - [Async]: async/await as an inductive program tree [prog] (return,
      throw, synchronous effect, await with a fulfilment and a rejection
      continuation), its bind (the stdpp [MBind] instance), [try_catch]
      for [try { } catch (error) { }], and the interpreter [run] against
      any [Env], which threads the environment and records the trace of
      calls (with their settlement) and effects.  [run] is structural, so
      every handler terminates; the lemmas here are the monad laws of
      [run] used by every client proof.
    - [Login]: the Login screen state (two [useState()] fields that start
      [undefined]), its setters and [logueo].
    - [Register]: the registration draft (thirteen [useState] hooks), the
      input handlers, [onChangeDate], [pickImage], [handleRegister], the
      effect of the settled trace on the screen state, and what the render
      shows.
    - [Schema]: the User Profile Record of the spec (section 3) as a
      schema of typed fields, the [setDoc] object literal as field
      bindings typed against it (with an executable checker), and the
      type invariant of the draft: [birthDate] holds a valid [Date] (not
      an Invalid Date) in every state reachable from a mount on a clock
      a [Date] can read, since the picker answers with a valid [Date] or
      is dismissed.
    - [Pipeline]: the spec's view of the submission as a pipeline of
      fallible steps with a typed failure enumeration (sections 5 and 9):
      the abstract result computed from the services' answers
      ([spec_outcome]) and how the screen renders it ([renders]).
    - [Favorites]: the static placeholder screen and its no-op button.
    - [Firebase]: what the screens observe of the Firebase project
      (class [FirebaseObs]: accounts, documents, stored objects,
      connectivity), the laws the screens rely on (class
      [FirebaseContract]: creation of an account only for an unused
      email, sign-in of a registered account, document writes, uploads,
      frame laws), and the reference model [FbModel], an in-memory project
      over stdpp's [gmap] and [gset] (accounts, documents, storage,
      device files, denied collections, connectivity) with the instance
      proving that it satisfies the contract.  Firebase is not code of
      this repository: its model follows the spec.
    - [Session]: the screens together against any environment satisfying
      the contract: registration followed by login, a registration that
      fails after the account creation, a second submission of a draft.
    - [Concurrency]: the JavaScript event loop for the Register button,
      which stays enabled while [handleRegister] awaits.  A [config] holds
      the suspended handlers, the services' state and the trace; a tap
      ([spawn]) runs the handler synchronously up to its first await, and
      [step] resumes any handler whose call settles, up to its next
      await; [rtc step] gives every interleaving and [run_schedule]
      executes one.
    - [Views]: what each screen returns, as a tree of elements ([elem]:
      views, texts, images, text inputs with placeholder, [value] and
      [secureTextEntry], pressables, the [Picker], the date picker, and
      [EStyled k] for [style={styles.k}]) whose handlers are the
      screen's user actions, so that pressing or typing in a rendered
      control is [dispatch] of its action; the conditional children
      ([{error ? ...}], [{showDatePicker && ...}], the picked image) are
      computed from the state.
    - [Styles]: the three [StyleSheet.create] objects as data, which the
      trees refer to by key; no property is stated of them.
    - [Interaction]: the user at the rendered screen.  A gesture (typing
      into the input with a placeholder, tapping the pressable showing a
      label, choosing a [Picker] item, answering the date picker) is
      delivered by [resolve] to the control of the tree rendered from
      the current state and runs its action through [dispatch]; on the
      Register screen gestures interleave with the setters of running
      handlers ([Settle]).  This composes Views with Login and Register.

    What the theorems show.
    - Js: split/join round trip, [split] of a string whose first piece
      has no separator, truthiness of nullable strings.
    - JsDate: the ISO date part is exactly the formatted civil date of the
      UTC day and an invalid date throws [RangeError].
    - Calendar (lemmas for IsoDate and Schema): [civil_from_days]
      returns, for every day number, a valid date whose [MakeDay] is
      that number, and [MakeDay] is injective on valid dates (so its
      fields are ECMAScript's [YearFromTime], [MonthFromTime] + 1,
      [DateFromTime]); the year of every valid time value lies in
      -271821..275760.
    - IsoDate: the birth date stored for any valid time value reads back
      as the UTC calendar date of that instant (a print/parse round trip
      through [pad_digits], [iso_year] and [split]).
    - Async: [run] distributes over bind, [try_catch] catches every
      rejection of its body, so a handler wrapped in it never rejects.
    - Login: on a fulfilled sign-in the trace is the alert then exactly one
      navigation to "Home"; on a rejection it is the log and the fixed
      generic alert, with no navigation; both hold whatever the fields
      hold, [undefined] included (no local validation).
    - Register: mismatching passwords make no call and set the error; a
      rejected account creation sets the error to the rejection's message,
      and the re-rendered screen shows it; without an image no upload
      happens and the profile goes to [users/<uid>] of the account just
      created, with an empty [photoURL]; with an image the upload path is
      [usuarios/<uid>/profile.jpg] and the stored [photoURL] is the URL
      [getDownloadURL] returned; the handler never rejects and either
      navigates to "Login" or sets the error, never both; an Invalid
      Date birth date is noticed only after the account is created;
      [pickImage] opens the library with the source's options, changes
      nothing on a cancelled pick, stores the first asset otherwise, and
      throws on a result without assets.
    - Schema: every profile record [handleRegister] writes from a draft
      with a [Date] birth date has the spec's schema ([docType] in the
      enumeration, [birthDate] an ISO date of a valid date), and every
      reachable draft has a valid birth date, so [toISOString] never
      throws on it and the date stored is an ISO date (rule induction
      on [reach]); off UTC, the date the rendered screen shows under
      "Selected Date" ([toDateString]) differs, for some valid birth
      date, from the one [handleRegister] stores.
    - Pipeline: [handleRegister] refines the spec's pipeline: for every
      answer of the services, its effects are the rendering of the
      abstract result, with the backend's message of the first failing
      step.
    - Firebase: [FbModel] satisfies [FirebaseContract], and every call
      keeps its accounts well-formed ([wf]: distinct uids below the uid
      counter).
    - Session (for every environment satisfying the contract): a
      registration that reaches "Login" registers the typed credentials
      and a [users/<uid>] document, and the Login screen then signs in
      with them (a refinement of the two screens into the contract); a
      failure after the creation orphans the account; a second submission
      creates nothing.  On the model, a registration never changes the
      profile of an account that existed before it.
    - Concurrency (for every environment satisfying the contract): for
      any number of taps and any order of settlement, the screen
      navigates to "Login" at most once (an invariant by induction on
      [rtc step], which budgets the navigations each suspended handler
      may still perform).
    - Views: on both screens exactly the password inputs are masked;
      every Register input is controlled by its own field (typing [t]
      shows [t] there and changes no other input), the document-type
      picker shows the chosen value, and the date picker is open exactly
      while [showDatePicker], its answer closing it and becoming the
      "Selected Date" line.
    - Interaction: whatever the user did on the Login screen, "Sign In"
      calls Firebase Auth with the last texts typed into its two inputs
      ([undefined] for an input never typed into); whatever the user did
      on the Register screen, in any interleaving with the handlers'
      setters, a submission creates the account of the last typed
      email and password and writes a profile holding the last text
      typed into each input and the last chosen document type (a
      generic lemma, [foldl_tracks], proved once in a Section).

    Bounds and fuel: no fuel is needed: [prog] is an inductive tree and
    [run] and [sync_prefix] are structural on it, and every [resume]
    consumes one await of a finite tree; the date arithmetic is on [Z]
    (JavaScript time values are integers of at most 8.64e15 in absolute
    value, checked by [toISOString]).  Both calendars repeat every 400
    years (146097 days), so [day_ok_spec] reduces to one era,
    checked by evaluation with [check_range] (proved sound) in about
    half a minute.  The only bounded loop is the digit
    count of the year in [date_string_year], whose fuel 6 covers the
    years of valid time values (at most 275760).

    Not modelled: the layout React Native computes from the styles
    (flexbox, the platform padding of [KeyboardAvoidingView]) and the
    inline style objects, which carry no behaviour; the Firebase services and the
    Expo/React Native platform, which are external libraries (stated as
    the contract and its reference model); React's batching of state
    updates (the setters are applied in program order, which is what the
    user observes once the handler has settled); the [credenciales]
    module and the navigation container, which are outside [src/]; a
    promise that never settles (every [Env] answers every call, so each
    handler finishes by construction and no termination theorem is
    stated).  The handlers read the state of the render they were
    started from: [handleRegister] is given that state as an argument,
    and later edits are not modelled as a separate closure. *)

From stdpp Require Import base strings list.
From Stdlib Require Import String Ascii ZArith Lia.

Declare Scope huellitas_scope.
Delimit Scope huellitas_scope with hu.

Create HintDb huellitas discriminated.
Create Rewrite HintDb huellitas_rw.

(** ** Tactics shared by the development *)

Ltac invc H := inversion H; subst; clear H.

(** Split the pairs and triples produced by interpreting a program. *)
Ltac split_pairs :=
  repeat match goal with
         | H : (_, _) = (_, _) |- _ => injection H as H; subst
         | H : (_, _, _) = (_, _, _) |- _ => injection H as H; subst
         | |- context [let '(_, _) := ?p in _] => destruct p eqn:?
         end.

(** Prove [x ∈ l] for an explicit list [l], instantiating the
    existential variables of [x] with the first element that matches. *)
Ltac solve_elem_of :=
  repeat first [apply list_elem_of_here | apply list_elem_of_further].

(** Split a hypothesis [x ∈ l] on an explicit list into the cases
    [x = y] it allows, discarding the impossible ones. *)
Ltac elem_of_cases H :=
  rewrite ?elem_of_cons, ?elem_of_nil in H; destruct_or! H; simplify_eq.

(** ** Generic lemmas on strings *)

(** stdpp declares [String.append] [simpl never]; these two equations
    replace the reduction steps. *)
Lemma string_app_nil_l (a : string) : "" +:+ a = a.
Proof. reflexivity. Qed.

Lemma string_app_cons (x : ascii) (a b : string) :
  String x a +:+ b = String x (a +:+ b).
Proof. reflexivity. Qed.

Lemma string_app_assoc (a b c : string) : (a +:+ b) +:+ c = a +:+ (b +:+ c).
Proof. induction a as [|x a IH]; rewrite ?string_app_nil_l, ?string_app_cons; congruence. Qed.

Lemma string_app_nil_r (a : string) : a +:+ "" = a.
Proof. induction a as [|x a IH]; rewrite ?string_app_nil_l, ?string_app_cons; congruence. Qed.

Lemma string_length_app (a b : string) :
  String.length (a +:+ b) = String.length a + String.length b.
Proof. induction a as [|x a IH]; rewrite ?string_app_nil_l, ?string_app_cons; simpl; congruence. Qed.

Lemma string_app_cancel_l (s a b : string) : s +:+ a = s +:+ b -> a = b.
Proof. apply String.app_inj. Qed.

(** Appending to prefixes of the same length: the rests agree. *)
Lemma string_app_inj_len (a b x y : string) :
  String.length a = String.length b -> a +:+ x = b +:+ y -> x = y.
Proof.
  revert b. induction a as [|ca a IH]; intros [|cb b]; cbn; try discriminate; [done|].
  intros Hl Heq. injection Heq as _ Heq. apply (IH b); [lia|exact Heq].
Qed.

Lemma string_app_cancel_r (s a b : string) : a +:+ s = b +:+ s -> a = b.
Proof.
  revert b. induction a as [|x a IH]; intros [|y b] H;
    rewrite ?string_app_nil_l, ?string_app_cons in H; try done.
  - apply (f_equal String.length) in H. simpl in H.
    rewrite string_length_app in H. lia.
  - apply (f_equal String.length) in H. simpl in H.
    rewrite string_length_app in H. lia.
  - injection H as -> H. f_equal. by apply IH.
Qed.

#[export] Hint Rewrite string_app_nil_l string_app_cons string_app_assoc
  string_app_nil_r : huellitas_rw.
#[export] Hint Resolve string_app_cancel_l string_app_cancel_r : huellitas.
