(* ===== verification/Js.v ===== *)
(** * The JavaScript the screens rely on

    Error objects (the [FirebaseError], [TypeError] and [RangeError] values
    that reach a [catch] or an unhandled rejection), the settlement of a
    promise, ToBoolean on the string and nullable-string values the screens
    test ([if (imageUri)], [{error ? <Text> : null}]), strict string
    inequality ([password !== confirmPassword]) and
    [String.prototype.split] with a one-character separator together with
    the array read [arr[0]], which give [toISOString().split('T')[0]]. *)

From stdpp Require Import base strings list.
From Stdlib Require Import String Ascii.
From S2P Require Import Prelude.

(** ** Values *)

(** An error object as the handlers see it: its constructor name, the
    [code] a [FirebaseError] carries (empty for the built-in errors) and
    its [message], the only field the screens read ([error.message]). *)
Record js_error := mk_error {
  err_name : string;
  err_code : string;
  err_message : string
}.

#[export] Instance js_error_eq_dec : EqDecision js_error.
Proof. solve_decision. Defined.

(** How an awaited promise settles. *)
Inductive settled (A : Type) : Type :=
| Fulfilled (a : A)
| Rejected (e : js_error).
Arguments Fulfilled {A} a.
Arguments Rejected {A} e.

(** The [TypeError] Hermes raises on [undefined.uri]. *)
Definition type_error_undefined_property (prop : string) : js_error :=
  mk_error "TypeError" "" ("Cannot read property '" +:+ prop +:+ "' of undefined").

(** ** ToBoolean and strict equality on strings *)

(** ToBoolean of a string: only the empty string is falsy. *)
Definition truthy_string (s : string) : bool := negb (String.eqb s "").

(** ToBoolean of a value that is [null] or a string ([useState(null)]). *)
Definition truthy_nullable (o : option string) : bool :=
  match o with
  | Some s => truthy_string s
  | None => false
  end.

(** [a !== b] on two strings. *)
Definition strict_neq_string (a b : string) : bool := negb (String.eqb a b).

(** ** [String.prototype.split] with a one-character separator *)

Fixpoint has_char (c : ascii) (s : string) : bool :=
  match s with
  | EmptyString => false
  | String a s' => Ascii.eqb a c || has_char c s'
  end.

(** [s.split(c)]: the pieces between the occurrences of [c], from left to
    right; a string without [c] gives the one-element array [[s]], the empty
    string included. *)
Fixpoint split_char (c : ascii) (s : string) : list string :=
  match s with
  | EmptyString => [""]
  | String a s' =>
      let rest := split_char c s' in
      if Ascii.eqb a c then "" :: rest
      else match rest with
           | [] => [String a ""]
           | w :: ws => String a w :: ws
           end
  end.

(** [arr.join(c)], the inverse of [split]. *)
Fixpoint join_char (c : ascii) (l : list string) : string :=
  match l with
  | [] => ""
  | [w] => w
  | w :: ws => w +:+ String c (join_char c ws)
  end.

(** [arr[0]]: [undefined] (here [None]) on an empty array. *)
Definition index0 {A} (l : list A) : option A := l !! 0.

(** ** Lemmas *)

Lemma truthy_nullable_true (o : option string) :
  truthy_nullable o = true <-> exists s, o = Some s /\ s <> "".
Proof.
  unfold truthy_nullable, truthy_string. destruct o as [s|]; split.
  - intros H. exists s. split; [done|]. intros ->. done.
  - intros (s' & [= <-] & Hs). destruct (String.eqb_spec s ""); done.
  - done.
  - by intros (s' & ? & _).
Qed.

Lemma truthy_nullable_false (o : option string) :
  truthy_nullable o = false <-> o = None \/ o = Some "".
Proof.
  unfold truthy_nullable, truthy_string. destruct o as [s|]; [|naive_solver].
  destruct (String.eqb_spec s ""); naive_solver.
Qed.

Lemma split_char_nonempty (c : ascii) (s : string) : split_char c s <> [].
Proof.
  induction s as [|a s IH]; simpl; [done|].
  destruct (Ascii.eqb a c); [done|]. by destruct (split_char c s).
Qed.

Lemma split_char_no_sep (c : ascii) (s : string) :
  has_char c s = false -> split_char c s = [s].
Proof.
  induction s as [|a s IH]; simpl; [done|].
  intros [-> Hs]%orb_false_iff. by rewrite IH.
Qed.

Lemma split_char_app_sep (c : ascii) (a b : string) :
  has_char c a = false ->
  split_char c (a +:+ String c b) = a :: split_char c b.
Proof.
  induction a as [|x a IH]; intros Ha.
  - by rewrite string_app_nil_l; simpl; rewrite Ascii.eqb_refl.
  - simpl in Ha. apply orb_false_iff in Ha as [Hx Ha].
    rewrite string_app_cons; simpl. by rewrite Hx, IH.
Qed.

Lemma join_char_cons (c : ascii) (w : string) (ws : list string) :
  ws <> [] -> join_char c (w :: ws) = w +:+ String c (join_char c ws).
Proof. by destruct ws. Qed.

(** Round trip: joining the pieces with the separator gives the string
    back. *)
Lemma join_split_char (c : ascii) (s : string) :
  join_char c (split_char c s) = s.
Proof.
  induction s as [|a s IH]; simpl; [done|].
  pose proof (split_char_nonempty c s) as Hne.
  destruct (Ascii.eqb_spec a c) as [->|_].
  - by rewrite join_char_cons, IH.
  - destruct (split_char c s) as [|w [|w' ws]]; [done| |].
    + simpl in *. congruence.
    + rewrite join_char_cons by done. rewrite join_char_cons in IH by done.
      rewrite string_app_cons. congruence.
Qed.

(** The first piece of [s.split(c)] when [s] is [a], the separator, then
    [b], and [a] has no separator: the prefix [a]. *)
Lemma index0_split_char_app (c : ascii) (a b : string) :
  has_char c a = false ->
  index0 (split_char c (a +:+ String c b)) = Some a.
Proof. intros Ha. unfold index0. by rewrite split_char_app_sep. Qed.

#[export] Hint Resolve split_char_nonempty : huellitas.
