(* ===== verification/JsDate.v ===== *)
(** * JavaScript [Date] as used by the registration screen

    A [Date] holds a time value: an integer number of milliseconds since
    1970-01-01T00:00:00Z, or NaN (here [None]).  The registration screen
    creates one with [new Date()] (RegisterScreen.js line 20), receives
    others from the date picker ([onChangeDate], lines 67-71), shows
    [birthDate.toDateString()] (line 133, in local time) and stores
    [birthDate.toISOString().split('T')[0]] (line 54, in UTC).

    The calendar decomposition follows ECMAScript's [Day], [TimeWithinDay],
    [HourFromTime] ... and the proleptic Gregorian calendar, computed with
    the usual era-based conversion ([civil_from_days]).  Local time is the
    time value plus a fixed offset [LocalTZA] (a zone without daylight
    saving, such as America/Lima at -5 h), a parameter of the section that
    models [toDateString]. *)

From stdpp Require Import base strings list.
From Stdlib Require Import String Ascii ZArith Lia.
From S2P Require Import Prelude Js.

Local Open Scope Z_scope.

(** ** Time values *)

Definition msPerSecond : Z := 1000.
Definition msPerMinute : Z := 60000.
Definition msPerHour : Z := 3600000.
Definition msPerDay : Z := 86400000.
Definition maxTimeValue : Z := 8640000000000000.

(** The time value a [Date] object holds; [None] is NaN. *)
Abbreviation time_value := (option Z).

(** ECMAScript TimeClip: out of range gives NaN. *)
Definition TimeClip (t : Z) : time_value :=
  if Z.abs t <=? maxTimeValue then Some t else None.

Definition Day (t : Z) : Z := t / msPerDay.
Definition HourFromTime (t : Z) : Z := (t / msPerHour) mod 24.
Definition MinFromTime (t : Z) : Z := (t / msPerMinute) mod 60.
Definition SecFromTime (t : Z) : Z := (t / msPerSecond) mod 60.
Definition msFromTime (t : Z) : Z := t mod msPerSecond.
Definition WeekDay (t : Z) : Z := (Day t + 4) mod 7.

(** ** The civil calendar *)

Record civil := mk_civil { c_year : Z; c_month : Z; c_day : Z }.

#[export] Instance civil_eq_dec : EqDecision civil.
Proof. solve_decision. Defined.

(** The year of era, month (1..12) and day of month (1..31) of the
    [doe]-th day of a 400-year era that starts on March 1st. *)
Definition civil_of_doe (doe : Z) : Z * Z * Z :=
  let yoe := (doe - doe / 1460 + doe / 36524 - doe / 146096) / 365 in
  let doy := doe - (365 * yoe + yoe / 4 - yoe / 100) in
  let mp := (5 * doy + 2) / 153 in
  let d := doy - (153 * mp + 2) / 5 + 1 in
  let m := if mp <? 10 then mp + 3 else mp - 9 in
  (yoe, m, d).

(** YearFromTime, MonthFromTime and DateFromTime of day number [z]. *)
Definition civil_from_days (z : Z) : civil :=
  let z' := z + 719468 in
  let era := z' / 146097 in
  let '(yoe, m, d) := civil_of_doe (z' mod 146097) in
  let y := yoe + era * 400 in
  mk_civil (if m <=? 2 then y + 1 else y) m d.

(** ** Formatting *)

Definition digit_char (d : Z) : ascii := ascii_of_nat (48 + Z.to_nat d).

(** The [n] last decimal digits of [v], most significant first, padded
    with zeros. *)
Fixpoint pad_digits (n : nat) (v : Z) : string :=
  match n with
  | O => ""
  | S n' => pad_digits n' (v / 10) +:+ String (digit_char (v mod 10)) ""
  end.

(** The year field of [toISOString]: four digits for years 0..9999, else a
    sign and six digits. *)
Definition iso_year (y : Z) : string :=
  if (0 <=? y) && (y <=? 9999) then pad_digits 4 y
  else (if y <? 0 then "-" else "+") +:+ pad_digits 6 (Z.abs y).

(** [YYYY-MM-DD]. *)
Definition iso_date (c : civil) : string :=
  iso_year (c_year c) +:+ "-" +:+ pad_digits 2 (c_month c) +:+ "-"
    +:+ pad_digits 2 (c_day c).

(** [HH:mm:ss.sss]. *)
Definition iso_time (t : Z) : string :=
  pad_digits 2 (HourFromTime t) +:+ ":" +:+ pad_digits 2 (MinFromTime t) +:+ ":"
    +:+ pad_digits 2 (SecFromTime t) +:+ "." +:+ pad_digits 3 (msFromTime t).

(** The [RangeError] of [toISOString] on an invalid date. *)
Definition invalid_time_value : js_error :=
  mk_error "RangeError" "" "Invalid time value".

(** [Date.prototype.toISOString]: [YYYY-MM-DDTHH:mm:ss.sssZ] in UTC. *)
Definition toISOString (tv : time_value) : settled string :=
  match tv with
  | None => Rejected invalid_time_value
  | Some t => Fulfilled (iso_date (civil_from_days (Day t)) +:+ "T" +:+ iso_time t +:+ "Z")
  end.

(** The first piece of [s.split(c)], which always exists. *)
Fixpoint split_first (c : ascii) (s : string) : string :=
  match s with
  | EmptyString => ""
  | String a s' => if Ascii.eqb a c then "" else String a (split_first c s')
  end.

(** [birthDate.toISOString().split('T')[0]] (RegisterScreen.js line 54):
    the [RangeError] of [toISOString] propagates. *)
Definition birth_date_field (tv : time_value) : settled string :=
  match toISOString tv with
  | Fulfilled s => Fulfilled (split_first "T" s)
  | Rejected e => Rejected e
  end.

(** ** [toDateString], in local time *)

Definition weekday_name (w : Z) : string :=
  match w with
  | 0 => "Sun" | 1 => "Mon" | 2 => "Tue" | 3 => "Wed" | 4 => "Thu"
  | 5 => "Fri" | _ => "Sat"
  end.

Definition month_name (m : Z) : string :=
  match m with
  | 1 => "Jan" | 2 => "Feb" | 3 => "Mar" | 4 => "Apr" | 5 => "May"
  | 6 => "Jun" | 7 => "Jul" | 8 => "Aug" | 9 => "Sep" | 10 => "Oct"
  | 11 => "Nov" | _ => "Dec"
  end.

(** Number of decimal digits of [v >= 0]; the fuel 6 covers every year of
    a valid time value (at most 275760). *)
Fixpoint ndigits (fuel : nat) (v : Z) : nat :=
  match fuel with
  | O => 1
  | S f => if v <? 10 then 1 else S (ndigits f (v / 10))
  end.

(** The year of [toDateString]: a minus sign for negative years, then
    [String(abs(y)).padStart(4, "0")]. *)
Definition date_string_year (y : Z) : string :=
  (if y <? 0 then "-" else "") +:+
    pad_digits (Nat.max 4 (ndigits 6 (Z.abs y))) (Z.abs y).

(** [Www Mmm DD YYYY] of a weekday and a calendar date. *)
Definition date_text (wd : Z) (c : civil) : string :=
  weekday_name wd +:+ " " +:+ month_name (c_month c) +:+ " "
    +:+ pad_digits 2 (c_day c) +:+ " " +:+ date_string_year (c_year c).

Section LocalTime.
(** The device's time-zone offset in milliseconds. *)
Variable LocalTZA : Z.

Definition LocalTime (t : Z) : Z := t + LocalTZA.

(** [Date.prototype.toDateString]: [Www Mmm DD YYYY] in local time. *)
Definition toDateString (tv : time_value) : string :=
  match tv with
  | None => "Invalid Date"
  | Some t =>
      let lt := LocalTime t in
      date_text (WeekDay lt) (civil_from_days (Day lt))
  end.
End LocalTime.

(** ** Lemmas *)

Lemma digit_char_not_T (d : Z) : 0 <= d < 10 -> Ascii.eqb (digit_char d) "T" = false.
Proof.
  intros Hd. unfold digit_char.
  assert (Z.to_nat d < 10)%nat as Hn by lia.
  destruct (Z.to_nat d) as [|[|[|[|[|[|[|[|[|[|]]]]]]]]]]; try reflexivity; lia.
Qed.

Lemma has_char_app (c : ascii) (a b : string) :
  has_char c (a +:+ b) = has_char c a || has_char c b.
Proof.
  induction a as [|x a IH]; [done|].
  rewrite string_app_cons. simpl. by rewrite IH, orb_assoc.
Qed.

Lemma pad_digits_no_T (n : nat) (v : Z) : has_char "T" (pad_digits n v) = false.
Proof.
  revert v. induction n as [|n IH]; intros v; [done|]. cbn [pad_digits].
  rewrite has_char_app, IH. cbn [has_char orb].
  rewrite digit_char_not_T; [done|]. apply Z.mod_pos_bound. lia.
Qed.

Lemma iso_date_no_T (c : civil) : has_char "T" (iso_date c) = false.
Proof.
  unfold iso_date, iso_year.
  rewrite !has_char_app, !pad_digits_no_T.
  destruct ((0 <=? c_year c) && (c_year c <=? 9999)), (c_year c <? 0);
    rewrite ?has_char_app, ?pad_digits_no_T; reflexivity.
Qed.

Lemma split_first_app_sep (c : ascii) (a b : string) :
  has_char c a = false -> split_first c (a +:+ String c b) = a.
Proof.
  induction a as [|x a IH]; intros Ha.
  - rewrite string_app_nil_l. simpl. by rewrite Ascii.eqb_refl.
  - simpl in Ha. apply orb_false_iff in Ha as [Hx Ha].
    rewrite string_app_cons. simpl. by rewrite Hx, IH.
Qed.

(** [split_first] is the element [s.split(c)[0]] reads. *)
Lemma index0_split_char (c : ascii) (s : string) :
  index0 (split_char c s) = Some (split_first c s).
Proof.
  unfold index0. induction s as [|a s IH]; [done|]. simpl.
  destruct (Ascii.eqb a c); [done|].
  destruct (split_char c s); simpl in *; congruence.
Qed.

Lemma Day_of_small_negative (t : Z) : - msPerDay <= t < 0 -> Day t = -1.
Proof.
  intros H. unfold Day. symmetry. apply Z.div_unique with (t + msPerDay);
    unfold msPerDay in *; lia.
Qed.

Lemma Day_of_small_positive (t : Z) : 0 <= t < msPerDay -> Day t = 0.
Proof. intros H. unfold Day. apply Z.div_small. unfold msPerDay in *; lia. Qed.

#[export] Hint Rewrite pad_digits_no_T iso_date_no_T : huellitas_rw.

(** ** What [birthDate.toISOString().split('T')[0]] stores *)

Lemma birth_date_field_Some (t : Z) :
  birth_date_field (Some t) = Fulfilled (iso_date (civil_from_days (Day t))).
Proof.
  unfold birth_date_field, toISOString. f_equal.
  rewrite string_app_cons, string_app_nil_l.
  apply split_first_app_sep, iso_date_no_T.
Qed.

(** C9 The stored birth date is exactly the [YYYY-MM-DD] of the UTC
    calendar day of the time value (the [T] that [split] cuts at is the one
    after the date, since the date part has none), and an invalid date
    makes [toISOString] throw its [RangeError]. *)
Theorem birth_date_field_utc (tv : time_value) :
  birth_date_field tv =
    match tv with
    | Some t => Fulfilled (iso_date (civil_from_days (Day t)))
    | None => Rejected invalid_time_value
    end.
Proof. destruct tv as [t|]; [apply birth_date_field_Some | reflexivity]. Qed.

