(* ===== verification/Calendar.v ===== *)
(** * The calendar of [toISOString] against ECMAScript's definitions

    [JsDate.civil_from_days] computes year, month and day of a day number
    with the era-based algorithm (400-year eras of 146097 days starting on
    March 1st).  ECMAScript defines the same fields through [DayFromYear],
    [InLeapYear] and the month table of [MonthFromTime] / [DateFromTime];
    [MakeDay] is their inverse.  This file states that reference and
    proves the lemmas the other files use: every day number is [MakeDay]
    of the valid date [civil_from_days] returns ([day_ok_spec]),
    [MakeDay] is injective on valid dates, and the years of the valid
    time values lie within the six digits of the expanded year format
    ([day_year_range]).  Both calendars repeat every 400 years, so the
    first lemma reduces to one era, checked by evaluation
    ([check_range], proved sound once).  No claim is stated here: the
    claims about the stored date are in IsoDate.v and Schema.v. *)

From stdpp Require Import base list.
From Stdlib Require Import ZArith Lia.
From S2P Require Import Prelude JsDate.

Local Open Scope Z_scope.

Module Calendar.

(** ** ECMAScript's calendar (ECMA-262, Year Number, Month Number, Date Number) *)

Definition DayFromYear (y : Z) : Z :=
  365 * (y - 1970) + (y - 1969) / 4 - (y - 1901) / 100 + (y - 1601) / 400.

Definition InLeapYear (y : Z) : bool :=
  ((y mod 4 =? 0) && negb (y mod 100 =? 0)) || (y mod 400 =? 0).

Definition DaysInYear (y : Z) : Z := if InLeapYear y then 366 else 365.

(** The day within the year of the first of month [m] (1..12). *)
Definition month_start (leap : bool) (m : Z) : Z :=
  let l := if leap then 1 else 0 in
  match m with
  | 1 => 0 | 2 => 31 | 3 => 59 + l | 4 => 90 + l | 5 => 120 + l | 6 => 151 + l
  | 7 => 181 + l | 8 => 212 + l | 9 => 243 + l | 10 => 273 + l | 11 => 304 + l
  | _ => 334 + l
  end.

Definition days_in_month (leap : bool) (m : Z) : Z :=
  match m with
  | 2 => if leap then 29 else 28
  | 4 | 6 | 9 | 11 => 30
  | _ => 31
  end.

Definition valid_civil (c : civil) : bool :=
  (1 <=? c_month c) && (c_month c <=? 12) && (1 <=? c_day c) &&
  (c_day c <=? days_in_month (InLeapYear (c_year c)) (c_month c)).

(** [MakeDay(year, month - 1, date)], as a day number. *)
Definition MakeDay (c : civil) : Z :=
  DayFromYear (c_year c) + month_start (InLeapYear (c_year c)) (c_month c) + c_day c - 1.

(** ** Checking a range of integers by evaluation *)

Definition check_step (f : Z -> bool) (acc : bool * Z) : bool * Z :=
  (acc.1 && f acc.2, acc.2 + 1).

(** [f] holds on [lo], ..., [lo + n - 1]. *)
Definition check_range (f : Z -> bool) (lo : Z) (n : positive) : bool :=
  (Pos.iter (check_step f) (true, lo) n).1.

Definition shift_years (k : Z) (c : civil) : civil :=
  mk_civil (c_year c + 400 * k) (c_month c) (c_day c).

(** What the era check asks of a day number. *)
Definition day_ok (z : Z) : bool :=
  let c := civil_from_days z in valid_civil c && (MakeDay c =? z).

End Calendar.

Module CalendarProps.
Import Calendar.

(** ** Soundness of the range check *)

Lemma check_range_iter (f : Z -> bool) (lo : Z) (n : positive) :
  (Pos.iter (check_step f) (true, lo) n).2 = lo + Z.pos n /\
  ((Pos.iter (check_step f) (true, lo) n).1 = true ->
   forall i, lo <= i < (Pos.iter (check_step f) (true, lo) n).2 -> f i = true).
Proof.
  induction n as [|n IH] using Pos.peano_ind.
  - simpl. split; [lia|]. intros H i Hi. by replace i with lo by lia.
  - rewrite Pos.iter_succ. destruct (Pos.iter _ _ _) as [b j]. simpl in *.
    destruct IH as [Hj IH]. split; [rewrite Pos2Z.inj_succ; lia|].
    intros H i Hi. apply andb_prop in H as [Hb Hf].
    destruct (decide (i = j)) as [->|]; [done | apply IH; [done | lia]].
Qed.

Lemma check_range_spec (f : Z -> bool) (lo : Z) (n : positive) :
  check_range f lo n = true -> forall i, lo <= i < lo + Z.pos n -> f i = true.
Proof.
  unfold check_range. destruct (check_range_iter f lo n) as [Hj H].
  intros Hc i Hi. apply H; [done | lia].
Qed.

(** ** Both calendars repeat every 400 years *)

Lemma civil_from_days_period (z k : Z) :
  civil_from_days (z + 146097 * k) = shift_years k (civil_from_days z).
Proof.
  unfold civil_from_days.
  replace (z + 146097 * k + 719468) with (z + 719468 + k * 146097) by lia.
  rewrite Z.div_add, Z.mod_add by lia.
  destruct (civil_of_doe _) as [[yoe m] d]. unfold shift_years. simpl.
  f_equal. case_match; lia.
Qed.

Lemma mod_period (y k n q : Z) : n <> 0 -> 400 = q * n ->
  (y + 400 * k) mod n = y mod n.
Proof.
  intros Hn Hd. replace (y + 400 * k) with (y + (q * k) * n) by (rewrite Hd; ring).
  by apply Z.mod_add.
Qed.

Lemma InLeapYear_period (y k : Z) : InLeapYear (y + 400 * k) = InLeapYear y.
Proof.
  unfold InLeapYear.
  by rewrite (mod_period y k 4 100), (mod_period y k 100 4), (mod_period y k 400 1) by lia.
Qed.

Lemma DayFromYear_period (y k : Z) :
  DayFromYear (y + 400 * k) = DayFromYear y + 146097 * k.
Proof.
  unfold DayFromYear.
  replace (y + 400 * k - 1969) with (y - 1969 + (100 * k) * 4) by ring.
  replace (y + 400 * k - 1901) with (y - 1901 + (4 * k) * 100) by ring.
  replace (y + 400 * k - 1601) with (y - 1601 + k * 400) by ring.
  rewrite !Z.div_add by lia. ring.
Qed.

Lemma valid_civil_shift (k : Z) (c : civil) : valid_civil (shift_years k c) = valid_civil c.
Proof. unfold valid_civil, shift_years. simpl. by rewrite InLeapYear_period. Qed.

Lemma MakeDay_shift (k : Z) (c : civil) : MakeDay (shift_years k c) = MakeDay c + 146097 * k.
Proof. unfold MakeDay, shift_years. simpl. rewrite InLeapYear_period, DayFromYear_period. lia. Qed.

(** ** One era, by evaluation *)

Lemma era_check : check_range day_ok 0 146097 = true.
Proof. vm_compute. reflexivity. Qed.

Lemma day_ok_all (z : Z) : day_ok z = true.
Proof.
  pose proof (Z.mod_pos_bound z 146097 ltac:(lia)) as Hb.
  assert (Hz : z = z mod 146097 + 146097 * (z / 146097))
    by (pose proof (Z.div_mod z 146097); lia).
  pose proof (check_range_spec _ _ _ era_check (z mod 146097) ltac:(lia)) as H.
  unfold day_ok in *. cbv zeta in *.
  rewrite Hz, civil_from_days_period, valid_civil_shift, MakeDay_shift.
  apply andb_prop in H as [Hv Hm]. apply Z.eqb_eq in Hm. rewrite Hv, Hm. simpl.
  apply Z.eqb_refl.
Qed.

Lemma day_ok_spec (z : Z) :
  valid_civil (civil_from_days z) = true /\ MakeDay (civil_from_days z) = z.
Proof.
  pose proof (day_ok_all z) as H. unfold day_ok in H. cbv zeta in H.
  apply andb_prop in H as [Hv Hm%Z.eqb_eq]. by split.
Qed.

(** ** The year and the month of a day number are unique *)

Lemma DayFromYear_succ (y : Z) : DayFromYear (y + 1) = DayFromYear y + DaysInYear y.
Proof.
  unfold DayFromYear, DaysInYear, InLeapYear.
  destruct (Z.eqb_spec (y mod 4) 0), (Z.eqb_spec (y mod 100) 0), (Z.eqb_spec (y mod 400) 0);
    cbn [andb orb negb]; Z.div_mod_to_equations; lia.
Qed.

Lemma DaysInYear_pos (y : Z) : 365 <= DaysInYear y <= 366.
Proof. unfold DaysInYear. destruct (InLeapYear y); lia. Qed.

Lemma DayFromYear_mono (y1 y2 : Z) : y1 <= y2 -> DayFromYear y1 <= DayFromYear y2.
Proof.
  intros H. replace y2 with (y1 + Z.of_nat (Z.to_nat (y2 - y1))) by lia.
  induction (Z.to_nat (y2 - y1)) as [|n IH]; [simpl; rewrite Z.add_0_r; lia|].
  rewrite Nat2Z.inj_succ, <-Z.add_1_r, Z.add_assoc, DayFromYear_succ.
  pose proof (DaysInYear_pos (y1 + Z.of_nat n)). lia.
Qed.

Lemma valid_civil_true (c : civil) : valid_civil c = true ->
  1 <= c_month c <= 12 /\ 1 <= c_day c <= days_in_month (InLeapYear (c_year c)) (c_month c).
Proof. unfold valid_civil. rewrite !andb_true_iff, !Z.leb_le. tauto. Qed.

Lemma month_window (leap : bool) (m d : Z) :
  1 <= m <= 12 -> 1 <= d <= days_in_month leap m ->
  0 <= month_start leap m + d - 1 < (if leap then 366 else 365).
Proof.
  intros Hm Hd.
  assert (m = 1 \/ m = 2 \/ m = 3 \/ m = 4 \/ m = 5 \/ m = 6 \/ m = 7 \/ m = 8 \/
          m = 9 \/ m = 10 \/ m = 11 \/ m = 12) as Hc by lia.
  destruct_or! Hc; subst; destruct leap; simpl in *; lia.
Qed.

(** A valid date falls in its year: [YearFromTime] of [MakeDay] is the year. *)
Lemma MakeDay_window (c : civil) : valid_civil c = true ->
  DayFromYear (c_year c) <= MakeDay c < DayFromYear (c_year c + 1).
Proof.
  intros [Hm Hd]%valid_civil_true. pose proof (month_window _ _ _ Hm Hd) as Hw.
  rewrite DayFromYear_succ. unfold MakeDay, DaysInYear. lia.
Qed.

Lemma month_inj (leap : bool) (m1 d1 m2 d2 : Z) :
  1 <= m1 <= 12 -> 1 <= d1 <= days_in_month leap m1 ->
  1 <= m2 <= 12 -> 1 <= d2 <= days_in_month leap m2 ->
  month_start leap m1 + d1 = month_start leap m2 + d2 -> m1 = m2 /\ d1 = d2.
Proof.
  intros Hm1 Hd1 Hm2 Hd2 He.
  assert (m1 = 1 \/ m1 = 2 \/ m1 = 3 \/ m1 = 4 \/ m1 = 5 \/ m1 = 6 \/ m1 = 7 \/ m1 = 8 \/
          m1 = 9 \/ m1 = 10 \/ m1 = 11 \/ m1 = 12) as Hc1 by lia.
  assert (m2 = 1 \/ m2 = 2 \/ m2 = 3 \/ m2 = 4 \/ m2 = 5 \/ m2 = 6 \/ m2 = 7 \/ m2 = 8 \/
          m2 = 9 \/ m2 = 10 \/ m2 = 11 \/ m2 = 12) as Hc2 by lia.
  destruct leap; destruct_or! Hc1; destruct_or! Hc2; subst; simpl in *; lia.
Qed.

(** [MakeDay] is injective on valid dates. *)
Lemma MakeDay_inj (c1 c2 : civil) :
  valid_civil c1 = true -> valid_civil c2 = true -> MakeDay c1 = MakeDay c2 -> c1 = c2.
Proof.
  intros H1 H2 He.
  pose proof (MakeDay_window c1 H1). pose proof (MakeDay_window c2 H2).
  assert (Hy : c_year c1 = c_year c2).
  { destruct (Z.lt_trichotomy (c_year c1) (c_year c2)) as [Hl|[Hl|Hl]]; [|done|];
      [pose proof (DayFromYear_mono (c_year c1 + 1) (c_year c2)) |
       pose proof (DayFromYear_mono (c_year c2 + 1) (c_year c1))]; lia. }
  apply valid_civil_true in H1 as [Hm1 Hd1]. apply valid_civil_true in H2 as [Hm2 Hd2].
  unfold MakeDay in He. rewrite Hy in He, Hd1.
  destruct (month_inj _ _ _ _ _ Hm1 Hd1 Hm2 Hd2 ltac:(lia)) as [Hm Hd].
  destruct c1, c2; simpl in *; congruence.
Qed.

(** ** The era algorithm implements ECMAScript's calendar *)

(** The days of the valid time values. *)
Lemma Day_range (t : Z) : Z.abs t <= maxTimeValue -> -100000000 <= Day t <= 100000000.
Proof.
  intros Ht. apply Z.abs_le in Ht.
  unfold Day, msPerDay, maxTimeValue in *. Z.div_mod_to_equations. lia.
Qed.

(** The years of the days of valid time values. *)
Lemma day_year_range (z : Z) :
  -100000000 <= z <= 100000000 -> -271821 <= c_year (civil_from_days z) <= 275760.
Proof.
  intros Hz. destruct (day_ok_spec z) as [Hv Hm].
  pose proof (MakeDay_window _ Hv) as Hw. rewrite Hm in Hw.
  set (y := c_year (civil_from_days z)) in *.
  split; apply Z.nlt_ge; intros Hy.
  - pose proof (DayFromYear_mono (y + 1) (-271821) ltac:(lia)) as Hd.
    assert (DayFromYear (-271821) = -100000109) as E by reflexivity. lia.
  - pose proof (DayFromYear_mono 275761 y ltac:(lia)) as Hd.
    assert (DayFromYear 275761 = 100000110) as E by reflexivity. lia.
Qed.

End CalendarProps.

