(* ===== verification/IsoDate.v ===== *)
(** * Reading back the stored birth date

    [handleRegister] stores [birthDate.toISOString().split('T')[0]] in the
    profile document (RegisterScreen.js line 54).  This file gives the
    reader of that field, [parse_iso_date] (the [YYYY-MM-DD] and
    [±YYYYYY-MM-DD] forms of ECMAScript's date-time string format), and
    proves that it recovers the date [iso_date] formatted: the stored
    string determines the UTC calendar date of the picked instant. *)

From stdpp Require Import base strings list.
From Stdlib Require Import String Ascii ZArith Lia.
From S2P Require Import Prelude Js JsDate Calendar.

Local Open Scope Z_scope.

Module IsoDate.

Definition digit_value (a : ascii) : option Z :=
  let n := Ascii.nat_of_ascii a in
  if (48 <=? n)%nat && (n <=? 57)%nat then Some (Z.of_nat n - 48) else None.

(** The decimal number the digits of [s] spell, after those read into
    [acc]. *)
Fixpoint parse_digits_from (acc : Z) (s : string) : option Z :=
  match s with
  | EmptyString => Some acc
  | String a s' =>
      match digit_value a with
      | Some d => parse_digits_from (acc * 10 + d) s'
      | None => None
      end
  end.

Definition parse_digits (s : string) : option Z := parse_digits_from 0 s.

(** A four-digit year, or [+] and six digits. *)
Definition parse_year (s : string) : option Z :=
  match parse_digits s with
  | Some y => Some y
  | None =>
      match s with
      | String a s' => if Ascii.eqb a "+" then parse_digits s' else None
      | EmptyString => None
      end
  end.

(** [YYYY-MM-DD], [+YYYYYY-MM-DD] or [-YYYYYY-MM-DD]. *)
Definition parse_iso_date (s : string) : option civil :=
  match split_char "-" s with
  | [y; m; d] =>
      y' ← parse_year y; m' ← parse_digits m; d' ← parse_digits d;
      Some (mk_civil y' m' d')
  | [EmptyString; y; m; d] =>
      y' ← parse_digits y; m' ← parse_digits m; d' ← parse_digits d;
      Some (mk_civil (- y') m' d')
  | _ => None
  end.

End IsoDate.

Module IsoDateProps.
Import IsoDate Calendar CalendarProps.

Lemma digit_value_digit_char (d : Z) : 0 <= d < 10 -> digit_value (digit_char d) = Some d.
Proof.
  intros Hd.
  assert (d = 0 \/ d = 1 \/ d = 2 \/ d = 3 \/ d = 4 \/ d = 5 \/ d = 6 \/ d = 7 \/
          d = 8 \/ d = 9) as Hc by lia.
  destruct_or! Hc; subst; reflexivity.
Qed.

(** A character that is not a digit is no [digit_char]. *)
Lemma digit_char_neq (d : Z) (c : ascii) :
  0 <= d < 10 -> digit_value c = None -> Ascii.eqb (digit_char d) c = false.
Proof.
  intros Hd Hc. apply Ascii.eqb_neq. intros E.
  rewrite <-E, digit_value_digit_char in Hc by done. discriminate.
Qed.

Lemma pad_digits_no_char (c : ascii) (n : nat) (v : Z) :
  digit_value c = None -> has_char c (pad_digits n v) = false.
Proof.
  intros Hc. revert v. induction n as [|n IH]; intros v; [done|]. cbn [pad_digits].
  rewrite has_char_app, IH. cbn [has_char orb].
  rewrite digit_char_neq; [done | | done]. apply Z.mod_pos_bound. lia.
Qed.

Lemma parse_digits_from_app (acc : Z) (a b : string) :
  parse_digits_from acc (a +:+ b) = parse_digits_from acc a ≫= fun x => parse_digits_from x b.
Proof.
  revert acc. induction a as [|x a IH]; intros acc; [done|].
  rewrite string_app_cons. simpl. destruct (digit_value x); [apply IH | done].
Qed.

(** [pad_digits n v] spells the [n] last digits of [v]. *)
Lemma parse_pad_digits (n : nat) (v : Z) :
  0 <= v -> parse_digits (pad_digits n v) = Some (v mod 10 ^ Z.of_nat n).
Proof.
  unfold parse_digits. revert v. induction n as [|n IH]; intros v Hv.
  - simpl. by rewrite Z.mod_1_r.
  - cbn [pad_digits]. rewrite parse_digits_from_app, IH by (apply Z.div_pos; lia).
    cbn [mbind option_bind parse_digits_from].
    rewrite digit_value_digit_char by (apply Z.mod_pos_bound; lia).
    rewrite Nat2Z.inj_succ, Z.pow_succ_r by lia. f_equal.
    set (P := 10 ^ Z.of_nat n). assert (0 < P) by (apply Z.pow_pos_nonneg; lia).
    pose proof (Z.mod_pos_bound (v / 10) P ltac:(lia)).
    pose proof (Z.mod_pos_bound v 10 ltac:(lia)).
    apply Z.mod_unique with ((v / 10) / P); [left; nia|].
    pose proof (Z.div_mod v 10 ltac:(lia)). pose proof (Z.div_mod (v / 10) P ltac:(lia)). nia.
Qed.

Lemma parse_pad_digits_small (n : nat) (v : Z) :
  0 <= v < 10 ^ Z.of_nat n -> parse_digits (pad_digits n v) = Some v.
Proof. intros Hv. rewrite parse_pad_digits by lia. f_equal. by apply Z.mod_small. Qed.

Lemma days_in_month_le (leap : bool) (m : Z) : Calendar.days_in_month leap m <= 31.
Proof. unfold Calendar.days_in_month. repeat case_match; lia. Qed.

Lemma pad_digits_no_dash (n : nat) (v : Z) : has_char "-" (pad_digits n v) = false.
Proof. by apply pad_digits_no_char. Qed.

Lemma parse_digits_plus (s : string) : parse_digits (String "+" s) = None.
Proof. reflexivity. Qed.

(** [-x] with the separator in front is [String "-" x]. *)
Lemma dash_app (x : string) : "-" +:+ x = String "-" x.
Proof. reflexivity. Qed.

(** The month and day part [-MM-DD] of a valid date. *)
Lemma split_month_day (y : string) (m d : Z) :
  has_char "-" y = false ->
  split_char "-" (y +:+ "-" +:+ pad_digits 2 m +:+ "-" +:+ pad_digits 2 d) =
    [y; pad_digits 2 m; pad_digits 2 d].
Proof.
  intros Hy. rewrite !dash_app, !split_char_app_sep, split_char_no_sep;
    auto using pad_digits_no_dash.
Qed.

(** [parse_iso_date] reads back every valid date [iso_date] formats whose
    year has at most six digits. *)
Lemma parse_iso_date_iso_date (c : civil) :
  valid_civil c = true -> -999999 <= c_year c <= 999999 ->
  parse_iso_date (iso_date c) = Some c.
Proof.
  intros [Hm Hd]%valid_civil_true Hy. pose proof (days_in_month_le (InLeapYear (c_year c)) (c_month c)).
  destruct c as [y m d]. cbn [c_year c_month c_day] in *.
  assert (Hpm : parse_digits (pad_digits 2 m) = Some m) by (apply parse_pad_digits_small; simpl; lia).
  assert (Hpd : parse_digits (pad_digits 2 d) = Some d) by (apply parse_pad_digits_small; simpl; lia).
  unfold iso_date, iso_year, parse_iso_date. cbn [c_year c_month c_day].
  destruct ((0 <=? y) && (y <=? 9999)) eqn:E.
  - apply andb_true_iff in E as [E1%Z.leb_le E2%Z.leb_le].
    rewrite split_month_day by apply pad_digits_no_dash. cbv beta iota.
    unfold parse_year. rewrite (parse_pad_digits_small 4 y) by (simpl; lia).
    by rewrite Hpm, Hpd.
  - destruct (y <? 0) eqn:E2.
    + apply Z.ltb_lt in E2. rewrite (dash_app (pad_digits 6 _)), string_app_cons.
      cbn [split_char Ascii.eqb Bool.eqb].
      rewrite split_month_day by apply pad_digits_no_dash. cbv beta iota.
      rewrite (parse_pad_digits_small 6 (Z.abs y)) by (simpl; lia). rewrite Hpm, Hpd.
      cbn [mbind option_bind]. do 2 f_equal. lia.
    + apply Z.ltb_ge in E2. apply andb_false_iff in E as [E%Z.leb_gt|E%Z.leb_gt]; [lia|].
      rewrite split_month_day by (rewrite has_char_app, pad_digits_no_dash; reflexivity).
      rewrite (string_app_cons "+" "" (pad_digits 6 (Z.abs y))), string_app_nil_l.
      cbv beta iota. unfold parse_year. rewrite parse_digits_plus. cbn [Ascii.eqb Bool.eqb].
      rewrite (parse_pad_digits_small 6 (Z.abs y)) by (simpl; lia). rewrite Hpm, Hpd.
      cbn [mbind option_bind]. do 2 f_equal. lia.
Qed.

(** The UTC date of a valid time value, formatted, reads back. *)
Lemma iso_date_of_valid_time (t : Z) :
  Z.abs t <= maxTimeValue ->
  parse_iso_date (iso_date (civil_from_days (Day t))) = Some (civil_from_days (Day t)).
Proof.
  intros Ht. destruct (day_ok_spec (Day t)) as [Hv _].
  pose proof (day_year_range _ (Day_range t Ht)).
  apply parse_iso_date_iso_date; [done | lia].
Qed.

(** C17 The birth date [handleRegister] stores for any valid time value
    [t] reads back as the UTC calendar date of [t]: the profile field
    determines the date, whatever the year. *)
Theorem stored_birth_date_decodes (t : Z) :
  Z.abs t <= maxTimeValue ->
  exists str, birth_date_field (Some t) = Fulfilled str /\
    parse_iso_date str = Some (civil_from_days (Day t)).
Proof.
  intros Ht. eexists. split; [apply birth_date_field_Some|].
  apply iso_date_of_valid_time, Ht.
Qed.

End IsoDateProps.

Module IsoDateWitnesses.
Import IsoDate IsoDateProps.

(** 1995-06-15T12:00:00Z, stored as "1995-06-15". *)
Lemma stored_birth_date_decodes_witness :
  Z.abs 803217600000 <= maxTimeValue /\
  birth_date_field (Some 803217600000) = Fulfilled "1995-06-15" /\
  (exists str, birth_date_field (Some 803217600000) = Fulfilled str /\
     parse_iso_date str = Some (civil_from_days (Day 803217600000))).
Proof.
  split; [unfold maxTimeValue; lia|]. split; [vm_compute; reflexivity|].
  apply stored_birth_date_decodes. unfold maxTimeValue; lia.
Defined.

End IsoDateWitnesses.
