(* ===== verification/Sdk.v ===== *)
(** * The boundary of the screens: SDK calls, answers and UI effects

    Everything the screens await goes through one of the calls below; each
    call has the type of the value its promise fulfils with.  The
    synchronous side effects the handlers perform ([Alert.alert],
    [navigation.navigate], [console.log], and the state setters called
    from asynchronous code) are the [effect]s.  An environment ([Env])
    settles each call and may change its own state (the Firebase project,
    the device's files): it is the contract of the external services, which
    are not code of this repository.  The record written by [setDoc]
    (RegisterScreen.js lines 47-57) is [UserDoc.t], with the object
    literal's keys as field names. *)

From stdpp Require Import base strings list.
From Stdlib Require Import String Strings.Byte ZArith.
From S2P Require Import Prelude Js.

(** ** Data exchanged with the SDK *)

#[export] Instance byte_eq_decision : EqDecision byte := byte_eq_dec.

(** [userCredential.user]: the screens read its [uid] only. *)
Record user := mk_user { uid : string }.
Record user_credential := mk_credential { cred_user : user }.

(** The bytes of a [Blob]. *)
Abbreviation blob := (list byte).

(** A [fetch] [Response]: the body that [response.blob()] reads. *)
Record response := mk_response { resp_url : string; resp_body : blob }.

(** The document written to [users/<uid>] (RegisterScreen.js lines 47-57). *)
Module UserDoc.
Record t := mk {
  email : string;
  username : string;
  fullName : string;
  docType : string;
  docNumber : string;
  age : string;
  birthDate : string;
  address : string;
  photoURL : string
}.
End UserDoc.

(** Options and result of [ImagePicker.launchImageLibraryAsync]. *)
Inductive media_type := MediaImages | MediaVideos | MediaAll.

Record picker_options := mk_picker_options {
  mediaTypes : media_type;
  allowsEditing : bool;
  aspect : Z * Z;
  quality : Z
}.

Record picker_asset := mk_asset { asset_uri : string }.

(** [result.assets] is [null] on a cancelled pick; it is read only when
    [canceled] is false, so the empty list stands for it. *)
Record picker_result := mk_picker_result { canceled : bool; assets : list picker_asset }.

#[export] Instance user_eq_dec : EqDecision user.
Proof. solve_decision. Defined.
#[export] Instance user_credential_eq_dec : EqDecision user_credential.
Proof. solve_decision. Defined.
#[export] Instance response_eq_dec : EqDecision response.
Proof. solve_decision. Defined.
#[export] Instance user_doc_eq_dec : EqDecision UserDoc.t.
Proof. solve_decision. Defined.
#[export] Instance media_type_eq_dec : EqDecision media_type.
Proof. solve_decision. Defined.
#[export] Instance picker_options_eq_dec : EqDecision picker_options.
Proof. solve_decision. Defined.
#[export] Instance picker_asset_eq_dec : EqDecision picker_asset.
Proof. solve_decision. Defined.
#[export] Instance picker_result_eq_dec : EqDecision picker_result.
Proof. solve_decision. Defined.

(** ** Calls *)

Inductive call : Type :=
| SignInWithEmailAndPassword (email password : option string)
| CreateUserWithEmailAndPassword (email password : string)
| Fetch (uri : string)
| ResponseBlob (r : response)
| UploadBytes (path : string) (data : blob)
| GetDownloadURL (path : string)
| SetDoc (collection key : string) (data : UserDoc.t)
| LaunchImageLibraryAsync (opts : picker_options).

#[export] Instance call_eq_dec : EqDecision call.
Proof. solve_decision. Defined.

(** What each call's promise fulfils with. *)
Definition answer (c : call) : Type :=
  match c with
  | SignInWithEmailAndPassword _ _ | CreateUserWithEmailAndPassword _ _ => user_credential
  | Fetch _ => response
  | ResponseBlob _ => blob
  | UploadBytes _ _ => unit
  | GetDownloadURL _ => string
  | SetDoc _ _ _ => unit
  | LaunchImageLibraryAsync _ => picker_result
  end.

(** The same answers in one type, as recorded in a trace. *)
Inductive reply : Type :=
| RCredential (u : user_credential)
| RResponse (r : response)
| RBlob (b : blob)
| RUnit
| RUrl (url : string)
| RPicker (p : picker_result).

#[export] Instance reply_eq_dec : EqDecision reply.
Proof. solve_decision. Defined.

Definition reply_of (c : call) : answer c -> reply :=
  match c return answer c -> reply with
  | SignInWithEmailAndPassword _ _ | CreateUserWithEmailAndPassword _ _ => RCredential
  | Fetch _ => RResponse
  | ResponseBlob _ => RBlob
  | UploadBytes _ _ => fun _ => RUnit
  | GetDownloadURL _ => RUrl
  | SetDoc _ _ _ => fun _ => RUnit
  | LaunchImageLibraryAsync _ => RPicker
  end.

(** ** Synchronous effects *)

Inductive effect : Type :=
| AlertAlert (title message : string)
| Navigate (route : string)
| ConsoleLog (e : js_error)
| SetError (message : string)
| SetImageUri (uri : option string).

#[export] Instance effect_eq_dec : EqDecision effect.
Proof. solve_decision. Defined.

(** One step of an observed run: a call with its settlement, or an
    effect. *)
Inductive event : Type :=
| EvCall (c : call) (r : settled reply)
| EvEffect (ef : effect).

(** ** Environments *)

(** An environment settles every call, possibly changing its state. *)
Class Env (W : Type) := {
  env_call : forall c : call, W -> W * settled (answer c)
}.

(** ** A scripted environment

    The environment of a test: it settles the calls, in order, with the
    replies of a script; a reply of the wrong kind or an exhausted script
    rejects as a network failure would.  The witnesses of the development
    run the screens against it. *)

Record script := mk_script { pending : list (settled reply) }.

Definition answer_of_reply (c : call) (r : reply) : option (answer c) :=
  match c return option (answer c) with
  | SignInWithEmailAndPassword _ _ | CreateUserWithEmailAndPassword _ _ =>
      match r with RCredential u => Some u | _ => None end
  | Fetch _ => match r with RResponse x => Some x | _ => None end
  | ResponseBlob _ => match r with RBlob b => Some b | _ => None end
  | UploadBytes _ _ => match r with RUnit => Some tt | _ => None end
  | GetDownloadURL _ => match r with RUrl u => Some u | _ => None end
  | SetDoc _ _ _ => match r with RUnit => Some tt | _ => None end
  | LaunchImageLibraryAsync _ => match r with RPicker p => Some p | _ => None end
  end.

Definition network_request_failed : js_error :=
  mk_error "FirebaseError" "auth/network-request-failed"
    "Firebase: Error (auth/network-request-failed).".

Definition script_call (c : call) (w : script) : script * settled (answer c) :=
  match pending w with
  | [] => (w, Rejected network_request_failed)
  | Rejected e :: rest => (mk_script rest, Rejected e)
  | Fulfilled r :: rest =>
      match answer_of_reply c r with
      | Some x => (mk_script rest, Fulfilled x)
      | None => (mk_script rest, Rejected network_request_failed)
      end
  end.

#[export] Instance script_env : Env script := {| env_call := script_call |}.
