(* ===== verification/Async.v ===== *)
(** * async/await as a program tree, and its interpretation

    The body of an [async] function is a finite tree [prog A]: it returns,
    throws, performs a synchronous [effect] and goes on, or awaits a
    [call] and goes on with the fulfilment value or with the rejection.
    [x ← p; q] (stdpp's monad notation, through the [MBind] instance) is
    sequencing, [await c] is [await sdkCall(...)], and [try_catch] is
    [try { ... } catch (error) { ... }].  [run] interprets a tree against
    any environment of class [Env]: it threads the environment's state,
    records the trace of events, and ends with how the async function's
    promise settles.  [run] is structural on the tree, so every handler
    terminates. *)

From stdpp Require Import base strings list.
From Stdlib Require Import String.
From S2P Require Import Prelude Js Sdk.

(** ** Programs *)

Inductive prog (A : Type) : Type :=
| Ret (a : A)
| Throw (e : js_error)
| Effect (ef : effect) (k : prog A)
| Await (c : call) (ok : answer c -> prog A) (ko : js_error -> prog A).
Arguments Ret {A} a.
Arguments Throw {A} e.
Arguments Effect {A} ef k.
Arguments Await {A} c ok ko.

Fixpoint prog_bind {A B} (f : A -> prog B) (p : prog A) : prog B :=
  match p with
  | Ret a => f a
  | Throw e => Throw e
  | Effect ef k => Effect ef (prog_bind f k)
  | Await c ok ko => Await c (fun x => prog_bind f (ok x)) (fun e => prog_bind f (ko e))
  end.

#[export] Instance prog_ret : MRet prog := @Ret.
#[export] Instance prog_mbind : MBind prog := @prog_bind.

(** [await call]: a rejection throws at the await. *)
Definition await (c : call) : prog (answer c) := Await c Ret Throw.

(** A synchronous effect statement. *)
Definition emit (ef : effect) : prog unit := Effect ef (Ret tt).

(** A synchronous expression that may throw. *)
Definition of_settled {A} (s : settled A) : prog A :=
  match s with
  | Fulfilled a => Ret a
  | Rejected e => Throw e
  end.

(** [try { p } catch (error) { h(error) }]. *)
Fixpoint try_catch {A} (p : prog A) (h : js_error -> prog A) : prog A :=
  match p with
  | Ret a => Ret a
  | Throw e => h e
  | Effect ef k => Effect ef (try_catch k h)
  | Await c ok ko => Await c (fun x => try_catch (ok x) h) (fun e => try_catch (ko e) h)
  end.

(** ** Interpretation *)

Section Run.
Context {W : Type} `{!Env W}.

Fixpoint run {A} (p : prog A) (w : W) : W * list event * settled A :=
  match p with
  | Ret a => (w, [], Fulfilled a)
  | Throw e => (w, [], Rejected e)
  | Effect ef k =>
      let '(w', tr, o) := run k w in (w', EvEffect ef :: tr, o)
  | Await c ok ko =>
      let '(w1, s) := env_call c w in
      match s with
      | Fulfilled x =>
          let '(w', tr, o) := run (ok x) w1 in
          (w', EvCall c (Fulfilled (reply_of c x)) :: tr, o)
      | Rejected e =>
          let '(w', tr, o) := run (ko e) w1 in
          (w', EvCall c (Rejected e) :: tr, o)
      end
  end.
End Run.

(** ** Observations on traces *)

(** The calls of a trace, in order. *)
Fixpoint calls (tr : list event) : list call :=
  match tr with
  | [] => []
  | EvCall c _ :: tr' => c :: calls tr'
  | EvEffect _ :: tr' => calls tr'
  end.

(** The effects of a trace, in order. *)
Fixpoint effects (tr : list event) : list effect :=
  match tr with
  | [] => []
  | EvEffect ef :: tr' => ef :: effects tr'
  | EvCall _ _ :: tr' => effects tr'
  end.

(** ** Lemmas *)

Section RunLemmas.
Context {W : Type} `{!Env W}.

Lemma run_ret {A} (a : A) (w : W) : run (mret a) w = (w, [], Fulfilled a).
Proof. done. Qed.

Lemma run_effect {A} ef (k : prog A) (w : W) :
  run (Effect ef k) w = let '(w', tr, o) := run k w in (w', EvEffect ef :: tr, o).
Proof. done. Qed.

Lemma run_await_fulfilled {A} c ok ko (w w1 : W) x :
  env_call c w = (w1, Fulfilled x) ->
  run (A:=A) (Await c ok ko) w =
    let '(w', tr, o) := run (ok x) w1 in (w', EvCall c (Fulfilled (reply_of c x)) :: tr, o).
Proof. intros H. simpl. by rewrite H. Qed.

Lemma run_await_rejected {A} c ok ko (w w1 : W) e :
  env_call c w = (w1, Rejected e) ->
  run (A:=A) (Await c ok ko) w =
    let '(w', tr, o) := run (ko e) w1 in (w', EvCall c (Rejected e) :: tr, o).
Proof. intros H. simpl. by rewrite H. Qed.

(** [run] of a sequence: the first program's trace, then the second's,
    unless the first one throws. *)
Lemma run_bind {A B} (p : prog A) (f : A -> prog B) (w : W) :
  run (p ≫= f) w =
    let '(w1, tr1, o1) := run p w in
    match o1 with
    | Fulfilled a => let '(w2, tr2, o2) := run (f a) w1 in (w2, tr1 ++ tr2, o2)
    | Rejected e => (w1, tr1, Rejected e)
    end.
Proof.
  revert w. induction p as [a|e|ef k IH|c ok IHok ko IHko]; intros w; simpl.
  - by destruct (run (f a) w) as [[??]?].
  - done.
  - change (prog_bind f k) with (k ≫= f). rewrite IH.
    destruct (run k w) as [[w1 tr1] [a|e]]; [|done].
    by destruct (run (f a) w1) as [[??]?].
  - destruct (env_call c w) as [w1 [x|e]].
    + change (prog_bind f (ok x)) with (ok x ≫= f). rewrite IHok.
      destruct (run (ok x) w1) as [[w2 tr1] [a|e]]; [|done].
      by destruct (run (f a) w2) as [[??]?].
    + change (prog_bind f (ko e)) with (ko e ≫= f). rewrite IHko.
      destruct (run (ko e) w1) as [[w2 tr1] [a|e']]; [|done].
      by destruct (run (f a) w2) as [[??]?].
Qed.

(** [run] of a [try]/[catch]: a rejection of the body runs the handler
    from the state the body reached, after the body's trace. *)
Lemma run_try_catch {A} (p : prog A) (h : js_error -> prog A) (w : W) :
  run (try_catch p h) w =
    let '(w1, tr1, o1) := run p w in
    match o1 with
    | Fulfilled a => (w1, tr1, Fulfilled a)
    | Rejected e => let '(w2, tr2, o2) := run (h e) w1 in (w2, tr1 ++ tr2, o2)
    end.
Proof.
  revert w. induction p as [a|e|ef k IH|c ok IHok ko IHko]; intros w; simpl.
  - done.
  - by destruct (run (h e) w) as [[??]?].
  - rewrite IH. destruct (run k w) as [[w1 tr1] [a|e]]; [done|].
    by destruct (run (h e) w1) as [[??]?].
  - destruct (env_call c w) as [w1 [x|e]].
    + rewrite IHok. destruct (run (ok x) w1) as [[w2 tr1] [a|e]]; [done|].
      by destruct (run (h e) w2) as [[??]?].
    + rewrite IHko. destruct (run (ko e) w1) as [[w2 tr1] [a|e']]; [done|].
      by destruct (run (h e') w2) as [[??]?].
Qed.

(** A [try]/[catch] whose handler never throws never rejects. *)
Lemma run_try_catch_fulfilled {A} (p : prog A) (h : js_error -> prog A) (w : W) :
  (forall e w', exists a, (run (h e) w').2 = Fulfilled a) ->
  exists a, (run (try_catch p h) w).2 = Fulfilled a.
Proof.
  intros Hh. rewrite run_try_catch.
  destruct (run p w) as [[w1 tr1] [a|e]]; [by eexists|].
  destruct (Hh e w1) as [a Ha].
  destruct (run (h e) w1) as [[w2 tr2] o2]. simpl in *. by eexists.
Qed.
End RunLemmas.

Lemma calls_app (tr1 tr2 : list event) : calls (tr1 ++ tr2) = calls tr1 ++ calls tr2.
Proof. induction tr1 as [|[] tr1 IH]; simpl; congruence. Qed.

Lemma effects_app (tr1 tr2 : list event) : effects (tr1 ++ tr2) = effects tr1 ++ effects tr2.
Proof. induction tr1 as [|[] tr1 IH]; simpl; congruence. Qed.

#[export] Hint Rewrite @run_effect @calls_app @effects_app : huellitas_rw.

(** ** Symbolic execution

    [run_simpl] unfolds the program combinators and [run] and nothing
    else; [run_case] splits on how the next awaited call settles;
    [run_exec] alternates them until no call is left. *)

Ltac run_simpl :=
  cbn [run prog_bind try_catch await emit of_settled mbind prog_mbind mret prog_ret
       reply_of app calls effects truthy_string negb String.eqb] in *.

Ltac run_case :=
  match goal with
  | |- context [env_call ?c ?w] =>
      let E := fresh "Hcall" in
      destruct (env_call c w) as [?w [?x|?e]] eqn:E
  end.

Ltac run_exec := repeat (run_simpl; try run_case); run_simpl.

(** Close [l1 `prefix_of` l2] between explicit lists. *)
Ltac solve_prefix := repeat (apply prefix_cons || apply prefix_nil).
