(* ===== verification/Firebase.v ===== *)
(** * The contract of the external services, and a reference model of it

    The screens only call Firebase Authentication, Cloud Firestore, Cloud
    Storage, [fetch] and the Expo image picker; none of them is code of
    this repository.  [FirebaseObs] names what a client can observe of
    their state (the registered accounts, the documents, the stored
    objects) and [FirebaseContract] states the laws the screens rely on:
    account creation succeeds only for a new email and registers it,
    sign-in succeeds for a registered email and password, a fulfilled
    [setDoc] stores its document, a fulfilled [uploadBytes] stores its
    bytes, and every other call leaves these observations alone.

    [FbModel] is an in-memory implementation (accounts, documents and
    objects as stdpp [gmap]s, the device's files, the security rules as the
    set of collections whose writes are denied, connectivity) with the
    error codes of the Firebase JS SDK; [fb_contract] proves it satisfies
    the contract, so the contract is consistent and the witnesses of the
    client theorems run against it. *)

From stdpp Require Import base strings list gmap sets pretty.
From Stdlib Require Import String Ascii ZArith.
From S2P Require Import Prelude Js Sdk Async.

(** ** The contract *)

Class FirebaseObs (W : Type) := {
  (** the password and uid registered for an email *)
  account : W -> string -> option (string * string);
  (** the document of a collection under a key *)
  document : W -> string -> string -> option UserDoc.t;
  (** the bytes stored at a storage path *)
  stored_object : W -> string -> option blob;
  (** whether the device reaches the services *)
  connected : W -> bool
}.

Definition is_create (c : call) : bool :=
  match c with CreateUserWithEmailAndPassword _ _ => true | _ => false end.

Definition writes_doc (col k : string) (c : call) : bool :=
  match c with
  | SetDoc col' k' _ => bool_decide (col = col' /\ k = k')
  | _ => false
  end.

Class FirebaseContract (W : Type) `{!Env W, !FirebaseObs W} := {
  create_fulfilled : forall e p w w' cred,
    env_call (CreateUserWithEmailAndPassword e p) w = (w', Fulfilled cred) ->
    account w e = None /\ account w' e = Some (p, uid (cred_user cred));
  create_other : forall e p w e',
    e' <> e -> account (env_call (CreateUserWithEmailAndPassword e p) w).1 e' = account w e';
  create_rejected : forall e p w w' err,
    env_call (CreateUserWithEmailAndPassword e p) w = (w', Rejected err) ->
    account w' e = account w e;
  accounts_frame : forall c w e,
    is_create c = false -> account (env_call c w).1 e = account w e;
  connected_frame : forall c w, connected (env_call c w).1 = connected w;
  signin_registered : forall e p u w,
    connected w = true -> account w e = Some (p, u) ->
    (env_call (SignInWithEmailAndPassword (Some e) (Some p)) w).2 =
      Fulfilled (mk_credential (mk_user u));
  setdoc_fulfilled : forall col k d w w',
    env_call (SetDoc col k d) w = (w', Fulfilled tt) -> document w' col k = Some d;
  setdoc_rejected : forall col k d w w' err,
    env_call (SetDoc col k d) w = (w', Rejected err) -> document w' col k = document w col k;
  documents_frame : forall c w col k,
    writes_doc col k c = false -> document (env_call c w).1 col k = document w col k;
  upload_fulfilled : forall p b w w',
    env_call (UploadBytes p b) w = (w', Fulfilled tt) -> stored_object w' p = Some b
}.

(** ** A reference model *)

Module FbModel.

Record state := mk_state {
  accounts : gmap string (string * string);
  next_uid : N;
  docs : gmap (string * string) UserDoc.t;
  objects : gmap string blob;
  files : gmap string blob;
  denied : gset string;
  picker : picker_result;
  online : bool
}.

Definition set_accounts (a : gmap string (string * string)) (n : N) (w : state) : state :=
  mk_state a n (docs w) (objects w) (files w) (denied w) (picker w) (online w).
Definition set_docs (d : gmap (string * string) UserDoc.t) (w : state) : state :=
  mk_state (accounts w) (next_uid w) d (objects w) (files w) (denied w) (picker w) (online w).
Definition set_objects (o : gmap string blob) (w : state) : state :=
  mk_state (accounts w) (next_uid w) (docs w) o (files w) (denied w) (picker w) (online w).

Definition firebase_error (service code message : string) : js_error :=
  mk_error "FirebaseError" (service +:+ "/" +:+ code) message.

Definition auth_error (code : string) : js_error :=
  firebase_error "auth" code ("Firebase: Error (auth/" +:+ code +:+ ").").

Definition weak_password : js_error :=
  firebase_error "auth" "weak-password"
    "Firebase: Password should be at least 6 characters (auth/weak-password).".

Definition uid_of (n : N) : string := "uid-" +:+ pretty n.

Definition download_url (path : string) : string :=
  "https://firebasestorage.googleapis.com/v0/b/huellitas.appspot.com/o/" +:+ path +:+ "?alt=media".

Definition sign_in (e p : option string) (w : state) : state * settled user_credential :=
  if negb (online w) then (w, Rejected (auth_error "network-request-failed")) else
  match e, p with
  | Some e, Some p =>
      match accounts w !! e with
      | Some (p', u) => if String.eqb p p' then (w, Fulfilled (mk_credential (mk_user u)))
                        else (w, Rejected (auth_error "invalid-credential"))
      | None => (w, Rejected (auth_error "invalid-credential"))
      end
  | _, _ => (w, Rejected (auth_error "invalid-email"))
  end.

Definition create_user (e p : string) (w : state) : state * settled user_credential :=
  if negb (online w) then (w, Rejected (auth_error "network-request-failed"))
  else if negb (has_char "@"%char e) then (w, Rejected (auth_error "invalid-email"))
  else if (String.length p <? 6)%nat then (w, Rejected weak_password)
  else match accounts w !! e with
       | Some _ => (w, Rejected (auth_error "email-already-in-use"))
       | None =>
           let u := uid_of (next_uid w) in
           (set_accounts (<[e := (p, u)]> (accounts w)) (next_uid w + 1) w,
            Fulfilled (mk_credential (mk_user u)))
       end.

Definition fetch (uri : string) (w : state) : state * settled response :=
  match files w !! uri with
  | Some b => (w, Fulfilled (mk_response uri b))
  | None => (w, Rejected (mk_error "TypeError" "" "Network request failed"))
  end.

Definition upload_bytes (path : string) (b : blob) (w : state) : state * settled unit :=
  if online w then (set_objects (<[path := b]> (objects w)) w, Fulfilled tt)
  else (w, Rejected (firebase_error "storage" "retry-limit-exceeded"
                       "Firebase Storage: Max retry time for operation exceeded, please try again. (storage/retry-limit-exceeded)")).

Definition get_download_url (path : string) (w : state) : state * settled string :=
  match objects w !! path with
  | Some _ => (w, Fulfilled (download_url path))
  | None => (w, Rejected (firebase_error "storage" "object-not-found"
                          ("Firebase Storage: Object '" +:+ path +:+ "' does not exist. (storage/object-not-found)")))
  end.

Definition set_doc (col k : string) (d : UserDoc.t) (w : state) : state * settled unit :=
  if negb (online w) then
    (w, Rejected (firebase_error "firestore" "unavailable" "Failed to get document because the client is offline."))
  else if bool_decide (col ∈ denied w) then
    (w, Rejected (firebase_error "firestore" "permission-denied" "Missing or insufficient permissions."))
  else (set_docs (<[(col, k) := d]> (docs w)) w, Fulfilled tt).

Definition fb_call (c : call) (w : state) : state * settled (answer c) :=
  match c return state * settled (answer c) with
  | SignInWithEmailAndPassword e p => sign_in e p w
  | CreateUserWithEmailAndPassword e p => create_user e p w
  | Fetch uri => fetch uri w
  | ResponseBlob r => (w, Fulfilled (resp_body r))
  | UploadBytes path b => upload_bytes path b w
  | GetDownloadURL path => get_download_url path w
  | SetDoc col k d => set_doc col k d w
  | LaunchImageLibraryAsync _ => (w, Fulfilled (picker w))
  end.

#[export] Instance fb_env : Env state := {| env_call := fb_call |}.

#[export] Instance fb_obs : FirebaseObs state := {|
  account w e := accounts w !! e;
  document w col k := docs w !! (col, k);
  stored_object w p := objects w !! p;
  connected w := online w
|}.

(** A project with no account, document or object, online, with the
    device files [fs] and the next pick [r]. *)
Definition empty (fs : gmap string blob) (r : picker_result) : state :=
  mk_state ∅ 0 ∅ ∅ fs ∅ r true.

(** Well-formedness of the accounts: every uid is [uid_of n] for an [n]
    below [next_uid], and no two emails share a uid. *)
Definition wf (w : state) : Prop :=
  (forall e p u, accounts w !! e = Some (p, u) -> exists n, (n < next_uid w)%N /\ u = uid_of n) /\
  (forall e1 e2 p1 p2 u, accounts w !! e1 = Some (p1, u) -> accounts w !! e2 = Some (p2, u) ->
     e1 = e2).

End FbModel.

(** ** The model satisfies the contract *)

Module FbModelProps.
Import FbModel.

Lemma create_user_accounts (e p : string) (w : state) :
  accounts (create_user e p w).1 = accounts w \/
  (accounts w !! e = None /\
   accounts (create_user e p w).1 = <[e := (p, uid_of (next_uid w))]> (accounts w) /\
   (create_user e p w).2 = Fulfilled (mk_credential (mk_user (uid_of (next_uid w))))).
Proof.
  unfold create_user.
  destruct (online w), (has_char "@"%char e), (String.length p <? 6)%nat,
    (accounts w !! e) eqn:He; simpl; auto.
Qed.

Lemma create_user_rejected_same (e p : string) (w w' : state) (err : js_error) :
  create_user e p w = (w', Rejected err) -> w' = w.
Proof.
  unfold create_user.
  destruct (online w), (has_char "@"%char e), (String.length p <? 6)%nat,
    (accounts w !! e); simpl; congruence.
Qed.

Lemma fb_call_accounts (c : call) (w : state) :
  is_create c = false -> accounts (fb_call c w).1 = accounts w.
Proof.
  destruct c; simpl; try done; intros _.
  - unfold sign_in. by repeat case_match.
  - unfold fetch. by case_match.
  - unfold upload_bytes. by case_match.
  - unfold get_download_url. by case_match.
  - unfold set_doc. by repeat case_match.
Qed.

Lemma fb_call_docs (c : call) (w : state) (col k : string) :
  writes_doc col k c = false -> docs (fb_call c w).1 !! (col, k) = docs w !! (col, k).
Proof.
  destruct c; simpl; try done; intros Hw.
  - unfold sign_in. by repeat case_match.
  - unfold create_user. by repeat case_match.
  - unfold fetch. by case_match.
  - unfold upload_bytes. by case_match.
  - unfold get_download_url. by case_match.
  - unfold set_doc. repeat case_match; try done. simpl.
    rewrite lookup_insert_ne; [done|]. intros [=]. subst.
    rewrite bool_decide_true in Hw by done. discriminate.
Qed.

Lemma fb_call_online (c : call) (w : state) : online (fb_call c w).1 = online w.
Proof.
  destruct c; simpl; try done.
  - unfold sign_in. by repeat case_match.
  - unfold create_user. by repeat case_match.
  - unfold fetch. by case_match.
  - unfold upload_bytes. by case_match.
  - unfold get_download_url. by case_match.
  - unfold set_doc. by repeat case_match.
Qed.

#[export] Instance fb_contract : FirebaseContract state.
Proof.
  split; simpl.
  - intros e p w w' cred Hc. unfold create_user in Hc.
    destruct (online w), (has_char "@"%char e), (String.length p <? 6)%nat,
      (accounts w !! e) eqn:He; simpl in Hc; try congruence.
    injection Hc as <- <-. split; [done|]. simpl. by rewrite lookup_insert_eq.
  - intros e p w e' Hne.
    destruct (create_user_accounts e p w) as [-> | (_ & -> & _)]; [done|].
    by rewrite lookup_insert_ne.
  - intros e p w w' err Hc. by rewrite (create_user_rejected_same e p w w' err Hc).
  - intros c w e Hc. by rewrite fb_call_accounts.
  - apply fb_call_online.
  - intros e p u w Ho Ha. unfold sign_in. rewrite Ho. simpl.
    rewrite Ha, String.eqb_refl. done.
  - intros col k d w w' Hc. unfold set_doc in Hc.
    destruct (online w), (bool_decide (col ∈ denied w)); simpl in Hc; try congruence.
    injection Hc as <-. simpl. by rewrite lookup_insert_eq.
  - intros col k d w w' err Hc. unfold set_doc in Hc.
    destruct (online w), (bool_decide (col ∈ denied w)); simpl in Hc; congruence.
  - intros c w col k Hw. by apply fb_call_docs.
  - intros p b w w' Hc. unfold upload_bytes in Hc.
    destruct (online w); simpl in Hc; [|congruence].
    injection Hc as <-. simpl. by rewrite lookup_insert_eq.
Qed.

(** ** Well-formedness of the model *)

Lemma uid_of_inj (n m : N) : uid_of n = uid_of m -> n = m.
Proof. unfold uid_of. intros H%string_app_cancel_l. by apply (inj pretty). Qed.

Lemma create_user_cases (e p : string) (w : state) :
  (exists err, create_user e p w = (w, Rejected err)) \/
  (accounts w !! e = None /\
   create_user e p w = (set_accounts (<[e := (p, uid_of (next_uid w))]> (accounts w)) (next_uid w + 1) w,
                        Fulfilled (mk_credential (mk_user (uid_of (next_uid w)))))).
Proof.
  unfold create_user.
  destruct (online w), (has_char "@"%char e), (String.length p <? 6)%nat,
    (accounts w !! e) eqn:He; simpl; eauto.
Qed.

Lemma fb_call_next_uid (c : call) (w : state) :
  is_create c = false -> next_uid (fb_call c w).1 = next_uid w.
Proof.
  destruct c; simpl; try done; intros _;
    unfold sign_in, fetch, upload_bytes, get_download_url, set_doc; by repeat case_match.
Qed.

Lemma wf_ext (w w' : state) :
  accounts w' = accounts w -> next_uid w' = next_uid w -> wf w -> wf w'.
Proof. unfold wf. by intros -> ->. Qed.

Lemma wf_empty (fs : gmap string blob) (r : picker_result) : wf (empty fs r).
Proof. split; intros *; simpl; rewrite lookup_empty; discriminate. Qed.

(** Every operation of the model keeps it well-formed: an account
    creation takes the next uid, which no account has yet. *)
Lemma fb_call_wf (c : call) (w : state) : wf w -> wf (fb_call c w).1.
Proof.
  intros [Hlt Huniq]. destruct (is_create c) eqn:Hc.
  2: { apply wf_ext with w; [by apply fb_call_accounts | by apply fb_call_next_uid | done]. }
  destruct c as [| e p | | | | | |]; try discriminate. simpl.
  destruct (create_user_cases e p w) as [[err ->] | [Hnone ->]]; [done|].
  unfold wf, set_accounts. cbn [fst accounts next_uid]. split.
  - intros e' p' u'. rewrite lookup_insert_Some.
    intros [[<- [= <- <-]] | [_ Hl]]; [exists (next_uid w); split; [lia | done]|].
    destruct (Hlt _ _ _ Hl) as (n & Hn & ->). exists n. split; [lia | done].
  - intros e1 e2 p1 p2 u. rewrite !lookup_insert_Some.
    intros [[<- Heq1] | [Hne1 H1]] [[<- Heq2] | [Hne2 H2]]; simplify_eq;
      [done | destruct (Hlt _ _ _ H2) as (n & Hn & Hu') | destruct (Hlt _ _ _ H1) as (n & Hn & Hu') | eauto];
      apply uid_of_inj in Hu'; lia.
Qed.

(** A fulfilled account creation on a well-formed model returns a uid
    that no existing account has. *)
Lemma create_user_fresh (e p : string) (w w' : state) (cred : user_credential) :
  wf w -> create_user e p w = (w', Fulfilled cred) ->
  forall e' p' u', accounts w !! e' = Some (p', u') -> u' <> uid (cred_user cred).
Proof.
  intros [Hlt _] Hc e' p' u' Hu ->.
  destruct (create_user_cases e p w) as [[err Hr] | [_ Hr]]; rewrite Hr in Hc; [discriminate|].
  injection Hc as _ <-. simpl in Hu.
  destruct (Hlt _ _ _ Hu) as (n & Hn & Hn'). apply uid_of_inj in Hn'. lia.
Qed.

Lemma run_wf {A} (p : prog A) (w : state) : wf w -> wf (run p w).1.1.
Proof.
  revert w. induction p as [a|e|ef k IH|c ok IHok ko IHko]; intros w Hw; simpl; [done | done | |].
  - destruct (run k w) as [[w' tr] o] eqn:E. simpl. specialize (IH w Hw). by rewrite E in IH.
  - pose proof (fb_call_wf c w Hw) as Hw1. change (env_call c w) with (fb_call c w).
    destruct (fb_call c w) as [w1 [x|err]]; simpl in Hw1.
    + specialize (IHok x w1 Hw1). destruct (run (ok x) w1) as [[w' tr] o]. exact IHok.
    + specialize (IHko err w1 Hw1). destruct (run (ko err) w1) as [[w' tr] o]. exact IHko.
Qed.

Lemma writes_doc_other (col k : string) (c : call) :
  (forall d, c <> SetDoc col k d) -> writes_doc col k c = false.
Proof.
  intros Hc. destruct c; try done. simpl. case_bool_decide as Hb; [|done].
  destruct Hb as [-> ->]. exfalso. eapply Hc. reflexivity.
Qed.

(** A program that calls no [setDoc] on [col/k] leaves that document. *)
Lemma run_docs_frame {A} (p : prog A) (w : state) (col k : string) :
  (forall d, SetDoc col k d ∉ calls (run p w).1.2) ->
  docs (run p w).1.1 !! (col, k) = docs w !! (col, k).
Proof.
  revert w. induction p as [a|e|ef k' IH|c ok IHok ko IHko]; intros w Hn; simpl in *; [done | done | |].
  - destruct (run k' w) as [[w' tr] o] eqn:E. simpl in *.
    specialize (IH w). rewrite E in IH. by apply IH.
  - change (env_call c w) with (fb_call c w) in *.
    assert (Hw : writes_doc col k c = false).
    { apply writes_doc_other. intros d ->. apply (Hn d).
      destruct (fb_call _ w) as [w1 [x|err]];
        [destruct (run (ok x) w1) as [[??]?] | destruct (run (ko err) w1) as [[??]?]];
        simpl; left. }
    pose proof (fb_call_docs c w col k Hw) as Hd.
    destruct (fb_call c w) as [w1 [x|err]]; simpl in Hd.
    + specialize (IHok x w1). destruct (run (ok x) w1) as [[w' tr] o]. simpl in *.
      rewrite IHok; [done|]. intros d Hin. apply (Hn d). by right.
    + specialize (IHko err w1). destruct (run (ko err) w1) as [[w' tr] o]. simpl in *.
      rewrite IHko; [done|]. intros d Hin. apply (Hn d). by right.
Qed.

End FbModelProps.

(** ** Reasoning with the contract after symbolic execution

    [fb_facts] turns every settled call [env_call c w = (w', r)] left by
    [run_exec] into what the contract says about [w'] and [w]: the
    connectivity is kept; an account creation registers its email (or
    changes nothing when it is rejected); every other call keeps the
    accounts; a fulfilled [setDoc] stores its document, a rejected one
    keeps it, every other call keeps the documents. *)

Ltac fb_fact H :=
  lazymatch type of H with
  | env_call ?c ?w = (?w', ?r) =>
      let Hc := fresh "Hconn" in
      pose proof (connected_frame c w) as Hc; rewrite H in Hc; cbn [fst] in Hc;
      lazymatch c with
      | CreateUserWithEmailAndPassword ?e ?p =>
          let Ho := fresh "Hother" in
          pose proof (create_other e p w) as Ho; rewrite H in Ho; cbn [fst] in Ho;
          let Hd := fresh "Hdoc" in
          pose proof (fun col k => documents_frame c w col k eq_refl) as Hd;
          rewrite H in Hd; cbn [fst] in Hd;
          lazymatch r with
          | Fulfilled ?x => let Hn := fresh "Hnew" in pose proof (create_fulfilled e p w w' x H) as Hn
          | Rejected ?err => let Hn := fresh "Hsame" in pose proof (create_rejected e p w w' err H) as Hn
          end
      | SetDoc ?col ?k ?d =>
          let Ha := fresh "Hacc" in
          pose proof (fun e => accounts_frame c w e eq_refl) as Ha; rewrite H in Ha; cbn [fst] in Ha;
          lazymatch r with
          | Fulfilled ?x => let Hn := fresh "Hstored" in
                            destruct x; pose proof (setdoc_fulfilled col k d w w' H) as Hn
          | Rejected ?err => let Hn := fresh "Hkept" in pose proof (setdoc_rejected col k d w w' err H) as Hn
          end
      | _ =>
          let Ha := fresh "Hacc" in
          pose proof (fun e => accounts_frame c w e eq_refl) as Ha; rewrite H in Ha; cbn [fst] in Ha;
          let Hd := fresh "Hdoc" in
          pose proof (fun col k => documents_frame c w col k eq_refl) as Hd;
          rewrite H in Hd; cbn [fst] in Hd
      end;
      clear H
  end.

Ltac fb_facts :=
  repeat match goal with H : env_call _ _ = (_, _) |- _ => fb_fact H end.

(** Rewrite an observation of a later state back to an earlier one along
    the frame equations of [fb_facts]. *)
Ltac chain_accounts :=
  repeat match goal with
         | H : forall e, account ?a e = account ?b e |- context [account ?a _] => rewrite H
         end.
Ltac chain_documents :=
  repeat match goal with
         | H : forall col k, document ?a col k = document ?b col k
           |- context [document ?a _ _] => rewrite H
         | H : document ?a ?c ?k = document ?b ?c ?k |- context [document ?a ?c ?k] => rewrite H
         end.
Ltac chain_connected :=
  repeat match goal with
         | H : connected ?a = connected ?b |- context [connected ?a] => rewrite H
         end.
