(* ===== verification/Login.v ===== *)
(** * The Login screen (src/screens/Login.js)

    State: the two [useState()] hooks [email] and [password] (lines 7-8),
    which start [undefined] ([None]) and become the typed text through
    [onChangeText] (lines 29 and 34).  Operations: [logueo] (lines 10-19),
    the "Sign In" button's handler, and the "Register" button's inline
    handler (line 42).  [dispatch] is what a user action does to the
    screen: the synchronous state update and the asynchronous program it
    starts. *)

From stdpp Require Import base strings list sets.
From Stdlib Require Import String.
From S2P Require Import Prelude Js Sdk Async.

Module LoginScreen.

Record state := mk_state { email : option string; password : option string }.

(** [useState()] twice: both fields [undefined]. *)
Definition initial : state := mk_state None None.

Definition setEmail (text : string) (s : state) : state := mk_state (Some text) (password s).
Definition setPassword (text : string) (s : state) : state := mk_state (email s) (Some text).

Definition login_failed_message : string := "El usuario o contraseña son incorrectos.".

(** [logueo]: sign in, then alert and navigate to "Home"; any rejection
    is logged and replaced by one generic alert. *)
Definition logueo (s : state) : prog unit :=
  try_catch
    (_ ← await (SignInWithEmailAndPassword (email s) (password s));
     _ ← emit (AlertAlert "Iniciando Sesion" "Accediendo.....");
     emit (Navigate "Home"))
    (fun error =>
       _ ← emit (ConsoleLog error);
       emit (AlertAlert "Error" login_failed_message)).

(** The "Register" button (line 42). *)
Definition goToRegister : prog unit := emit (Navigate "Register").

(** The user's actions on the screen. *)
Inductive action :=
| ChangeEmail (text : string)
| ChangePassword (text : string)
| PressSignIn
| PressRegister.

Definition dispatch (s : state) (a : action) : state * prog unit :=
  match a with
  | ChangeEmail text => (setEmail text s, mret tt)
  | ChangePassword text => (setPassword text s, mret tt)
  | PressSignIn => (s, logueo s)
  | PressRegister => (s, goToRegister)
  end.

End LoginScreen.

(** ** Properties of [logueo] *)

Module LoginProps.
Import LoginScreen.

Section WithEnv.
Context {W : Type} `{!Env W}.

(** C5 A fulfilled sign-in alerts, then navigates to "Home" exactly
    once; the promise of [logueo] fulfils. *)
Theorem logueo_signin_fulfilled (s : state) (w w1 : W) (cred : user_credential) :
  env_call (SignInWithEmailAndPassword (email s) (password s)) w = (w1, Fulfilled cred) ->
  run (logueo s) w =
    (w1, [EvCall (SignInWithEmailAndPassword (email s) (password s)) (Fulfilled (RCredential cred));
          EvEffect (AlertAlert "Iniciando Sesion" "Accediendo.....");
          EvEffect (Navigate "Home")], Fulfilled tt).
Proof. intros H. unfold logueo. simpl. by rewrite H. Qed.

(** C6 A rejected sign-in, whatever the reason, is logged and shown as
    the one generic alert; there is no navigation and the promise of
    [logueo] still fulfils. *)
Theorem logueo_signin_rejected (s : state) (w w1 : W) (e : js_error) :
  env_call (SignInWithEmailAndPassword (email s) (password s)) w = (w1, Rejected e) ->
  run (logueo s) w =
    (w1, [EvCall (SignInWithEmailAndPassword (email s) (password s)) (Rejected e);
          EvEffect (ConsoleLog e);
          EvEffect (AlertAlert "Error" login_failed_message)], Fulfilled tt).
Proof. intros H. unfold logueo. simpl. by rewrite H. Qed.
End WithEnv.
End LoginProps.

(** ** Witnesses: [logueo] against a scripted environment *)

Module LoginWitnesses.
Import LoginScreen LoginProps.

Lemma logueo_signin_fulfilled_witness :
  let s := mk_state (Some "ana@huellitas.pe") (Some "secret1") in
  let cred := mk_credential (mk_user "uid-ana") in
  let w := mk_script [Fulfilled (RCredential cred)] in
  env_call (SignInWithEmailAndPassword (email s) (password s)) w = (mk_script [], Fulfilled cred) /\
  run (logueo s) w =
    (mk_script [], [EvCall (SignInWithEmailAndPassword (email s) (password s)) (Fulfilled (RCredential cred));
                    EvEffect (AlertAlert "Iniciando Sesion" "Accediendo.....");
                    EvEffect (Navigate "Home")], Fulfilled tt).
Proof. intros s cred w. split; [reflexivity|]. by apply logueo_signin_fulfilled. Defined.

Lemma logueo_signin_rejected_witness :
  let s := initial in
  let e := mk_error "FirebaseError" "auth/invalid-email" "Firebase: Error (auth/invalid-email)." in
  let w := mk_script [Rejected e] in
  env_call (SignInWithEmailAndPassword (email s) (password s)) w = (mk_script [], Rejected e) /\
  run (logueo s) w =
    (mk_script [], [EvCall (SignInWithEmailAndPassword (email s) (password s)) (Rejected e);
                    EvEffect (ConsoleLog e);
                    EvEffect (AlertAlert "Error" login_failed_message)], Fulfilled tt).
Proof. intros s e w. split; [reflexivity|]. by apply logueo_signin_rejected. Defined.

End LoginWitnesses.
