(* ===== verification/Register.v ===== *)
(** * The registration screen (src/screens/RegisterScreen.js)

    State: the thirteen [useState] hooks of lines 12-24, as the record
    [RegisterScreen.state]; [birthDate] is a [Date]'s time value and
    [imageUri] is [null] ([None]) or a string.  Operations: the
    [onChangeText]/[onValueChange] setters of the inputs (lines 103-120,
    135), the "Select Birth Date" button (line 123), [onChangeDate]
    (lines 67-71), [pickImage] (lines 73-84) and [handleRegister]
    (lines 26-65).  The asynchronous handlers are [prog]s; the setters they
    call ([setError], [setImageUri]) are effects, which [apply_trace]
    applies to the state in program order.  [render] is what the JSX of
    lines 86-141 shows. *)

From stdpp Require Import base strings list sets.
From Stdlib Require Import String ZArith.
From S2P Require Import Prelude Js JsDate Sdk Async.

Module RegisterScreen.

(** The values of the document-type [Picker] (lines 114-116). *)
Inductive doc_type := DNI | PASAPORTE | RUC.

Definition doc_type_value (d : doc_type) : string :=
  match d with
  | DNI => "DNI"
  | PASAPORTE => "PASAPORTE"
  | RUC => "RUC"
  end.

Record state := mk_state {
  email : string;
  password : string;
  confirmPassword : string;
  username : string;
  fullName : string;
  docType : doc_type;
  docNumber : string;
  age : string;
  birthDate : time_value;
  showDatePicker : bool;
  address : string;
  imageUri : option string;
  error : string
}.

(** The state at mount: [new Date()] is the current time [now]. *)
Definition initial (now : Z) : state :=
  mk_state "" "" "" "" "" DNI "" "" (TimeClip now) false "" None "".

(** The text inputs, each bound to its setter by [onChangeText]. *)
Inductive text_field :=
| FEmail | FPassword | FConfirmPassword | FUsername | FFullName
| FDocNumber | FAge | FAddress.

Definition set_text (f : text_field) (v : string) (s : state) : state :=
  let 'mk_state e p cp un fn dt dn a bd sdp ad iu err := s in
  match f with
  | FEmail => mk_state v p cp un fn dt dn a bd sdp ad iu err
  | FPassword => mk_state e v cp un fn dt dn a bd sdp ad iu err
  | FConfirmPassword => mk_state e p v un fn dt dn a bd sdp ad iu err
  | FUsername => mk_state e p cp v fn dt dn a bd sdp ad iu err
  | FFullName => mk_state e p cp un v dt dn a bd sdp ad iu err
  | FDocNumber => mk_state e p cp un fn dt v a bd sdp ad iu err
  | FAge => mk_state e p cp un fn dt dn v bd sdp ad iu err
  | FAddress => mk_state e p cp un fn dt dn a bd sdp v iu err
  end.

Definition setDocType (d : doc_type) (s : state) : state :=
  let 'mk_state e p cp un fn _ dn a bd sdp ad iu err := s in
  mk_state e p cp un fn d dn a bd sdp ad iu err.

Definition setShowDatePicker (b : bool) (s : state) : state :=
  let 'mk_state e p cp un fn dt dn a bd _ ad iu err := s in
  mk_state e p cp un fn dt dn a bd b ad iu err.

Definition setBirthDate (d : time_value) (s : state) : state :=
  let 'mk_state e p cp un fn dt dn a _ sdp ad iu err := s in
  mk_state e p cp un fn dt dn a d sdp ad iu err.

Definition setError (m : string) (s : state) : state :=
  let 'mk_state e p cp un fn dt dn a bd sdp ad iu _ := s in
  mk_state e p cp un fn dt dn a bd sdp ad iu m.

Definition setImageUri (u : option string) (s : state) : state :=
  let 'mk_state e p cp un fn dt dn a bd sdp ad _ err := s in
  mk_state e p cp un fn dt dn a bd sdp ad u err.

(** [onChangeDate(event, selectedDate)]: a picked [Date] object (always
    truthy) replaces [birthDate]; a dismissed picker passes [undefined]
    and keeps it; the picker closes either way. *)
Definition onChangeDate (selectedDate : option time_value) (s : state) : state :=
  let currentDate := match selectedDate with Some d => d | None => birthDate s end in
  setBirthDate currentDate (setShowDatePicker false s).

(** The options of [launchImageLibraryAsync] (lines 74-79). *)
Definition image_picker_options : picker_options :=
  mk_picker_options MediaImages true (1, 1)%Z 1%Z.

(** [pickImage]: an uncancelled pick stores [result.assets[0].uri]; an
    empty [assets] array makes [.uri] throw a [TypeError] that nothing
    catches. *)
Definition pickImage : prog unit :=
  result ← await (LaunchImageLibraryAsync image_picker_options);
  if negb (canceled result) then
    match index0 (assets result) with
    | Some asset => emit (SetImageUri (Some (asset_uri asset)))
    | None => Throw (type_error_undefined_property "uri")
    end
  else mret tt.

Definition passwords_mismatch : string := "Passwords do not match".

(** [`usuarios/${user.uid}/profile.jpg`] (line 41). *)
Definition profile_path (uid : string) : string :=
  "usuarios/" +:+ uid +:+ "/profile.jpg".

(** Lines 39-43: fetch the picked file, read its blob, upload it under
    the user's folder and resolve its download URL. *)
Definition upload_profile_image (uri uid : string) : prog string :=
  response ← await (Fetch uri);
  blob ← await (ResponseBlob response);
  let storageRef := profile_path uid in
  _ ← await (UploadBytes storageRef blob);
  await (GetDownloadURL storageRef).

(** The object literal of lines 47-57. *)
Definition user_doc (s : state) (birth photoURL : string) : UserDoc.t :=
  UserDoc.mk (email s) (username s) (fullName s) (doc_type_value (docType s))
    (docNumber s) (age s) birth (address s) photoURL.

(** The body of the [try] block (lines 33-60). *)
Definition register_body (s : state) : prog unit :=
  userCredential ← await (CreateUserWithEmailAndPassword (email s) (password s));
  let user := cred_user userCredential in
  photoURL ← (match imageUri s with
              | Some uri => if truthy_string uri then upload_profile_image uri (uid user)
                            else mret ""
              | None => mret ""
              end);
  birth ← of_settled (birth_date_field (birthDate s));
  _ ← await (SetDoc "users" (uid user) (user_doc s birth photoURL));
  _ ← emit (AlertAlert "Registration Successful" "You have registered successfully!");
  emit (Navigate "Login").

(** [handleRegister] (lines 26-65). *)
Definition handleRegister (s : state) : prog unit :=
  if strict_neq_string (password s) (confirmPassword s) then
    emit (SetError passwords_mismatch)
  else
    try_catch (register_body s)
      (fun error => _ ← emit (ConsoleLog error); emit (SetError (err_message error))).

(** The state setters among the effects, applied in program order. *)
Definition apply_effect (s : state) (ef : effect) : state :=
  match ef with
  | SetError m => setError m s
  | SetImageUri u => setImageUri u s
  | _ => s
  end.

Definition apply_trace (s : state) (tr : list event) : state :=
  foldl apply_effect s (effects tr).

(** What the screen shows (lines 93-133): the error line when [error] is
    truthy, the picked image when [imageUri] is truthy, the native date
    picker while [showDatePicker], and the selected date in local
    time. *)
Record view := mk_view {
  shown_error : option string;
  shown_image : option string;
  date_picker_open : bool;
  selected_date_text : string
}.

Definition render (LocalTZA : Z) (s : state) : view :=
  mk_view
    (if truthy_string (error s) then Some (error s) else None)
    (if truthy_nullable (imageUri s) then imageUri s else None)
    (showDatePicker s)
    ("Selected Date: " +:+ toDateString LocalTZA (birthDate s)).

(** The user's actions on the screen and what each starts. *)
Inductive action :=
| ChangeText (f : text_field) (v : string)
| ChangeDocType (d : doc_type)
| PressSelectBirthDate
| PickDate (selectedDate : option time_value)
| PressPickImage
| PressRegister.

Definition dispatch (s : state) (a : action) : state * prog unit :=
  match a with
  | ChangeText f v => (set_text f v s, mret tt)
  | ChangeDocType d => (setDocType d s, mret tt)
  | PressSelectBirthDate => (setShowDatePicker true s, mret tt)
  | PickDate d => (onChangeDate d s, mret tt)
  | PressPickImage => (s, pickImage)
  | PressRegister => (s, handleRegister s)
  end.

End RegisterScreen.

(** ** Properties of the registration handlers *)

Module RegisterProps.
Import RegisterScreen.

Section WithEnv.
Context {W : Type} `{!Env W}.

(** The uid of the account the trace's first fulfilled
    [createUserWithEmailAndPassword] returned ('' when none was). *)
Fixpoint created_uid (tr : list event) : string :=
  match tr with
  | [] => ""
  | EvCall (CreateUserWithEmailAndPassword _ _) (Fulfilled (RCredential cred)) :: _ => uid (cred_user cred)
  | _ :: tr' => created_uid tr'
  end.

(** The success trace of a registration with a picked image, with the
    storage path written as the template of line 41 and the written
    document [d] left open. *)
Definition image_success_trace (s : state) (uri : string) (cred : user_credential)
    (resp : response) (b : blob) (url : string) (d : UserDoc.t) : list event :=
  let u := uid (cred_user cred) in
  [EvCall (CreateUserWithEmailAndPassword (email s) (password s)) (Fulfilled (RCredential cred));
   EvCall (Fetch uri) (Fulfilled (RResponse resp));
   EvCall (ResponseBlob resp) (Fulfilled (RBlob b));
   EvCall (UploadBytes ("usuarios/" +:+ u +:+ "/profile.jpg") b) (Fulfilled RUnit);
   EvCall (GetDownloadURL ("usuarios/" +:+ u +:+ "/profile.jpg")) (Fulfilled (RUrl url));
   EvCall (SetDoc "users" u d) (Fulfilled RUnit);
   EvEffect (AlertAlert "Registration Successful" "You have registered successfully!");
   EvEffect (Navigate "Login")].

(** C1 Mismatching passwords: no call at all, the environment is
    untouched, and the only effect sets the error "Passwords do not
    match". *)
Theorem handleRegister_mismatch (s : state) (w : W) :
  strict_neq_string (password s) (confirmPassword s) = true ->
  run (handleRegister s) w = (w, [EvEffect (SetError passwords_mismatch)], Fulfilled tt).
Proof. intros H. unfold handleRegister. by rewrite H. Qed.

(** C2 A rejected account creation (email in use, weak password,
    network failure, ...) is logged, its message becomes the error,
    and nothing else is called. *)
Theorem handleRegister_create_rejected (s : state) (w w1 : W) (e : js_error) :
  strict_neq_string (password s) (confirmPassword s) = false ->
  env_call (CreateUserWithEmailAndPassword (email s) (password s)) w = (w1, Rejected e) ->
  run (handleRegister s) w =
    (w1, [EvCall (CreateUserWithEmailAndPassword (email s) (password s)) (Rejected e);
          EvEffect (ConsoleLog e); EvEffect (SetError (err_message e))], Fulfilled tt).
Proof.
  intros Hpw Hc. unfold handleRegister, register_body. rewrite Hpw.
  run_simpl. by rewrite Hc.
Qed.

(** C4 Without a picked image ([imageUri] null or empty) the only
    calls are the account creation and then the profile write under
    [users/<uid>], [uid] being that of the account the creation just
    returned, with [photoURL] the empty string: no fetch and no
    upload. *)
Theorem handleRegister_no_image_calls (s : state) (w : W) :
  truthy_nullable (imageUri s) = false ->
  let '(_, tr, _) := run (handleRegister s) w in
  exists birth, calls tr `prefix_of`
    [CreateUserWithEmailAndPassword (email s) (password s);
     SetDoc "users" (created_uid tr) (user_doc s birth "")].
Proof.
  intros Himg. unfold handleRegister.
  destruct (strict_neq_string _ _); [by exists ""; apply prefix_nil|].
  unfold register_body. apply truthy_nullable_false in Himg.
  destruct (birth_date_field (birthDate s));
    destruct Himg as [-> | ->]; run_exec; eexists; cbn [created_uid]; solve_prefix.
  Unshelve. all: exact "".
Qed.

(** C3 With a picked image, a registration that reaches "Login" made
    exactly these steps: account creation, fetch of the picked file,
    its blob, upload to [usuarios/<uid>/profile.jpg] of the new
    account, the download URL of that object, and the profile write
    under [users/<uid>] whose [photoURL] is that URL. *)
Theorem handleRegister_image_success (s : state) (w : W) (uri : string) :
  imageUri s = Some uri -> uri <> "" ->
  let '(_, tr, _) := run (handleRegister s) w in
  Navigate "Login" ∈ effects tr ->
  exists cred resp b url d,
    tr = image_success_trace s uri cred resp b url d /\
    UserDoc.photoURL d = url /\ UserDoc.email d = email s.
Proof.
  intros Himg Huri. unfold handleRegister.
  destruct (strict_neq_string _ _); [simpl; set_solver|].
  unfold register_body, upload_profile_image. rewrite Himg.
  assert (truthy_string uri = true) as Ht.
  { change (truthy_nullable (Some uri) = true). apply truthy_nullable_true. by exists uri. }
  rewrite Ht. destruct (birth_date_field (birthDate s)) eqn:Hb; run_exec;
    intros Hnav; first [by do 5 eexists | set_solver].
Qed.

(** C8 [handleRegister] never rejects: every failure inside the [try]
    is caught, and the mismatch branch only sets the error. *)
Theorem handleRegister_fulfils (s : state) (w : W) :
  (run (handleRegister s) w).2 = Fulfilled tt.
Proof.
  unfold handleRegister. destruct (strict_neq_string _ _); [done|].
  destruct (run_try_catch_fulfilled (register_body s)
              (fun error => (_ ← emit (ConsoleLog error); emit (SetError (err_message error)))) w)
    as [[] H]; [|done].
  intros e w'. by exists tt.
Qed.

(** C7 Every submission ends in exactly one of two ways: it navigates
    to "Login" and sets no error, or it sets the error and does not
    navigate. *)
Theorem handleRegister_outcome_exclusive (s : state) (w : W) :
  let '(_, tr, _) := run (handleRegister s) w in
  (Navigate "Login" ∈ effects tr /\ (forall m, SetError m ∉ effects tr)) \/
  ((Navigate "Login" ∉ effects tr) /\ (exists m, SetError m ∈ effects tr)).
Proof.
  unfold handleRegister.
  destruct (strict_neq_string _ _); [right; split; [set_solver|by eexists; left]|].
  unfold register_body, upload_profile_image.
  destruct (birth_date_field (birthDate s)); destruct (imageUri s) as [uri|];
    try destruct (truthy_string uri); run_exec;
    solve [left; split; [set_solver|intros m; set_solver]
          |right; split; [set_solver|eexists; solve_elem_of]].
Qed.

(** C11 [pickImage] on a pick that is not cancelled but has an empty
    [assets] array: [result.assets[0].uri] throws a [TypeError], which
    nothing catches, so the handler's promise rejects and [imageUri] is
    not set. *)
Theorem pickImage_no_assets (w w1 : W) (r : picker_result) :
  env_call (LaunchImageLibraryAsync image_picker_options) w = (w1, Fulfilled r) ->
  canceled r = false -> assets r = [] ->
  run pickImage w =
    (w1, [EvCall (LaunchImageLibraryAsync image_picker_options) (Fulfilled (RPicker r))],
     Rejected (type_error_undefined_property "uri")).
Proof.
  intros Hc Hcan Has. unfold pickImage. run_simpl. rewrite Hc. run_simpl.
  by rewrite Hcan, Has.
Qed.

(** C12 [pickImage] on a completed pick stores the first asset's URI,
    which the screen then shows in place of "Select Profile Image". *)
Theorem pickImage_selected (s : state) (w w1 : W) (r : picker_result)
    (a : picker_asset) (rest : list picker_asset) (LocalTZA : Z) :
  env_call (LaunchImageLibraryAsync image_picker_options) w = (w1, Fulfilled r) ->
  canceled r = false -> assets r = a :: rest -> asset_uri a <> "" ->
  let '(w', tr, o) := run pickImage w in
  w' = w1 /\ o = Fulfilled tt /\
  shown_image (render LocalTZA (apply_trace s tr)) = Some (asset_uri a).
Proof.
  intros Hc Hcan Has Hne. unfold pickImage. run_simpl. rewrite Hc. run_simpl.
  rewrite Hcan, Has. simpl. split_and!; [done|done|].
  destruct s; simpl. unfold truthy_nullable, truthy_string.
  by destruct (String.eqb_spec (asset_uri a) "").
Qed.

(** C28 [pickImage] opens the media library for images only, with
    editing on, a 1:1 crop and full quality (lines 74-79); a cancelled
    pick makes no other call, performs no effect and fulfils, so
    [imageUri] keeps its value. *)
Theorem pickImage_canceled (w w1 : W) (r : picker_result) :
  env_call (LaunchImageLibraryAsync (mk_picker_options MediaImages true (1, 1)%Z 1%Z)) w = (w1, Fulfilled r) ->
  canceled r = true ->
  run pickImage w =
    (w1, [EvCall (LaunchImageLibraryAsync (mk_picker_options MediaImages true (1, 1)%Z 1%Z))
                 (Fulfilled (RPicker r))], Fulfilled tt).
Proof. intros Hc Hcan. unfold pickImage, image_picker_options. run_simpl. rewrite Hc. run_simpl. by rewrite Hcan. Qed.

(** C29 An Invalid Date in [birthDate] is only noticed after the
    account exists: with matching passwords and no picked image,
    [handleRegister] creates the account, then [toISOString] throws the
    [RangeError] "Invalid time value", which the catch logs and shows;
    no profile is written and there is no navigation. *)
Theorem handleRegister_invalid_birth_date (s : state) (w w1 : W) (cred : user_credential) :
  strict_neq_string (password s) (confirmPassword s) = false ->
  truthy_nullable (imageUri s) = false -> birthDate s = None ->
  env_call (CreateUserWithEmailAndPassword (email s) (password s)) w = (w1, Fulfilled cred) ->
  run (handleRegister s) w =
    (w1, [EvCall (CreateUserWithEmailAndPassword (email s) (password s)) (Fulfilled (RCredential cred));
          EvEffect (ConsoleLog invalid_time_value);
          EvEffect (SetError (err_message invalid_time_value))], Fulfilled tt).
Proof.
  intros Hpw Himg Hb Hc. unfold handleRegister, register_body. rewrite Hpw, Hb.
  apply truthy_nullable_false in Himg. run_simpl. rewrite Hc. run_simpl.
  by destruct Himg as [-> | ->].
Qed.

(** C30 A failed submission is visible: after mismatching passwords
    the screen shows "Passwords do not match", and after a rejected
    account creation with a non-empty message it shows that message; in
    neither case does it leave for "Login". *)
Theorem handleRegister_failure_shown (LocalTZA : Z) (s : state) (w w1 : W) (e : js_error) :
  (strict_neq_string (password s) (confirmPassword s) = true ->
   let '(_, tr, _) := run (handleRegister s) w in
   shown_error (render LocalTZA (apply_trace s tr)) = Some passwords_mismatch /\
   Navigate "Login" ∉ effects tr) /\
  (strict_neq_string (password s) (confirmPassword s) = false ->
   env_call (CreateUserWithEmailAndPassword (email s) (password s)) w = (w1, Rejected e) ->
   err_message e <> "" ->
   let '(_, tr, _) := run (handleRegister s) w in
   shown_error (render LocalTZA (apply_trace s tr)) = Some (err_message e) /\
   Navigate "Login" ∉ effects tr).
Proof.
  split.
  - intros Hpw. unfold handleRegister. rewrite Hpw. cbn.
    split; [by destruct s | set_solver].
  - intros Hpw Hc Hne. unfold handleRegister, register_body. rewrite Hpw.
    run_simpl. rewrite Hc. run_simpl. cbn. split; [|set_solver].
    destruct s; cbn. unfold truthy_string. by destruct (String.eqb_spec (err_message e) "").
Qed.
End WithEnv.
End RegisterProps.

(** ** Witnesses: the handlers against a scripted environment *)

Module RegisterWitnesses.
Import RegisterScreen RegisterProps.

(** The draft of the spec's first scenario: "a@b.com", "x1" / "y2". *)
Lemma handleRegister_mismatch_witness :
  let s := set_text FConfirmPassword "y2" (set_text FPassword "x1"
             (set_text FEmail "a@b.com" (initial 0%Z))) in
  strict_neq_string (password s) (confirmPassword s) = true /\
  run (handleRegister s) (mk_script []) =
    (mk_script [], [EvEffect (SetError passwords_mismatch)], Fulfilled tt).
Proof. intros s. split; [reflexivity|]. by apply handleRegister_mismatch. Defined.

Lemma handleRegister_create_rejected_witness :
  let s := set_text FConfirmPassword "secret1" (set_text FPassword "secret1"
             (set_text FEmail "a@b.com" (initial 0%Z))) in
  let e := mk_error "FirebaseError" "auth/email-already-in-use"
             "Firebase: Error (auth/email-already-in-use)." in
  let w := mk_script [Rejected e] in
  strict_neq_string (password s) (confirmPassword s) = false /\
  env_call (CreateUserWithEmailAndPassword (email s) (password s)) w = (mk_script [], Rejected e) /\
  run (handleRegister s) w =
    (mk_script [], [EvCall (CreateUserWithEmailAndPassword (email s) (password s)) (Rejected e);
                    EvEffect (ConsoleLog e); EvEffect (SetError (err_message e))], Fulfilled tt).
Proof.
  intros s e w. split; [reflexivity|]. split; [reflexivity|].
  by apply handleRegister_create_rejected.
Defined.

Lemma handleRegister_no_image_calls_witness :
  let s := set_text FConfirmPassword "secret1" (set_text FPassword "secret1"
             (set_text FEmail "a@b.com" (initial 0%Z))) in
  let w := mk_script [Fulfilled (RCredential (mk_credential (mk_user "uid-1"))); Fulfilled RUnit] in
  truthy_nullable (imageUri s) = false /\
  created_uid (run (handleRegister s) w).1.2 = "uid-1" /\
  let '(_, tr, _) := run (handleRegister s) w in
  exists birth, calls tr `prefix_of`
    [CreateUserWithEmailAndPassword (email s) (password s);
     SetDoc "users" (created_uid tr) (user_doc s birth "")].
Proof. intros s w. split; [reflexivity|]. split; [vm_compute; reflexivity|]. by apply handleRegister_no_image_calls. Defined.

(** A registration with a picked image where every step succeeds: the
    premise of [handleRegister_image_success] holds. *)
Lemma handleRegister_image_success_witness :
  let s := setImageUri (Some "file:///akira.jpg")
             (set_text FConfirmPassword "secret1" (set_text FPassword "secret1"
               (set_text FEmail "a@b.com" (initial 0%Z)))) in
  let resp := mk_response "file:///akira.jpg" [] in
  let w := mk_script [Fulfilled (RCredential (mk_credential (mk_user "uid-1")));
                      Fulfilled (RResponse resp); Fulfilled (RBlob []); Fulfilled RUnit;
                      Fulfilled (RUrl "https://storage.example/usuarios/uid-1/profile.jpg");
                      Fulfilled RUnit] in
  imageUri s = Some "file:///akira.jpg" /\ "file:///akira.jpg" <> "" /\
  (let '(_, tr, _) := run (handleRegister s) w in Navigate "Login" ∈ effects tr) /\
  (let '(_, tr, _) := run (handleRegister s) w in
   Navigate "Login" ∈ effects tr ->
   exists cred resp b url d,
     tr = image_success_trace s "file:///akira.jpg" cred resp b url d /\
     UserDoc.photoURL d = url /\ UserDoc.email d = email s).
Proof.
  intros s resp w. split; [reflexivity|]. split; [done|].
  split; [vm_compute; solve_elem_of|].
  by apply handleRegister_image_success.
Defined.

Lemma pickImage_no_assets_witness :
  let r := mk_picker_result false [] in
  let w := mk_script [Fulfilled (RPicker r)] in
  env_call (LaunchImageLibraryAsync image_picker_options) w = (mk_script [], Fulfilled r) /\
  canceled r = false /\ assets r = [] /\
  run pickImage w =
    (mk_script [], [EvCall (LaunchImageLibraryAsync image_picker_options) (Fulfilled (RPicker r))],
     Rejected (type_error_undefined_property "uri")).
Proof.
  intros r w. split_and!; [reflexivity..|]. by apply pickImage_no_assets.
Defined.

Lemma pickImage_selected_witness :
  let a := mk_asset "file:///akira.jpg" in
  let r := mk_picker_result false [a] in
  let w := mk_script [Fulfilled (RPicker r)] in
  env_call (LaunchImageLibraryAsync image_picker_options) w = (mk_script [], Fulfilled r) /\
  canceled r = false /\ assets r = [a] /\ asset_uri a <> "" /\
  let '(w', tr, o) := run pickImage w in
  w' = mk_script [] /\ o = Fulfilled tt /\
  shown_image (render (-18000000) (apply_trace (initial 0) tr)) = Some (asset_uri a).
Proof.
  intros a r w. split_and!; [reflexivity..|done|].
  by apply (pickImage_selected (initial 0) w (mk_script []) r a []).
Defined.

(** The user dismisses the media library. *)
Lemma pickImage_canceled_witness :
  let r := mk_picker_result true [] in
  let w := mk_script [Fulfilled (RPicker r)] in
  env_call (LaunchImageLibraryAsync (mk_picker_options MediaImages true (1, 1)%Z 1%Z)) w =
    (mk_script [], Fulfilled r) /\
  canceled r = true /\
  run pickImage w =
    (mk_script [], [EvCall (LaunchImageLibraryAsync (mk_picker_options MediaImages true (1, 1)%Z 1%Z))
                           (Fulfilled (RPicker r))], Fulfilled tt).
Proof. intros r w. split_and!; [reflexivity..|]. by apply pickImage_canceled. Defined.

(** A draft whose [birthDate] is an Invalid Date (NaN). *)
Definition nan_draft : state :=
  setBirthDate None (set_text FConfirmPassword "secret1" (set_text FPassword "secret1"
    (set_text FEmail "a@b.com" (initial 0%Z)))).

Lemma handleRegister_invalid_birth_date_witness :
  let cred := mk_credential (mk_user "uid-2") in
  let w := mk_script [Fulfilled (RCredential cred)] in
  strict_neq_string (password nan_draft) (confirmPassword nan_draft) = false /\
  truthy_nullable (imageUri nan_draft) = false /\ birthDate nan_draft = None /\
  env_call (CreateUserWithEmailAndPassword (email nan_draft) (password nan_draft)) w = (mk_script [], Fulfilled cred) /\
  run (handleRegister nan_draft) w =
    (mk_script [], [EvCall (CreateUserWithEmailAndPassword (email nan_draft) (password nan_draft))
                           (Fulfilled (RCredential cred));
                    EvEffect (ConsoleLog invalid_time_value);
                    EvEffect (SetError (err_message invalid_time_value))], Fulfilled tt).
Proof. intros cred w. split_and!; [reflexivity..|]. by apply handleRegister_invalid_birth_date. Defined.

(** An email already in use. *)
Lemma handleRegister_failure_shown_witness :
  let e := mk_error "FirebaseError" "auth/email-already-in-use"
             "Firebase: Error (auth/email-already-in-use)." in
  let s := set_text FConfirmPassword "secret1" (set_text FPassword "secret1"
             (set_text FEmail "a@b.com" (initial 0%Z))) in
  let w := mk_script [Rejected e] in
  strict_neq_string (password s) (confirmPassword s) = false /\
  env_call (CreateUserWithEmailAndPassword (email s) (password s)) w = (mk_script [], Rejected e) /\
  err_message e <> "" /\
  (let '(_, tr, _) := run (handleRegister s) w in
   shown_error (render 0 (apply_trace s tr)) = Some (err_message e) /\
   Navigate "Login" ∉ effects tr).
Proof.
  intros e s w. split_and!; [reflexivity..| discriminate |].
  exact (proj2 (handleRegister_failure_shown 0 s w (mk_script []) e) eq_refl eq_refl ltac:(discriminate)).
Defined.

End RegisterWitnesses.
