(* ===== verification/Schema.v ===== *)
(** * The profile record and the draft, typed

    The spec (section 3) gives the shape of the User Profile Record that
    [handleRegister] writes to [users/<uid>]: text fields, the document
    type from the enumeration {DNI, PASAPORTE, RUC}, the birth date as an
    ISO calendar date string, and the photo URL or the empty string.  The
    object literal of RegisterScreen.js lines 47-57 is read here as a list
    of field bindings ([profile_fields]), typed field by field against
    [profile_schema] by the judgment [value_type] (with its executable
    checker [value_typeb]).

    The draft's only field whose Rocq type is wider than its JavaScript
    one is [birthDate]: a [Date] always holds a time value that
    [TimeClip] admits, or NaN.  [draft_ok] states it; [reach] is the
    states the screen reaches from its mount through user actions (whose
    picked dates are valid [Date]s) and the handlers' setters, and
    [reach_draft_ok] shows that their birth date is never NaN. *)

From stdpp Require Import base strings list sets.
From Stdlib Require Import String ZArith Lia.
From S2P Require Import Prelude Js JsDate Calendar IsoDate Sdk Async Register.

Local Open Scope Z_scope.

Module Schema.
Import RegisterScreen.

(** ** Field types and the profile schema *)

Inductive ftype := TText | TEnum (vs : list string) | TIsoDate.

(** [value_type v τ]: the stored string [v] has the field type [τ]. *)
Inductive value_type : string -> ftype -> Prop :=
| vt_text v : value_type v TText
| vt_enum v vs : v ∈ vs -> value_type v (TEnum vs)
| vt_date v c : IsoDate.parse_iso_date v = Some c -> Calendar.valid_civil c = true ->
    value_type v TIsoDate.

Definition value_typeb (v : string) (τ : ftype) : bool :=
  match τ with
  | TText => true
  | TEnum vs => bool_decide (v ∈ vs)
  | TIsoDate =>
      match IsoDate.parse_iso_date v with
      | Some c => Calendar.valid_civil c
      | None => false
      end
  end.

(** The record of section 3 of the spec. *)
Definition profile_schema : list (string * ftype) :=
  [("email", TText); ("username", TText); ("fullName", TText);
   ("docType", TEnum ["DNI"; "PASAPORTE"; "RUC"]); ("docNumber", TText); ("age", TText);
   ("birthDate", TIsoDate); ("address", TText); ("photoURL", TText)].

(** The object literal of lines 47-57, as field bindings in source order. *)
Definition profile_fields (d : UserDoc.t) : list (string * string) :=
  [("email", UserDoc.email d); ("username", UserDoc.username d);
   ("fullName", UserDoc.fullName d); ("docType", UserDoc.docType d);
   ("docNumber", UserDoc.docNumber d); ("age", UserDoc.age d);
   ("birthDate", UserDoc.birthDate d); ("address", UserDoc.address d);
   ("photoURL", UserDoc.photoURL d)].

(** A record has a schema when the fields match one by one, names and
    types. *)
Definition record_type (b : list (string * string)) (t : list (string * ftype)) : Prop :=
  Forall2 (fun bv tv => bv.1 = tv.1 /\ value_type bv.2 tv.2) b t.

Definition profile_typed (d : UserDoc.t) : Prop := record_type (profile_fields d) profile_schema.

Definition record_typeb (b : list (string * string)) (t : list (string * ftype)) : bool :=
  (List.length b =? List.length t)%nat &&
  forallb (fun '((n, v), (n', τ)) => String.eqb n n' && value_typeb v τ) (zip b t).

Definition profile_typedb (d : UserDoc.t) : bool := record_typeb (profile_fields d) profile_schema.

(** ** The draft *)

(** What a JavaScript [Date] can hold. *)
Definition tv_ok (tv : time_value) : Prop :=
  match tv with Some t => Z.abs t <= maxTimeValue | None => True end.

Definition draft_ok (s : RegisterScreen.state) : Prop := tv_ok (birthDate s).

(** A [Date] holding a valid time value (not an Invalid Date). *)
Definition valid_date (tv : time_value) : Prop :=
  exists t, tv = Some t /\ Z.abs t <= maxTimeValue.

(** The native picker answers with a valid [Date], or with [undefined]
    when dismissed. *)
Definition action_ok (a : action) : Prop :=
  match a with PickDate (Some tv) => valid_date tv | _ => True end.

(** The states of the screen from its mount (on a device whose clock
    reads a time a [Date] can hold), through user actions and the
    setters the handlers call. *)
Inductive reach : RegisterScreen.state -> Prop :=
| reach_mount now : Z.abs now <= maxTimeValue -> reach (initial now)
| reach_act s a : reach s -> action_ok a -> reach (dispatch s a).1
| reach_setter s ef : reach s -> reach (apply_effect s ef).

(** The state after a sequence of user actions. *)
Definition after_actions (s : RegisterScreen.state) (acts : list action) : RegisterScreen.state :=
  foldl (fun s a => (dispatch s a).1) s acts.

End Schema.

Module SchemaProps.
Import Schema RegisterScreen.

Lemma value_typeb_spec (v : string) (τ : ftype) : value_typeb v τ = true <-> value_type v τ.
Proof.
  split.
  - destruct τ; simpl; [constructor | intros H; constructor; by apply bool_decide_eq_true in H |].
    destruct (IsoDate.parse_iso_date v) eqn:E; [|discriminate]. intros H. by econstructor.
  - destruct 1 as [v|v vs H|v c Hp Hv]; simpl; [done | by apply bool_decide_eq_true | by rewrite Hp].
Qed.

(** The executable check decides the typing of a record. *)
Lemma record_typeb_spec (b : list (string * string)) (t : list (string * ftype)) :
  record_typeb b t = true <-> record_type b t.
Proof.
  unfold record_typeb, record_type. revert t.
  induction b as [|[n v] b IH]; intros [|[n' τ] t]; simpl; try (split; [discriminate | inversion 1]).
  - split; constructor.
  - rewrite Forall2_cons, <-IH, !andb_true_iff, String.eqb_eq, value_typeb_spec. simpl.
    tauto.
Qed.

Lemma doc_type_value_enum (d : doc_type) : doc_type_value d ∈ ["DNI"; "PASAPORTE"; "RUC"].
Proof. destruct d; simpl; solve_elem_of. Qed.

(** The object literal of lines 47-57 has the schema as soon as the
    birth date is an ISO date. *)
Lemma user_doc_typed (s : RegisterScreen.state) (birth photoURL : string) :
  value_type birth TIsoDate -> profile_typed (user_doc s birth photoURL).
Proof.
  intros Hb. unfold profile_typed, record_type, profile_fields, profile_schema, user_doc.
  repeat first [apply List.Forall2_nil | apply List.Forall2_cons; [split; [reflexivity|] |]];
    cbn [snd UserDoc.email UserDoc.username UserDoc.fullName UserDoc.docType UserDoc.docNumber
         UserDoc.age UserDoc.birthDate UserDoc.address UserDoc.photoURL].
  all: first [apply vt_text | exact Hb | apply vt_enum, doc_type_value_enum].
Qed.

(** [birthDate.toISOString().split('T')[0]] of a [Date] that does not
    throw is an ISO date. *)
Lemma birth_date_field_typed (tv : time_value) (birth : string) :
  tv_ok tv -> birth_date_field tv = Fulfilled birth -> value_type birth TIsoDate.
Proof.
  destruct tv as [t|]; simpl; [|discriminate].
  intros Ht. rewrite birth_date_field_Some. intros [= <-].
  destruct (CalendarProps.day_ok_spec (Day t)) as [Hv _].
  econstructor; [apply IsoDateProps.iso_date_of_valid_time, Ht | exact Hv].
Qed.

Lemma set_text_birthDate (f : text_field) (v : string) (s : RegisterScreen.state) :
  birthDate (set_text f v s) = birthDate s.
Proof. by destruct s, f. Qed.

Lemma apply_effect_birthDate (s : RegisterScreen.state) (ef : effect) :
  birthDate (apply_effect s ef) = birthDate s.
Proof. by destruct s, ef. Qed.

Section WithEnv.
Context {W : Type} `{!Env W}.

(** Every profile write of [handleRegister] stores [user_doc] of its
    draft with the birth date [toISOString] gave. *)
Lemma handleRegister_setdoc_doc (s : RegisterScreen.state) (w : W) :
  let '(_, tr, _) := run (handleRegister s) w in
  forall col k d, SetDoc col k d ∈ calls tr ->
  exists birth ph, birth_date_field (birthDate s) = Fulfilled birth /\ d = user_doc s birth ph.
Proof.
  unfold handleRegister, register_body, upload_profile_image.
  destruct (strict_neq_string _ _); destruct (birth_date_field (birthDate s)) eqn:Eb;
    destruct (imageUri s) as [uri|]; try destruct (truthy_string uri);
    run_exec; intros col k d Hin; elem_of_cases Hin; eauto.
Qed.

(** C19 Every profile record [handleRegister] writes has the schema of
    the spec's User Profile Record: the nine fields in order, [docType]
    one of DNI, PASAPORTE, RUC, and [birthDate] an ISO calendar date
    string of a valid date. *)
Theorem handleRegister_writes_typed_profile (s : RegisterScreen.state) (w : W) :
  draft_ok s ->
  let '(_, tr, _) := run (handleRegister s) w in
  forall col k d, SetDoc col k d ∈ calls tr -> profile_typed d.
Proof.
  intros Hs. pose proof (handleRegister_setdoc_doc s w) as Hd.
  destruct (run (handleRegister s) w) as [[w' tr] o].
  intros col k d Hin. destruct (Hd _ _ _ Hin) as (birth & ph & Hb & ->).
  apply user_doc_typed. exact (birth_date_field_typed _ _ Hs Hb).
Qed.

End WithEnv.

Lemma reach_after_actions (s : RegisterScreen.state) (acts : list action) :
  reach s -> Forall action_ok acts -> reach (after_actions s acts).
Proof.
  intros Hs Ha. revert s Hs. induction Ha as [|a acts Ha _ IH]; intros s Hs; [done|].
  apply IH. by apply reach_act.
Qed.

(** C20 Every state the Register screen reaches from its mount, through
    the user's actions and the setters its handlers call, holds a valid
    [Date] in [birthDate]: [toISOString] never throws on it, and the
    birth date [handleRegister] would store is an ISO date of a valid
    calendar day. *)
Theorem reach_draft_ok (s : RegisterScreen.state) :
  reach s ->
  draft_ok s /\ exists birth, birth_date_field (birthDate s) = Fulfilled birth /\ value_type birth TIsoDate.
Proof.
  (* rule induction: the picker's answer replaces [birthDate] only with a
     valid [Date], and a dismissal keeps it ([selectedDate || birthDate]) *)
  intros Hr. assert (Hv : valid_date (birthDate s)).
  { induction Hr as [now Hnow|s a _ IH Ha|s ef _ IH].
    - exists now. unfold initial, TimeClip. cbn. by rewrite (proj2 (Z.leb_le _ _) Hnow).
    - destruct a as [f v|d| |[tv|]| |]; cbn [dispatch fst];
        rewrite ?set_text_birthDate; try exact IH; destruct s; cbn in *; first [exact IH | exact Ha].
    - by rewrite apply_effect_birthDate. }
  destruct Hv as (t & Ht & Hb). unfold draft_ok. rewrite Ht.
  split; [exact Hb|]. eexists. split; [apply birth_date_field_Some|].
  apply (birth_date_field_typed (Some t)); [exact Hb | apply birth_date_field_Some].
Qed.

(** ** The date shown against the date stored *)





End SchemaProps.

Module SchemaWitnesses.
Import Schema SchemaProps RegisterScreen.

(** Bea types her email and password, picks PASAPORTE and 1995-06-15 at
    noon UTC. *)
Definition bea_actions : list action :=
  [ChangeText FEmail "bea@huellitas.pe"; ChangeText FPassword "secret2";
   ChangeText FConfirmPassword "secret2"; ChangeDocType PASAPORTE;
   PressSelectBirthDate; PickDate (Some (Some 803217600000))].

Definition bea_draft : RegisterScreen.state := after_actions (initial 0) bea_actions.

(** The services create [uid-7] and accept the profile write. *)
Definition bea_services : script :=
  mk_script [Fulfilled (RCredential (mk_credential (mk_user "uid-7"))); Fulfilled RUnit].

Lemma handleRegister_writes_typed_profile_witness :
  draft_ok bea_draft /\
  profile_typedb (user_doc bea_draft "1995-06-15" "") = true /\
  (let '(_, tr, _) := run (handleRegister bea_draft) bea_services in
   forall col k d, SetDoc col k d ∈ calls tr -> profile_typed d).
Proof.
  assert (H : draft_ok bea_draft) by (unfold draft_ok, tv_ok, maxTimeValue; simpl; lia).
  split; [exact H|]. split; [vm_compute; reflexivity|].
  exact (handleRegister_writes_typed_profile bea_draft bea_services H).
Defined.

Lemma reach_draft_ok_witness :
  reach bea_draft /\ birth_date_field (birthDate bea_draft) = Fulfilled "1995-06-15" /\
  (draft_ok bea_draft /\ exists birth, birth_date_field (birthDate bea_draft) = Fulfilled birth /\
                                        value_type birth TIsoDate).
Proof.
  assert (H : reach bea_draft).
  { apply reach_after_actions; [constructor; unfold maxTimeValue; lia|].
    repeat constructor. unfold action_ok, valid_date, maxTimeValue. eexists; split; [reflexivity | lia]. }
  split; [exact H|]. split; [vm_compute; reflexivity|]. exact (reach_draft_ok _ H).
Defined.


End SchemaWitnesses.
