(* ===== verification/Pipeline.v ===== *)
(** * [handleRegister] against the spec's pipeline of fallible steps

    The spec describes the submission as a strict sequential pipeline
    with short-circuit failure (section 5) and proposes to read its
    failures as a typed enumeration {ValidationMismatch,
    AccountCreationFailed, UploadFailed, ProfileWriteFailed} carrying the
    backend's raw message (section 9).  [spec_outcome] is that abstract
    result, computed from what the services answered: the password check,
    then the first rejected call, classified by the step it belongs to.
    The refinement theorem shows that the code's visible behaviour is the
    rendering of that result: a success alert and the navigation to
    "Login" for [Ok], the error line set to the message for [Err]. *)

From stdpp Require Import base strings list sets.
From Stdlib Require Import String ZArith.
From S2P Require Import Prelude Js JsDate Sdk Async Register.

Module Pipeline.
Import RegisterScreen.

Inductive failure_kind :=
| ValidationMismatch | AccountCreationFailed | UploadFailed | ProfileWriteFailed.

Inductive result := Ok | Err (k : failure_kind) (msg : string).

(** The step of section 5 a call of the submission belongs to: account
    creation (step 2), the image upload (step 3: fetch, blob, upload,
    download URL), the profile write (step 4). *)
Definition kind_of (c : call) : failure_kind :=
  match c with
  | CreateUserWithEmailAndPassword _ _ => AccountCreationFailed
  | SetDoc _ _ _ => ProfileWriteFailed
  | _ => UploadFailed
  end.

Fixpoint first_rejection (tr : list event) : option (call * js_error) :=
  match tr with
  | [] => None
  | EvCall c (Rejected e) :: _ => Some (c, e)
  | _ :: tr' => first_rejection tr'
  end.

(** The abstract result of a submission whose services answered as
    [tr] records. *)
Definition spec_outcome (s : RegisterScreen.state) (tr : list event) : result :=
  if strict_neq_string (password s) (confirmPassword s) then Err ValidationMismatch passwords_mismatch
  else match first_rejection tr with
       | Some (c, e) => Err (kind_of c) (err_message e)
       | None => Ok
       end.

Definition success_alert : effect :=
  AlertAlert "Registration Successful" "You have registered successfully!".

(** How the screen renders a result: what its effects end with. *)
Definition renders (r : result) (efs : list effect) : Prop :=
  match r with
  | Ok => efs = [success_alert; Navigate "Login"]
  | Err k m => last efs = Some (SetError m) /\ Navigate "Login" ∉ efs
  end.

End Pipeline.

Module PipelineProps.
Import Pipeline RegisterScreen.

(** The rendering of a result, on the concrete traces of the handler. *)
Ltac solve_renders :=
  cbn [first_rejection kind_of renders last effects];
  first [reflexivity | split; [reflexivity | set_solver]].

Section WithEnv.
Context {W : Type} `{!Env W}.

(** C21 [handleRegister] refines the spec's pipeline: whatever the
    services answer, the screen shows the rendering of the abstract
    result (the password check first, then the first rejected call
    classified by its step, with the backend's message); a validation
    failure calls nothing. *)
Theorem handleRegister_refines_pipeline (s : RegisterScreen.state) (w : W) (birth : string) :
  birth_date_field (birthDate s) = Fulfilled birth ->
  let '(_, tr, _) := run (handleRegister s) w in
  renders (spec_outcome s tr) (effects tr) /\
  (spec_outcome s tr = Err ValidationMismatch passwords_mismatch -> calls tr = []).
Proof.
  intros Hb. unfold spec_outcome, handleRegister.
  destruct (strict_neq_string _ _).
  - simpl. split; [solve_renders | done].
  - unfold register_body, upload_profile_image. rewrite Hb.
    destruct (imageUri s) as [uri|]; try destruct (truthy_string uri);
      run_exec; (split; [solve_renders | intros [=]]).
Qed.

End WithEnv.

End PipelineProps.

Module PipelineWitnesses.
Import Pipeline PipelineProps RegisterScreen.

(** A draft with a picked image whose file cannot be read. *)
Definition carla_draft : RegisterScreen.state :=
  setImageUri (Some "file:///akira.jpg")
    (set_text FConfirmPassword "secret3" (set_text FPassword "secret3"
      (set_text FEmail "carla@huellitas.pe" (initial 0%Z)))).

Definition fetch_fails : script :=
  mk_script [Fulfilled (RCredential (mk_credential (mk_user "uid-3")));
             Rejected (mk_error "TypeError" "" "Network request failed")].

Lemma handleRegister_refines_pipeline_witness :
  birth_date_field (birthDate carla_draft) = Fulfilled "1970-01-01" /\
  (let '(_, tr, _) := run (handleRegister carla_draft) fetch_fails in
   spec_outcome carla_draft tr = Err UploadFailed "Network request failed") /\
  (let '(_, tr, _) := run (handleRegister carla_draft) fetch_fails in
   renders (spec_outcome carla_draft tr) (effects tr) /\
   (spec_outcome carla_draft tr = Err ValidationMismatch passwords_mismatch -> calls tr = [])).
Proof.
  assert (Hb : birth_date_field (birthDate carla_draft) = Fulfilled "1970-01-01")
    by (vm_compute; reflexivity).
  split; [exact Hb|]. split; [vm_compute; reflexivity|].
  exact (handleRegister_refines_pipeline carla_draft fetch_fails "1970-01-01" Hb).
Defined.

End PipelineWitnesses.
