(* ===== verification/Favorites.v ===== *)
(** * The Favorites screen (src/screens/Favorites.js)

    A static placeholder: a title and a "View Favorite Items" button whose
    [onPress] (line 10) has an empty body.  The screen keeps no state; its
    only operation is that handler, a program that returns at once. *)

From stdpp Require Import base strings list.
From Stdlib Require Import String.
From S2P Require Import Prelude Js Sdk Async.

Module FavoritesScreen.

(** What the screen shows (lines 6-12). *)
Record view := mk_view { title : string; button_title : string }.

Definition render : view := mk_view "Favorites Screen" "View Favorite Items".

(** [onPress={() => {}}]: no call, no effect. *)
Definition onPressViewFavorites : prog unit := mret tt.

End FavoritesScreen.

Module FavoritesProps.
Import FavoritesScreen.

(** Pressing "View Favorite Items" does nothing: in every environment
    the handler makes no call, performs no effect, leaves the environment
    as it was and fulfils. *)
Theorem onPressViewFavorites_noop {W : Type} `{!Env W} (w : W) :
  run onPressViewFavorites w = (w, [], Fulfilled tt).
Proof. reflexivity. Qed.

End FavoritesProps.
