(* ===== verification/Session.v ===== *)
(** * The screens together, against the services' contract

    The theorems of this file hold for every environment that satisfies
    [FirebaseContract], in particular for the reference model [FbModel]:
    what a completed registration lets the Login screen do, what a
    registration that fails after the account was created leaves behind,
    and what a second submission of the same draft does. *)

From stdpp Require Import base strings list sets.
From Stdlib Require Import String ZArith.
From S2P Require Import Prelude Js JsDate Sdk Async Firebase Login Register.

Module SessionProps.
Import RegisterScreen.

Section WithContract.
Context {W : Type} `{!Env W, !FirebaseObs W, !FirebaseContract W}.

(** The Login screen after the user typed the registration's email and
    password. *)
Definition login_typed (s : RegisterScreen.state) : LoginScreen.state :=
  LoginScreen.setPassword (password s) (LoginScreen.setEmail (email s) LoginScreen.initial).

(** Signing in on the Login screen with a registered email and password
    navigates to "Home" as the account's uid. *)
Lemma logueo_registered (e p u : string) (w : W) :
  connected w = true -> account w e = Some (p, u) ->
  exists w'', run (LoginScreen.logueo (LoginScreen.mk_state (Some e) (Some p))) w =
    (w'', [EvCall (SignInWithEmailAndPassword (Some e) (Some p))
             (Fulfilled (RCredential (mk_credential (mk_user u))));
           EvEffect (AlertAlert "Iniciando Sesion" "Accediendo.....");
           EvEffect (Navigate "Home")], Fulfilled tt).
Proof.
  intros Hc Ha. pose proof (signin_registered e p u w Hc Ha) as Hs.
  unfold LoginScreen.logueo. run_simpl. cbn [LoginScreen.email LoginScreen.password].
  run_case; simpl in Hs;
    [injection Hs as ->; by eexists | discriminate].
Qed.

(** What a registration that reaches "Login" leaves in the services: the
    passwords matched, the email is registered with the typed password
    under a uid, [users/<uid>] holds a document with that email, and the
    connectivity is what it was. *)
Lemma register_success_facts (s : RegisterScreen.state) (w : W) :
  let '(w', tr, _) := run (handleRegister s) w in
  Navigate "Login" ∈ effects tr ->
  strict_neq_string (password s) (confirmPassword s) = false /\
  connected w' = connected w /\
  exists u d, account w' (email s) = Some (password s, u) /\
    document w' "users" u = Some d /\ UserDoc.email d = email s.
Proof.
  unfold handleRegister.
  destruct (strict_neq_string _ _); [simpl; set_solver|].
  unfold register_body, upload_profile_image.
  destruct (birth_date_field (birthDate s)); destruct (imageUri s) as [uri|];
    try destruct (truthy_string uri); run_exec; intros Hnav; try set_solver;
    fb_facts; destruct Hnew as [_ Hreg];
    (split; [done|]); (split; [by chain_connected|]);
    (eexists (uid (cred_user x)), _; split_and!;
     [chain_accounts; exact Hreg | eassumption | reflexivity]).
Qed.

(** C13 A registration that reaches "Login" leaves an account for the
    typed email and password and a profile document [users/<uid>] with
    that email; typing the same email and password into the Login screen
    and pressing "Sign In" then navigates to "Home" as that uid. *)
Theorem register_then_login (s : RegisterScreen.state) (w : W) :
  connected w = true ->
  let '(w', tr, _) := run (handleRegister s) w in
  Navigate "Login" ∈ effects tr ->
  exists u d w'',
    account w' (email s) = Some (password s, u) /\
    document w' "users" u = Some d /\ UserDoc.email d = email s /\
    run (LoginScreen.logueo (login_typed s)) w' =
      (w'', [EvCall (SignInWithEmailAndPassword (Some (email s)) (Some (password s)))
               (Fulfilled (RCredential (mk_credential (mk_user u))));
             EvEffect (AlertAlert "Iniciando Sesion" "Accediendo.....");
             EvEffect (Navigate "Home")], Fulfilled tt).
Proof.
  intros Hconn. pose proof (register_success_facts s w) as Hf.
  destruct (run (handleRegister s) w) as [[w' tr] o]. intros Hnav.
  destruct (Hf Hnav) as (_ & Hc & u & d & Ha & Hd & He).
  rewrite Hconn in Hc.
  destruct (logueo_registered _ _ _ w' Hc Ha) as [w'' Hrun].
  by exists u, d, w''.
Qed.

(** C14 A registration that created the account and then failed (the
    fetch, the upload, the download URL, the birth date or the profile
    write) leaves the account registered with the typed password while
    its profile document is what it was before the submission, and shows
    an error: the account is orphaned, nothing rolls it back. *)
Theorem register_failure_orphans_account (s : RegisterScreen.state) (w : W) :
  let '(w', tr, _) := run (handleRegister s) w in
  forall cred,
  EvCall (CreateUserWithEmailAndPassword (email s) (password s)) (Fulfilled (RCredential cred)) ∈ tr ->
  Navigate "Login" ∉ effects tr ->
  account w' (email s) = Some (password s, uid (cred_user cred)) /\
  document w' "users" (uid (cred_user cred)) = document w "users" (uid (cred_user cred)) /\
  (exists m, SetError m ∈ effects tr).
Proof.
  unfold handleRegister.
  destruct (strict_neq_string _ _); [simpl; set_solver|].
  unfold register_body, upload_profile_image.
  destruct (birth_date_field (birthDate s)); destruct (imageUri s) as [uri|];
    try destruct (truthy_string uri); run_exec; intros cred Hin Hnav;
    elem_of_cases Hin; try (exfalso; set_solver);
    fb_facts; destruct Hnew as [_ Hreg];
    (split_and!; [chain_accounts; exact Hreg | by chain_documents | eexists; solve_elem_of]).
Qed.

(** C15 Submitting the same draft again after a registration reached
    "Login" (the double tap of a slow network, or coming back to the
    screen) creates nothing: the account creation is rejected, the error
    is set, and no navigation happens. *)
Theorem resubmit_after_success (s : RegisterScreen.state) (w : W) :
  let '(w', tr, _) := run (handleRegister s) w in
  Navigate "Login" ∈ effects tr ->
  let '(w'', tr', _) := run (handleRegister s) w' in
  calls tr' = [CreateUserWithEmailAndPassword (email s) (password s)] /\
  account w'' (email s) = account w' (email s) /\
  (Navigate "Login" ∉ effects tr') /\ (exists m, SetError m ∈ effects tr').
Proof.
  pose proof (register_success_facts s w) as Hf.
  destruct (run (handleRegister s) w) as [[w' tr] o]. intros Hnav.
  destruct (Hf Hnav) as (Hpw & _ & u & d & Ha & _).
  unfold handleRegister. rewrite Hpw. unfold register_body. run_simpl.
  destruct (env_call (CreateUserWithEmailAndPassword (email s) (password s)) w')
    as [w'' [x|err]] eqn:Hc.
  - apply create_fulfilled in Hc as [Hnone _]. congruence.
  - apply create_rejected in Hc. run_simpl.
    split_and!; [done | done | set_solver | eexists; solve_elem_of].
Qed.

End WithContract.
End SessionProps.

(** ** Registration and the other accounts' profiles *)

Module ProfileProps.
Import RegisterScreen.

Section WithEnv.
Context {W : Type} `{!Env W}.

(** Every profile write of [handleRegister] goes to [users/<uid>] for
    the uid that its account creation, the first call, made on the
    initial environment, fulfilled with. *)
Lemma handleRegister_setdoc_key (s : RegisterScreen.state) (w : W) :
  let '(_, tr, _) := run (handleRegister s) w in
  forall col k d, SetDoc col k d ∈ calls tr ->
  col = "users" /\ exists w1 cred,
    env_call (CreateUserWithEmailAndPassword (email s) (password s)) w = (w1, Fulfilled cred) /\
    k = uid (cred_user cred).
Proof.
  unfold handleRegister, register_body, upload_profile_image.
  destruct (strict_neq_string _ _); destruct (birth_date_field (birthDate s));
    destruct (imageUri s) as [uri|]; try destruct (truthy_string uri);
    run_exec; intros col k d Hin; elem_of_cases Hin;
    (split; [done | eexists _, _; split; [reflexivity | done]]).
Qed.

End WithEnv.

Import FbModel FbModelProps.

(** C18 On a well-formed model of the services, a registration keeps the
    model well-formed and never changes the profile document of an
    account that existed before it: the uid of the new account is fresh,
    so [users/<uid>] cannot be another user's profile. *)
Theorem register_keeps_other_profiles (s : RegisterScreen.state) (w : FbModel.state) :
  wf w ->
  let '(w', tr, _) := run (handleRegister s) w in
  wf w' /\
  forall e p u, accounts w !! e = Some (p, u) -> docs w' !! ("users", u) = docs w !! ("users", u).
Proof.
  intros Hwf. pose proof (run_wf (handleRegister s) w Hwf) as Hw'.
  pose proof (run_docs_frame (handleRegister s) w "users") as Hfr.
  pose proof (handleRegister_setdoc_key s w) as Hkey.
  destruct (run (handleRegister s) w) as [[w' tr] o]. simpl in *. split; [done|].
  intros e p u Hu. apply Hfr. intros d Hin.
  destruct (Hkey _ _ _ Hin) as (_ & w1 & cred & Hc & ->).
  exact (create_user_fresh _ _ _ _ _ Hwf Hc _ _ _ Hu eq_refl).
Qed.

End ProfileProps.

(** ** Witnesses: the reference model of the services *)

Module SessionWitnesses.
Import FbModel FbModelProps RegisterScreen SessionProps.

(** The draft of a user who picked no image. *)
Definition ana_draft : RegisterScreen.state :=
  set_text FConfirmPassword "secret1" (set_text FPassword "secret1"
    (set_text FEmail "ana@huellitas.pe" (initial 0%Z))).

Definition fresh_project : FbModel.state := empty ∅ (mk_picker_result true []).

(** The same project with the security rules denying writes to [users]. *)
Definition locked_project : FbModel.state :=
  FbModel.mk_state ∅ 0 ∅ ∅ ∅ {["users"]} (mk_picker_result true []) true.

(** Bea registered before Ana: her account has [uid-0] and her profile
    is [users/uid-0]. *)
Definition bea_project : FbModel.state :=
  (fb_call (SetDoc "users" "uid-0" (user_doc (set_text FEmail "bea@huellitas.pe" (initial 0%Z)) "1970-01-01" ""))
     (fb_call (CreateUserWithEmailAndPassword "bea@huellitas.pe" "secret2") fresh_project).1).1.

Lemma register_then_login_witness :
  connected fresh_project = true /\
  (let '(_, tr, _) := run (handleRegister ana_draft) fresh_project in
   Navigate "Login" ∈ effects tr) /\
  (let '(w', tr, _) := run (handleRegister ana_draft) fresh_project in
   Navigate "Login" ∈ effects tr ->
   exists u d w'',
     account w' (email ana_draft) = Some (password ana_draft, u) /\
     document w' "users" u = Some d /\ UserDoc.email d = email ana_draft /\
     run (LoginScreen.logueo (login_typed ana_draft)) w' =
       (w'', [EvCall (SignInWithEmailAndPassword (Some (email ana_draft)) (Some (password ana_draft)))
                (Fulfilled (RCredential (mk_credential (mk_user u))));
              EvEffect (AlertAlert "Iniciando Sesion" "Accediendo.....");
              EvEffect (Navigate "Home")], Fulfilled tt)).
Proof.
  split; [reflexivity|]. split; [vm_compute; solve_elem_of|].
  apply register_then_login. reflexivity.
Defined.

Lemma register_failure_orphans_account_witness :
  (let '(_, tr, _) := run (handleRegister ana_draft) locked_project in
   EvCall (CreateUserWithEmailAndPassword (email ana_draft) (password ana_draft))
     (Fulfilled (RCredential (mk_credential (mk_user "uid-0")))) ∈ tr /\
   Navigate "Login" ∉ effects tr) /\
  (let '(w', tr, _) := run (handleRegister ana_draft) locked_project in
   forall cred,
   EvCall (CreateUserWithEmailAndPassword (email ana_draft) (password ana_draft))
     (Fulfilled (RCredential cred)) ∈ tr ->
   Navigate "Login" ∉ effects tr ->
   account w' (email ana_draft) = Some (password ana_draft, uid (cred_user cred)) /\
   document w' "users" (uid (cred_user cred)) = document locked_project "users" (uid (cred_user cred)) /\
   (exists m, SetError m ∈ effects tr)).
Proof.
  split; [vm_compute; split; [solve_elem_of | set_solver]|].
  apply register_failure_orphans_account.
Defined.

Lemma resubmit_after_success_witness :
  (let '(_, tr, _) := run (handleRegister ana_draft) fresh_project in
   Navigate "Login" ∈ effects tr) /\
  (let '(w', tr, _) := run (handleRegister ana_draft) fresh_project in
   Navigate "Login" ∈ effects tr ->
   let '(w'', tr', _) := run (handleRegister ana_draft) w' in
   calls tr' = [CreateUserWithEmailAndPassword (email ana_draft) (password ana_draft)] /\
   account w'' (email ana_draft) = account w' (email ana_draft) /\
   (Navigate "Login" ∉ effects tr') /\ (exists m, SetError m ∈ effects tr')).
Proof.
  split; [vm_compute; solve_elem_of|].
  apply resubmit_after_success.
Defined.

Lemma register_keeps_other_profiles_witness :
  wf bea_project /\
  accounts bea_project !! "bea@huellitas.pe" = Some ("secret2", "uid-0") /\
  (let '(w', tr, _) := run (handleRegister ana_draft) bea_project in
   wf w' /\
   forall e p u, accounts bea_project !! e = Some (p, u) ->
     docs w' !! ("users", u) = docs bea_project !! ("users", u)).
Proof.
  assert (Hwf : wf bea_project) by (apply fb_call_wf, fb_call_wf, wf_empty).
  split; [exact Hwf|]. split; [vm_compute; reflexivity|].
  by apply ProfileProps.register_keeps_other_profiles.
Defined.

End SessionWitnesses.
