(* ===== verification/Concurrency.v ===== *)
(** * Interleaved submissions: two taps on "Register"

    Nothing disables the "Register" button while [handleRegister] is in
    flight (RegisterScreen.js line 136), so a second tap starts a second
    run of the handler, with the same render's state, while the first one
    awaits.  JavaScript runs each handler synchronously up to its first
    [await] when the tap is handled ([spawn]), and resumes a handler when
    the call it awaits settles, running it again up to its next [await]
    ([resume]); the services settle the pending calls in any order.  A
    [config] holds the suspended handlers, the services' state and the
    trace; [step] resumes any one of them, and [rtc step] gives every
    interleaving.  [run_schedule] executes one given interleaving. *)

From stdpp Require Import base strings list relations sets.
From Stdlib Require Import String ZArith.
From S2P Require Import Prelude Js JsDate Sdk Async Firebase Register Session.

Module Interleaving.

Section WithEnv.
Context {W : Type} `{!Env W}.

Record config := mk_config {
  threads : list (prog unit);
  world : W;
  trace : list event
}.

(** The synchronous part of a program: its effects up to its next await
    or its end. *)
Fixpoint sync_prefix (p : prog unit) : list effect * prog unit :=
  match p with
  | Effect ef k => let '(efs, p') := sync_prefix k in (ef :: efs, p')
  | _ => ([], p)
  end.

Definition settle_reply (c : call) (r : settled (answer c)) : settled reply :=
  match r with
  | Fulfilled x => Fulfilled (reply_of c x)
  | Rejected e => Rejected e
  end.

(** Settle the call the [i]-th handler awaits and run it up to its next
    await. *)
Definition resume (cf : config) (i : nat) : option config :=
  match threads cf !! i with
  | Some (Await c ok ko) =>
      let '(w1, r) := env_call c (world cf) in
      let k := match r with Fulfilled x => ok x | Rejected e => ko e end in
      let '(efs, p') := sync_prefix k in
      Some (mk_config (<[i := p']> (threads cf)) w1
              (trace cf ++ EvCall c (settle_reply c r) :: map EvEffect efs))
  | _ => None
  end.

Definition step (cf cf' : config) : Prop := exists i, resume cf i = Some cf'.

(** A tap: the handler runs synchronously up to its first await. *)
Definition spawn (p : prog unit) (cf : config) : config :=
  let '(efs, p') := sync_prefix p in
  mk_config (threads cf ++ [p']) (world cf) (trace cf ++ map EvEffect efs).

(** [n] taps on "Register" with the same draft, before any call settles. *)
Definition taps (n : nat) (s : RegisterScreen.state) (w : W) : config :=
  Nat.iter n (spawn (RegisterScreen.handleRegister s)) (mk_config [] w []).

Fixpoint run_schedule (sched : list nat) (cf : config) : option config :=
  match sched with
  | [] => Some cf
  | i :: sched' => match resume cf i with Some cf' => run_schedule sched' cf' | None => None end
  end.

End WithEnv.

(** The navigations to "Login" among effects, and in a trace. *)
Definition nav_count (efs : list effect) : nat :=
  List.length (filter (fun ef => ef = Navigate "Login") efs).

Definition login_navs (tr : list event) : nat := nav_count (effects tr).

(** [nav_budget n p]: [p] calls no account creation, and navigates to
    "Login" at most [n] times on every path. *)
Inductive nav_budget : nat -> prog unit -> Prop :=
| nb_ret n a : nav_budget n (Ret a)
| nb_throw n e : nav_budget n (Throw e)
| nb_nav n k : nav_budget n k -> nav_budget (S n) (Effect (Navigate "Login") k)
| nb_effect n ef k : ef <> Navigate "Login" -> nav_budget n k -> nav_budget n (Effect ef k)
| nb_await n c ok ko : is_create c = false ->
    (forall x, nav_budget n (ok x)) -> (forall e, nav_budget n (ko e)) ->
    nav_budget n (Await c ok ko).

(** What the invariant of the taps asks of one handler: either it still
    awaits the creation of the account ([None]: on fulfilment it may
    navigate once more, on rejection not), or it navigates at most [n]
    more times ([Some n]). *)
Definition thread_ok (e : string) (t : prog unit) (g : option nat) : Prop :=
  match g with
  | None => exists pw ok ko, t = Await (CreateUserWithEmailAndPassword e pw) ok ko /\
      (forall x, nav_budget 1 (ok x)) /\ (forall err, nav_budget 0 (ko err))
  | Some n => nav_budget n t
  end.

Definition budget_sum (gs : list (option nat)) : nat := sum_list_with (default 0) gs.

(** What a budget says of an await, without dependent inversion. *)
Definition await_budget (n : nat) (p : prog unit) : Prop :=
  match p with
  | Await c ok ko => is_create c = false /\
      (forall x, nav_budget n (ok x)) /\ (forall e, nav_budget n (ko e))
  | _ => True
  end.

Section Accounts.
Context {W : Type} `{!Env W, !FirebaseObs W}.

Definition account_bit (e : string) (w : W) : nat :=
  match account w e with Some _ => 1 | None => 0 end.

(** The invariant of the taps of one draft with email [e]: the
    navigations to "Login" done plus those the handlers may still do are
    at most one, and none before [e] has an account. *)
Definition nav_inv (e : string) (cf : config) : Prop :=
  exists gs, Forall2 (thread_ok e) (threads cf) gs /\
    login_navs (trace cf) + budget_sum gs <= account_bit e (world cf).

End Accounts.

End Interleaving.

Module InterleavingProps.
Import Interleaving.

Section WithEnv.
Context {W : Type} `{!Env W}.

Lemma run_schedule_app (s1 s2 : list nat) (cf cf1 : config) :
  run_schedule s1 cf = Some cf1 -> run_schedule (s1 ++ s2) cf = run_schedule s2 cf1.
Proof.
  revert cf. induction s1 as [|i s1 IH]; simpl; intros cf H; [congruence|].
  destruct (resume cf i); [by apply IH | discriminate].
Qed.

(** An executed schedule is an interleaving of as many steps. *)
Lemma run_schedule_nsteps (sched : list nat) (cf cf' : config) :
  run_schedule sched cf = Some cf' -> nsteps step (List.length sched) cf cf'.
Proof.
  revert cf. induction sched as [|i sched IH]; simpl; intros cf H; [simplify_eq; constructor|].
  destruct (resume cf i) as [cf1|] eqn:E; [|discriminate].
  eapply nsteps_l; [by exists i | by apply IH].
Qed.

Lemma run_schedule_rtc (sched : list nat) (cf cf' : config) :
  run_schedule sched cf = Some cf' -> rtc step cf cf'.
Proof. intros H. eapply rtc_nsteps_2, run_schedule_nsteps, H. Qed.

End WithEnv.

(** ** Budgets *)

Lemma nav_count_app (l1 l2 : list effect) : nav_count (l1 ++ l2) = nav_count l1 + nav_count l2.
Proof. unfold nav_count. by rewrite filter_app, length_app. Qed.

Lemma nav_count_cons (ef : effect) (l : list effect) :
  nav_count (ef :: l) = (if decide (ef = Navigate "Login") then 1 else 0) + nav_count l.
Proof. unfold nav_count. rewrite filter_cons. by case_decide. Qed.

Lemma effects_map_EvEffect (efs : list effect) : effects (map EvEffect efs) = efs.
Proof. induction efs; simpl; congruence. Qed.

Lemma login_navs_step (tr : list event) (c : call) (r : settled reply) (efs : list effect) :
  login_navs (tr ++ EvCall c r :: map EvEffect efs) = login_navs tr + nav_count efs.
Proof. unfold login_navs. rewrite effects_app. simpl. by rewrite effects_map_EvEffect, nav_count_app. Qed.

Lemma budget_sum_app (g1 g2 : list (option nat)) : budget_sum (g1 ++ g2) = budget_sum g1 + budget_sum g2.
Proof. apply sum_list_with_app. Qed.

Lemma sum_list_with_insert {A} (f : A -> nat) (l : list A) (i : nat) (x y : A) :
  l !! i = Some x -> sum_list_with f (<[i := y]> l) + f x = sum_list_with f l + f y.
Proof.
  revert i. induction l as [|h l IH]; intros [|i] Hi; simplify_eq/=; [lia|].
  specialize (IH i Hi). lia.
Qed.

Lemma budget_sum_insert (gs : list (option nat)) (i : nat) (g g' : option nat) :
  gs !! i = Some g -> budget_sum (<[i := g']> gs) + default 0 g = budget_sum gs + default 0 g'.
Proof. apply sum_list_with_insert. Qed.

Lemma nav_budget_await (n : nat) (p : prog unit) : nav_budget n p -> await_budget n p.
Proof. destruct 1; simpl; auto. Qed.

(** The synchronous part of a program spends part of its budget. *)
Lemma sync_prefix_budget (n : nat) (p : prog unit) (efs : list effect) (p' : prog unit) :
  nav_budget n p -> sync_prefix p = (efs, p') ->
  exists m, nav_budget m p' /\ nav_count efs + m <= n.
Proof.
  intros H. revert efs p'. induction H as [n a|n e|n k Hk IH|n ef k Hne Hk IH|n c ok ko Hc Hok Hko];
    intros efs p' Hs; simpl in Hs.
  - simplify_eq. exists n. split; [constructor | done].
  - simplify_eq. exists n. split; [constructor | done].
  - destruct (sync_prefix k) as [efs' p''] eqn:E. simplify_eq.
    destruct (IH _ _ eq_refl) as (m & Hm & Hle). exists m. split; [done|].
    rewrite nav_count_cons. case_decide; [lia | congruence].
  - destruct (sync_prefix k) as [efs' p''] eqn:E. simplify_eq.
    destruct (IH _ _ eq_refl) as (m & Hm & Hle). exists m. split; [done|].
    rewrite nav_count_cons. case_decide; [congruence | lia].
  - simplify_eq. exists n. split; [by constructor | done].
Qed.

Lemma login_navs_effects (tr : list event) (efs : list effect) :
  login_navs (tr ++ map EvEffect efs) = login_navs tr + nav_count efs.
Proof. unfold login_navs. by rewrite effects_app, effects_map_EvEffect, nav_count_app. Qed.

(** The budgets of a program tree, node by node. *)
Ltac nb_tree :=
  repeat (intros; run_simpl; first
    [ apply nb_ret | apply nb_throw | apply nb_nav
    | apply nb_effect; [discriminate|]
    | apply nb_await; [reflexivity| |] ]).

(** A tap on "Register" either sets the mismatch error and ends, or
    awaits the account creation; after the creation it navigates to
    "Login" at most once, and its catch block never does. *)
Lemma handleRegister_spawn (s : RegisterScreen.state) :
  nav_count (sync_prefix (RegisterScreen.handleRegister s)).1 = 0 /\
  exists g, thread_ok (RegisterScreen.email s) (sync_prefix (RegisterScreen.handleRegister s)).2 g /\
    default 0 g = 0.
Proof.
  unfold RegisterScreen.handleRegister.
  destruct (strict_neq_string _ _).
  - split; [reflexivity|]. exists (Some 0). split; [constructor | done].
  - unfold RegisterScreen.register_body, RegisterScreen.upload_profile_image. run_simpl.
    split; [reflexivity|]. exists None. split; [|done].
    eexists _, _, _. split; [reflexivity|].
    split; intros; [destruct (RegisterScreen.imageUri s) as [uri|]; try destruct (truthy_string uri);
      destruct (birth_date_field (RegisterScreen.birthDate s))|]; nb_tree.
Qed.

Section WithContract.
Context {W : Type} `{!Env W, !FirebaseObs W, !FirebaseContract W}.

Lemma nav_inv_taps (n : nat) (s : RegisterScreen.state) (w : W) :
  nav_inv (RegisterScreen.email s) (taps n s w).
Proof.
  induction n as [|n (gs & Hgs & Hle)]; simpl.
  - exists []. split; [constructor | simpl; lia].
  - unfold spawn. destruct (handleRegister_spawn s) as (Hc & g & Hg & Hg0).
    destruct (sync_prefix (RegisterScreen.handleRegister s)) as [efs p']. simpl in *.
    exists (gs ++ [g]). split; [by apply Forall2_app; [|constructor]|].
    cbn [trace world threads]. rewrite login_navs_effects, budget_sum_app. unfold budget_sum at 2. simpl. lia.
Qed.

(** Every step keeps the invariant: a handler awaiting the creation
    spends its navigation only if the creation is fulfilled, and the
    contract fulfils it only for an email without an account. *)
Lemma nav_inv_step (e : string) (cf cf' : config) : nav_inv e cf -> step cf cf' -> nav_inv e cf'.
Proof.
  intros (gs & Hgs & Hle) [i Hr]. unfold resume in Hr.
  destruct (threads cf !! i) as [t|] eqn:Ht; [|discriminate].
  destruct (Forall2_lookup_l _ _ _ _ _ Hgs Ht) as (g & Hg & Htg).
  pose proof (budget_sum_insert gs i g) as Hsum. rewrite Hg in Hsum.
  destruct g as [n|]; simpl in Htg.
  - destruct t as [| | |c ok ko]; try discriminate.
    destruct (nav_budget_await _ _ Htg) as (Hc & Hok & Hko).
    pose proof (accounts_frame c (world cf) e Hc) as Hacc.
    destruct (env_call c (world cf)) as [w1 r]. simpl in Hacc.
    destruct (sync_prefix (match r with Fulfilled x => ok x | Rejected err => ko err end))
      as [efs p'] eqn:Es.
    assert (Hk : nav_budget n (match r with Fulfilled x => ok x | Rejected err => ko err end))
      by (destruct r; auto).
    destruct (sync_prefix_budget n _ _ _ Hk Es) as (m & Hm & Hcnt).
    simplify_eq/=. exists (<[i := Some m]> gs). split; [by apply Forall2_insert|].
    specialize (Hsum (Some m) eq_refl). cbn [trace world threads]. rewrite login_navs_step.
    unfold account_bit in *. rewrite Hacc. simpl in *. lia.
  - destruct Htg as (pw & ok & ko & -> & Hok & Hko).
    destruct (env_call (CreateUserWithEmailAndPassword e pw) (world cf)) as [w1 [x|err]] eqn:Ec.
    + destruct (create_fulfilled _ _ _ _ _ Ec) as [Hnone Hsome].
      destruct (sync_prefix (ok x)) as [efs p'] eqn:Es.
      destruct (sync_prefix_budget 1 _ _ _ (Hok x) Es) as (m & Hm & Hcnt).
      simplify_eq/=. exists (<[i := Some m]> gs). split; [by apply Forall2_insert|].
      specialize (Hsum (Some m) eq_refl). cbn [trace world threads]. rewrite login_navs_step.
      unfold account_bit in *. rewrite Hnone in Hle. rewrite Hsome. simpl in *. lia.
    + pose proof (create_rejected _ _ _ _ _ Ec) as Hacc.
      destruct (sync_prefix (ko err)) as [efs p'] eqn:Es.
      destruct (sync_prefix_budget 0 _ _ _ (Hko err) Es) as (m & Hm & Hcnt).
      simplify_eq/=. exists (<[i := Some m]> gs). split; [by apply Forall2_insert|].
      specialize (Hsum (Some m) eq_refl). cbn [trace world threads]. rewrite login_navs_step.
      unfold account_bit in *. rewrite Hacc. simpl in *. lia.
Qed.

(** C16 However many times "Register" is tapped with one draft and in
    whichever order the services settle the calls, the screen navigates
    to "Login" at most once: only the handler whose account creation is
    fulfilled can reach the navigation, and the services create an
    email's account only once. *)
Theorem taps_navigate_login_at_most_once (n : nat) (s : RegisterScreen.state) (w : W) (cf : config) :
  rtc step (taps n s w) cf -> login_navs (trace cf) <= 1.
Proof.
  intros Hrtc.
  assert (Hinv : nav_inv (RegisterScreen.email s) cf).
  { revert Hrtc. generalize (nav_inv_taps n s w). generalize (taps n s w).
    intros x Hx Hrtc. induction Hrtc; eauto using nav_inv_step. }
  destruct Hinv as (gs & _ & Hle). unfold account_bit in Hle.
  destruct (account _ _); lia.
Qed.

End WithContract.

End InterleavingProps.

(** ** The race on the reference model *)

Module InterleavingWitnesses.
Import FbModel FbModelProps Interleaving InterleavingProps SessionWitnesses.

(** Both taps await the creation; the first creation is fulfilled, the
    second rejected, then the first handler's profile write settles. *)
Definition race_schedule : list nat := [0; 1; 0].

(** Where the race schedule ends. *)
Definition race_end : config :=
  default (taps 0 ana_draft fresh_project) (run_schedule race_schedule (taps 2 ana_draft fresh_project)).

Lemma taps_navigate_login_at_most_once_witness :
  rtc step (taps 2 ana_draft fresh_project) race_end /\ login_navs (trace race_end) <= 1.
Proof.
  assert (H : rtc step (taps 2 ana_draft fresh_project) race_end)
    by (apply (run_schedule_rtc race_schedule); vm_compute; reflexivity).
  split; [exact H|]. exact (taps_navigate_login_at_most_once 2 ana_draft fresh_project _ H).
Defined.

End InterleavingWitnesses.
