(* ===== verification/Views.v ===== *)
(** * The element trees the screens return

    The [return (...)] of Login.js (lines 21-48) and of RegisterScreen.js
    (lines 86-141) as trees of [elem]: containers ([View],
    [KeyboardAvoidingView], [ScrollView]) with their children in source
    order, texts, images, text inputs (placeholder, the [value] prop of a
    controlled input, [secureTextEntry], the [onChangeText] handler),
    pressables ([TouchableOpacity] with its child, [Button] with its
    title), the document-type [Picker] and the native date picker; a
    [style={styles.k}] prop wraps its element in [EStyled k] (the
    sheets are in Styles.v).  The Favorites screen's tree is here too.
    Handlers are the screen's user actions, which [dispatch] runs.
    Inline style objects and layout props ([behavior], [mode],
    [display]) are left out: they do not change what is shown or what a
    control does. *)

From stdpp Require Import base strings list sets.
From Stdlib Require Import String ZArith.
From S2P Require Import Prelude Js JsDate Sdk Async Login Register.

Local Open Scope Z_scope.

Module Jsx.

Local Set Warnings "-register-all".

Inductive elem (A : Type) : Type :=
| EView (children : list (elem A))
| EText (text : string)
| EImage (uri : string)
| EInput (placeholder : string) (value : option string) (secure : bool)
    (onChangeText : string -> A)
| EPress (child : elem A) (onPress : A)
| EPicker (selectedValue : string) (items : list (string * string))
    (onValueChange : string -> option A)
| EDatePicker (value : time_value) (onChange : option time_value -> A)
| EStyled (key : string) (e : elem A).

Arguments EView {A} children.
Arguments EText {A} text.
Arguments EImage {A} uri.
Arguments EInput {A} placeholder value secure onChangeText.
Arguments EPress {A} child onPress.
Arguments EPicker {A} selectedValue items onValueChange.
Arguments EDatePicker {A} value onChange.
Arguments EStyled {A} key e.

(** [{cond && <X/>}] and [{cond ? <X/> : null}]: the child or nothing. *)
Definition opt_child {A} (b : bool) (e : elem A) : list (elem A) := if b then [e] else [].

(** The nodes of a tree in document order. *)
Fixpoint nodes {A} (e : elem A) : list (elem A) :=
  e :: match e with
       | EView cs => (fix go (cs : list (elem A)) : list (elem A) :=
                        match cs with [] => [] | c :: cs' => nodes c ++ go cs' end) cs
       | EPress c _ => nodes c
       | EStyled _ c => nodes c
       | _ => []
       end.

Record input (A : Type) := mk_input {
  placeholder : string; value : option string; secure : bool; onChangeText : string -> A }.
Arguments mk_input {A}.
Arguments placeholder {A}.
Arguments value {A}.
Arguments secure {A}.
Arguments onChangeText {A}.

Definition as_input {A} (e : elem A) : option (input A) :=
  match e with EInput ph v sec h => Some (mk_input ph v sec h) | _ => None end.

Definition inputs {A} (e : elem A) : list (input A) := omap as_input (nodes e).

(** What the first input with placeholder [ph] shows. *)
Fixpoint find_in {A} (ph : string) (l : list (input A)) : option (option string) :=
  match l with
  | [] => None
  | i :: l' => if String.eqb (placeholder i) ph then Some (value i) else find_in ph l'
  end.

Definition find_input {A} (ph : string) (e : elem A) : option (option string) :=
  find_in ph (inputs e).

(** The input [i] once [v] is typed into it, as a controlled input shows
    it. *)
Definition with_value {A} (v : string) (i : input A) : input A :=
  mk_input (placeholder i) (Some v) (secure i) (onChangeText i).

Definition as_picker {A} (e : elem A) : option (string * list (string * string) * (string -> option A)) :=
  match e with EPicker v its h => Some (v, its, h) | _ => None end.

Definition pickers {A} (e : elem A) := omap as_picker (nodes e).

Definition as_date_picker {A} (e : elem A) : option (time_value * (option time_value -> A)) :=
  match e with EDatePicker v h => Some (v, h) | _ => None end.

Definition date_pickers {A} (e : elem A) := omap as_date_picker (nodes e).

(** The keys of the stylesheet the tree refers to ([style={styles.k}]). *)
Definition style_refs {A} (e : elem A) : list string :=
  omap (fun n => match n with EStyled k _ => Some k | _ => None end) (nodes e).

Definition texts {A} (e : elem A) : list string :=
  omap (fun n => match n with EText t => Some t | _ => None end) (nodes e).

End Jsx.

Module LoginView.
Import Jsx LoginScreen.

(** Lines 22-47.  Neither input has a [value] prop: both are
    uncontrolled. *)
Definition login_tree : elem action :=
  EStyled "padre" (EView
    [EView [EStyled "profile" (EImage "../assets/akira.jpeg")];
     EStyled "tarjeta" (EView
       [EStyled "cajaTexto" (EView [EInput "correo@gmail.com" None false (fun text => ChangeEmail text)]);
        EStyled "cajaTexto" (EView [EInput "password" None true (fun text => ChangePassword text)]);
        EStyled "PadreBoton" (EView
          [EStyled "cajaBoton" (EPress (EStyled "TextoBoton" (EText "Sign In")) PressSignIn)]);
        EStyled "PadreBoton" (EView
          [EStyled "cajaBoton" (EPress (EStyled "TextoBoton" (EText "Register")) PressRegister)])])]).

(** The actions that write a password into the state. *)
Definition is_secret (a : action) : bool :=
  match a with ChangePassword _ => true | _ => false end.

End LoginView.

Module RegisterView.
Import Jsx RegisterScreen.

(** [setDocType(itemValue)] for the values of the picker's items. *)
Definition doc_type_of (v : string) : option doc_type :=
  if String.eqb v "DNI" then Some DNI
  else if String.eqb v "PASAPORTE" then Some PASAPORTE
  else if String.eqb v "RUC" then Some RUC
  else None.

Definition doc_type_items : list (string * string) :=
  [("DNI", "DNI"); ("PASAPORTE", "PASAPORTE"); ("RUC", "RUC")].

(** Lines 86-141, for a device whose local time is [LocalTZA] from
    UTC. *)
Definition register_tree (LocalTZA : Z) (s : state) : elem action :=
  EStyled "container" (EView [EStyled "scrollContainer" (EView (
    [EStyled "title" (EText "Register")] ++
    opt_child (truthy_string (error s)) (EStyled "error" (EText (error s))) ++
    [EStyled "imagePicker" (EPress (match imageUri s with
       | Some u => if truthy_string u then EStyled "profileImage" (EImage u)
                   else EText "Select Profile Image"
       | None => EText "Select Profile Image"
       end) PressPickImage);
     EStyled "input" (EInput "Email" (Some (email s)) false (ChangeText FEmail));
     EStyled "input" (EInput "Password" (Some (password s)) true (ChangeText FPassword));
     EStyled "input" (EInput "Confirm Password" (Some (confirmPassword s)) true (ChangeText FConfirmPassword));
     EStyled "input" (EInput "Username" (Some (username s)) false (ChangeText FUsername));
     EStyled "input" (EInput "Full Name" (Some (fullName s)) false (ChangeText FFullName));
     EStyled "picker" (EPicker (doc_type_value (docType s)) doc_type_items
       (fun itemValue => ChangeDocType <$> doc_type_of itemValue));
     EStyled "input" (EInput "Document Number" (Some (docNumber s)) false (ChangeText FDocNumber));
     EStyled "input" (EInput "Age" (Some (age s)) false (ChangeText FAge));
     EView ([EPress (EText "Select Birth Date") PressSelectBirthDate] ++
            opt_child (showDatePicker s) (EDatePicker (birthDate s) PickDate));
     EStyled "dateText" (EText ("Selected Date: " +:+ toDateString LocalTZA (birthDate s)));
     EStyled "input" (EInput "Address" (Some (address s)) false (ChangeText FAddress));
     EStyled "button" (EPress (EStyled "buttonText" (EText "Register")) PressRegister)]))]).

Definition is_secret (a : action) : bool :=
  match a with ChangeText FPassword _ | ChangeText FConfirmPassword _ => true | _ => false end.

(** The field each controlled input shows. *)
Definition get_text (f : text_field) (s : state) : string :=
  match f with
  | FEmail => email s | FPassword => password s | FConfirmPassword => confirmPassword s
  | FUsername => username s | FFullName => fullName s | FDocNumber => docNumber s
  | FAge => age s | FAddress => address s
  end.

End RegisterView.

Module FavoritesView.
Import Jsx.

(** Lines 6-12; the button's [onPress] is the empty handler. *)
Definition favorites_tree : elem unit :=
  EStyled "container" (EView
    [EStyled "title" (EText "Favorites Screen");
     EPress (EText "View Favorite Items") tt]).

End FavoritesView.

(** ** What the controls do *)

Module ViewProps.
Import Jsx RegisterScreen RegisterView.

(** The text inputs of the Register screen, in document order. *)
Definition register_inputs (s : state) : list (input action) :=
  [mk_input "Email" (Some (email s)) false (ChangeText FEmail);
   mk_input "Password" (Some (password s)) true (ChangeText FPassword);
   mk_input "Confirm Password" (Some (confirmPassword s)) true (ChangeText FConfirmPassword);
   mk_input "Username" (Some (username s)) false (ChangeText FUsername);
   mk_input "Full Name" (Some (fullName s)) false (ChangeText FFullName);
   mk_input "Document Number" (Some (docNumber s)) false (ChangeText FDocNumber);
   mk_input "Age" (Some (age s)) false (ChangeText FAge);
   mk_input "Address" (Some (address s)) false (ChangeText FAddress)].

(** Case on the conditionals of [register_tree]: the error line, the
    image, the date picker. *)
Ltac register_tree_cases s :=
  unfold register_tree; destruct (truthy_string (error s)), (showDatePicker s);
  destruct (imageUri s) as [?u|]; cbn [truthy_nullable]; try destruct (truthy_string _).

Lemma inputs_login_tree :
  inputs LoginView.login_tree =
    [mk_input "correo@gmail.com" None false LoginScreen.ChangeEmail;
     mk_input "password" None true LoginScreen.ChangePassword].
Proof. reflexivity. Qed.

Lemma inputs_register_tree (tz : Z) (s : state) : inputs (register_tree tz s) = register_inputs s.
Proof. unfold inputs. register_tree_cases s; reflexivity. Qed.

Lemma pickers_register_tree (tz : Z) (s : state) :
  pickers (register_tree tz s) =
    [(doc_type_value (docType s), doc_type_items, fun v => ChangeDocType <$> doc_type_of v)].
Proof. unfold pickers. register_tree_cases s; reflexivity. Qed.

Lemma date_pickers_register_tree (tz : Z) (s : state) :
  date_pickers (register_tree tz s) = if showDatePicker s then [(birthDate s, PickDate)] else [].
Proof. unfold date_pickers. register_tree_cases s; reflexivity. Qed.

Lemma selected_date_shown (tz : Z) (s : state) :
  "Selected Date: " +:+ toDateString tz (birthDate s) ∈ texts (register_tree tz s).
Proof. unfold texts. register_tree_cases s; cbn; solve_elem_of. Qed.

(** Typing into the [k]-th position of a list of inputs with distinct
    placeholders changes what that placeholder shows, and nothing
    else. *)
Lemma find_in_insert {A} (ph : string) (l : list (input A)) (k : nat) (i : input A) (v : string) :
  NoDup (placeholder <$> l) -> l !! k = Some i ->
  find_in ph (<[k := with_value v i]> l) =
    if String.eqb ph (placeholder i) then Some (Some v) else find_in ph l.
Proof.
  revert k. induction l as [|j l IH]; intros [|k] Hnd Hk; try discriminate Hk; cbn in Hk.
  - injection Hk as <-. unfold with_value. cbn. rewrite String.eqb_sym. by destruct (String.eqb _ _).
  - rewrite fmap_cons, NoDup_cons in Hnd. destruct Hnd as [Hj Hnd].
    change (<[S k:=with_value v i]> (j :: l)) with (j :: <[k:=with_value v i]> l).
    cbn [find_in]. rewrite (IH k Hnd Hk).
    destruct (String.eqb_spec (placeholder j) ph) as [<-|]; [|done].
    destruct (String.eqb_spec (placeholder j) (placeholder i)) as [E|]; [|done].
    destruct Hj. rewrite E. apply list_elem_of_fmap_2. by eapply list_elem_of_lookup_2.
Qed.

Lemma register_inputs_nodup (s : state) : NoDup (placeholder <$> register_inputs s).
Proof. apply (bool_decide_unpack _). vm_compute. reflexivity. Qed.

Lemma register_inputs_change (s : state) (k : nat) (i : input action) (t : string) :
  register_inputs s !! k = Some i ->
  register_inputs (dispatch s (onChangeText i t)).1 = <[k := with_value t i]> (register_inputs s).
Proof. destruct s. do 8 (destruct k as [|k]; [intros [= <-]; reflexivity|]). done. Qed.

Lemma register_inputs_setDocType (s : state) (d : doc_type) :
  register_inputs (setDocType d s) = register_inputs s.
Proof. by destruct s. Qed.

(** C22 Password masking: on both screens a text input hides what is
    typed ([secureTextEntry]) exactly when typing into it writes a
    password into the state: the Login "password" input, and the
    Register "Password" and "Confirm Password" inputs; no other input
    is masked. *)
Theorem inputs_masked_iff_password (tz : Z) (s : state) :
  (forall i, i ∈ inputs LoginView.login_tree ->
     forall t, secure i = LoginView.is_secret (onChangeText i t)) /\
  (forall i, i ∈ inputs (register_tree tz s) ->
     forall t, secure i = RegisterView.is_secret (onChangeText i t)).
Proof.
  split; intros i Hi t; [rewrite inputs_login_tree in Hi | rewrite inputs_register_tree in Hi];
    unfold register_inputs in Hi; elem_of_cases Hi; reflexivity.
Qed.

(** C23 The Register inputs are controlled, each by its own field:
    after typing [t] into any input of the form, the re-rendered form
    shows [t] in the input with that placeholder and every other
    placeholder shows what it showed before. *)
Theorem register_input_roundtrip (tz : Z) (s : state) (i : input action) (t ph : string) :
  i ∈ inputs (register_tree tz s) ->
  find_input ph (register_tree tz (dispatch s (onChangeText i t)).1) =
    if String.eqb ph (placeholder i) then Some (Some t) else find_input ph (register_tree tz s).
Proof.
  unfold find_input. rewrite !inputs_register_tree. intros [k Hk]%list_elem_of_lookup.
  rewrite (register_inputs_change _ _ _ _ Hk).
  exact (find_in_insert _ _ _ _ _ (register_inputs_nodup s) Hk).
Qed.

(** C24 The document-type picker shows [docType]; choosing any of its
    items DNI, PASAPORTE, RUC dispatches [setDocType] with that value,
    after which the picker shows the chosen value and the text inputs
    are unchanged. *)
Theorem register_picker_roundtrip (tz : Z) (s : state) sel items h (label v : string) :
  (sel, items, h) ∈ pickers (register_tree tz s) -> (label, v) ∈ items ->
  sel = doc_type_value (docType s) /\
  exists a, h v = Some a /\
    (fun p => p.1) <$> pickers (register_tree tz (dispatch s a).1) = [(v, items)] /\
    inputs (register_tree tz (dispatch s a).1) = inputs (register_tree tz s).
Proof.
  rewrite pickers_register_tree. intros Hp Hv. elem_of_cases Hp.
  split; [done|]. unfold doc_type_items in Hv. elem_of_cases Hv;
    eexists; (split; [reflexivity|]); cbn [dispatch fst];
    rewrite pickers_register_tree, !inputs_register_tree, register_inputs_setDocType;
    by destruct s.
Qed.

(** C25 The native date picker is on screen exactly while
    [showDatePicker]: "Select Birth Date" opens it on [birthDate], and
    its answer closes it, the picked date (or, when dismissed, the
    previous one) becoming the "Selected Date" line. *)
Theorem register_date_picker_cycle (tz : Z) (s : state) (v : time_value) h (d : option time_value) :
  date_pickers (register_tree tz (dispatch s PressSelectBirthDate).1) = [(birthDate s, PickDate)] /\
  ((v, h) ∈ date_pickers (register_tree tz s) ->
   v = birthDate s /\
   date_pickers (register_tree tz (dispatch s (h d)).1) = [] /\
   "Selected Date: " +:+ toDateString tz (from_option id (birthDate s) d)
     ∈ texts (register_tree tz (dispatch s (h d)).1)).
Proof.
  split; [rewrite date_pickers_register_tree; by destruct s|].
  rewrite date_pickers_register_tree. intros Hv.
  destruct (showDatePicker s); elem_of_cases Hv. split; [done|].
  rewrite date_pickers_register_tree.
  replace (from_option id (birthDate s) d) with (birthDate (dispatch s (PickDate d)).1)
    by (destruct s, d; reflexivity).
  split; [by destruct s | apply selected_date_shown].
Qed.

End ViewProps.

Module ViewWitnesses.
Import Jsx RegisterScreen RegisterView ViewProps.

(** Lima, five hours behind UTC. *)
Definition lima : Z := -18000000.

Definition password_input (s : state) : input action :=
  mk_input "Password" (Some (password s)) true (ChangeText FPassword).

Lemma inputs_masked_iff_password_witness :
  password_input (initial 0) ∈ inputs (register_tree lima (initial 0)) /\
  secure (password_input (initial 0)) = RegisterView.is_secret (ChangeText FPassword "secret1").
Proof.
  assert (H : password_input (initial 0) ∈ inputs (register_tree lima (initial 0))).
  { rewrite inputs_register_tree. unfold register_inputs. solve_elem_of. }
  split; [exact H|].
  exact (proj2 (inputs_masked_iff_password lima (initial 0)) _ H "secret1").
Defined.

(** Typing a password leaves the "Email" input as it was and shows the
    typed text in "Password". *)
Lemma register_input_roundtrip_witness :
  password_input (initial 0) ∈ inputs (register_tree lima (initial 0)) /\
  find_input "Password"
    (register_tree lima (dispatch (initial 0) (ChangeText FPassword "secret1")).1) =
    Some (Some "secret1") /\
  find_input "Email"
    (register_tree lima (dispatch (initial 0) (ChangeText FPassword "secret1")).1) = Some (Some "").
Proof.
  assert (H : password_input (initial 0) ∈ inputs (register_tree lima (initial 0))).
  { rewrite inputs_register_tree. unfold register_inputs. solve_elem_of. }
  split; [exact H|]. split.
  - exact (register_input_roundtrip lima (initial 0) _ "secret1" "Password" H).
  - refine (eq_trans (register_input_roundtrip lima (initial 0) _ "secret1" "Email" H) _).
    reflexivity.
Defined.

Lemma register_picker_roundtrip_witness :
  (doc_type_value DNI, doc_type_items, fun v => ChangeDocType <$> doc_type_of v)
    ∈ pickers (register_tree lima (initial 0)) /\
  ("RUC", "RUC") ∈ doc_type_items /\
  exists a, (fun v => ChangeDocType <$> doc_type_of v) "RUC" = Some a /\
    (fun p => p.1) <$> pickers (register_tree lima (dispatch (initial 0) a).1) = [("RUC", doc_type_items)] /\
    inputs (register_tree lima (dispatch (initial 0) a).1) = inputs (register_tree lima (initial 0)).
Proof.
  assert (H1 : (doc_type_value DNI, doc_type_items, fun v => ChangeDocType <$> doc_type_of v)
                 ∈ pickers (register_tree lima (initial 0))).
  { rewrite pickers_register_tree. solve_elem_of. }
  assert (H2 : ("RUC", "RUC") ∈ doc_type_items) by (unfold doc_type_items; solve_elem_of).
  split; [exact H1|]. split; [exact H2|].
  exact (proj2 (register_picker_roundtrip lima (initial 0) _ _ _ _ _ H1 H2)).
Defined.

(** The picker opened on the mount date, answered with 1995-06-15 at
    noon UTC. *)
Definition picker_open : state := (dispatch (initial 0) PressSelectBirthDate).1.

Lemma register_date_picker_cycle_witness :
  (birthDate picker_open, PickDate) ∈ date_pickers (register_tree lima picker_open) /\
  date_pickers (register_tree lima (dispatch picker_open (PickDate (Some (Some 803217600000)))).1) = [] /\
  "Selected Date: Thu Jun 15 1995"
    ∈ texts (register_tree lima (dispatch picker_open (PickDate (Some (Some 803217600000)))).1).
Proof.
  assert (H : (birthDate picker_open, PickDate) ∈ date_pickers (register_tree lima picker_open)).
  { rewrite date_pickers_register_tree. solve_elem_of. }
  destruct (register_date_picker_cycle lima picker_open (birthDate picker_open) PickDate
              (Some (Some 803217600000))) as [_ Hc].
  destruct (Hc H) as (_ & Hd & Ht).
  split; [exact H|]. split; [exact Hd|].
  exact Ht.
Defined.

End ViewWitnesses.
