(* ===== verification/Styles.v ===== *)
(** * The stylesheets of the screens

    [StyleSheet.create({...})] of Login.js (lines 50-101),
    RegisterScreen.js (lines 144-209) and Favorites.js (lines 16-28),
    transcribed as association lists in source order: a key of [styles]
    maps to a style object, a style object maps property names to
    numbers (exact rationals, [shadowOpacity: 0.25] included), strings
    (colors, keywords, percentages such as ['90%']) and nested objects
    ([shadowOffset]).  [StyleSheet.create] returns its argument, so the
    sheet is the literal.  The trees of Views.v refer to the sheet by
    key ([EStyled]).  The sheets carry no behaviour: no property is
    stated of them, and the layout React Native computes from them is
    not modelled. *)

From stdpp Require Import base strings list sets.
From Stdlib Require Import String ZArith QArith.
From S2P Require Import Prelude Js Register Views.

Module Styles.
Import Jsx.

Local Set Warnings "-register-all".

Inductive style_value :=
| SNum (q : Q)
| SStr (s : string)
| SObj (fields : list (string * style_value)).

Definition style := list (string * style_value).
Definition stylesheet := list (string * style).

(** Property access on an object literal without repeated keys. *)
Fixpoint assoc {B} (k : string) (l : list (string * B)) : option B :=
  match l with
  | [] => None
  | (k', v) :: l' => if String.eqb k' k then Some v else assoc k l'
  end.

Local Open Scope Q_scope.

(** Login.js lines 50-101. *)
Definition login_styles : stylesheet :=
  [("padre", [("flex", SNum 1); ("justifyContent", SStr "center"); ("alignItems", SStr "center");
              ("backgroundColor", SStr "white")]);
   ("profile", [("width", SNum 100); ("height", SNum 100); ("borderRadius", SNum 50);
                ("borderColor", SStr "white")]);
   ("tarjeta", [("margin", SNum 20); ("backgroundColor", SStr "white"); ("borderRadius", SNum 20);
                ("width", SStr "90%"); ("padding", SNum 20); ("shadowColor", SStr "#000");
                ("shadowOffset", SObj [("width", SNum 0); ("height", SNum 2)]);
                ("shadowOpacity", SNum (25 # 100)); ("shadowRadius", SNum 4); ("elevation", SNum 5)]);
   ("cajaTexto", [("paddingVertical", SNum 20); ("backgroundColor", SStr "#cccccc40");
                  ("borderRadius", SNum 30); ("marginVertical", SNum 10)]);
   ("PadreBoton", [("alignItems", SStr "center"); ("width", SStr "100%")]);
   ("cajaBoton", [("backgroundColor", SStr "#525FE1"); ("borderRadius", SNum 30);
                  ("paddingVertical", SNum 20); ("width", SNum 150); ("marginTop", SNum 20)]);
   ("TextoBoton", [("textAlign", SStr "center"); ("color", SStr "white")])].

(** RegisterScreen.js lines 144-209. *)
Definition register_styles : stylesheet :=
  [("container", [("flex", SNum 1); ("backgroundColor", SStr "#f0f0f0")]);
   ("scrollContainer", [("padding", SNum 16); ("flexGrow", SNum 1); ("justifyContent", SStr "center")]);
   ("title", [("fontSize", SNum 24); ("fontWeight", SStr "bold"); ("marginBottom", SNum 20);
              ("textAlign", SStr "center")]);
   ("input", [("height", SNum 50); ("borderColor", SStr "gray"); ("borderWidth", SNum 1);
              ("borderRadius", SNum 10); ("marginBottom", SNum 12); ("paddingHorizontal", SNum 16);
              ("backgroundColor", SStr "#ffffff")]);
   ("picker", [("height", SNum 50); ("borderColor", SStr "gray"); ("borderWidth", SNum 1);
               ("borderRadius", SNum 10); ("marginBottom", SNum 12); ("backgroundColor", SStr "#ffffff")]);
   ("button", [("backgroundColor", SStr "#525FE1"); ("borderRadius", SNum 30);
               ("paddingVertical", SNum 15); ("marginTop", SNum 20); ("alignItems", SStr "center")]);
   ("buttonText", [("color", SStr "white"); ("fontSize", SNum 16)]);
   ("error", [("color", SStr "red"); ("marginBottom", SNum 12); ("textAlign", SStr "center")]);
   ("dateText", [("marginTop", SNum 8); ("marginBottom", SNum 12); ("textAlign", SStr "center")]);
   ("imagePicker", [("backgroundColor", SStr "#eeeeee"); ("borderRadius", SNum 10); ("padding", SNum 20);
                    ("marginBottom", SNum 12); ("alignItems", SStr "center")]);
   ("profileImage", [("width", SNum 100); ("height", SNum 100); ("borderRadius", SNum 50)])].

(** Favorites.js lines 16-28. *)
Definition favorites_styles : stylesheet :=
  [("container", [("flex", SNum 1); ("justifyContent", SStr "center"); ("alignItems", SStr "center");
                  ("backgroundColor", SStr "#f0f0f0")]);
   ("title", [("fontSize", SNum 24); ("fontWeight", SStr "bold"); ("marginBottom", SNum 20)])].

End Styles.
