(* ===== verification/Interaction.v ===== *)
(** * The user at the rendered screen

    React Native delivers each user gesture to the control on screen that
    receives it: the text typed into the input with a given placeholder
    reaches its [onChangeText], a tap on a pressable showing a label
    reaches its [onPress], a choice in the [Picker] its [onValueChange],
    the native date picker's answer its [onChange].  [resolve] finds that
    control in the tree of Views.v and returns the user action of the
    screen it runs; a gesture on a control that is not on screen does
    nothing.  A screen's life is then a sequence of gestures, each
    resolved in the tree rendered from the current state, interleaved,
    for the Register screen, with the setters ([setError],
    [setImageUri]) its running handlers call when their awaits settle.

    The theorems compose the views with the handlers: what the Sign In
    button sends to Firebase Auth, and what the Register button writes
    to Firestore, are the texts last typed into the rendered inputs. *)

From stdpp Require Import base strings list sets.
From Stdlib Require Import String ZArith.
From S2P Require Import Prelude Js JsDate Sdk Async Login Register Schema Views.

Module UI.
Import Jsx.

(** The user's gestures, addressed as the user sees the controls. *)
Inductive ui_event :=
| TypeText (placeholder text : string)
| Press (label : string)
| Pick (value : string)
| Answer (selectedDate : option time_value).

(** What a pressable shows: its texts and images. *)
Definition labels {A} (e : elem A) : list string :=
  omap (fun n => match n with EText t => Some t | EImage u => Some u | _ => None end) (nodes e).

Definition presses {A} (e : elem A) : list (list string * A) :=
  omap (fun n => match n with EPress c a => Some (labels c, a) | _ => None end) (nodes e).

(** The action the gesture runs on the first control that receives it. *)
Definition resolve {A} (e : elem A) (ev : ui_event) : option A :=
  match ev with
  | TypeText ph t => (fun i => onChangeText i t) <$> head (filter (fun i => placeholder i = ph) (inputs e))
  | Press l => snd <$> head (filter (fun p => l ∈ p.1) (presses e))
  | Pick v => head (filter (fun p => v ∈ p.1.2.*2) (pickers e)) ≫= (fun p => p.2 v)
  | Answer d => (fun p => p.2 d) <$> head (date_pickers e)
  end.

(** One gesture on a screen rendered by [render], whose actions update
    the state by [upd]. *)
Definition gesture {S A} (render : S -> elem A) (upd : S -> A -> S) (s : S) (ev : ui_event) : S :=
  match resolve (render s) ev with Some a => upd s a | None => s end.

(** The last value a sequence of steps reports. *)
Definition last_obs {O V} (obs : O -> option V) (os : list O) : option V := last (omap obs os).

(** The text typed into the input [ph]. *)
Definition typed (ph : string) (ev : ui_event) : option string :=
  match ev with TypeText ph' t => if String.eqb ph' ph then Some t else None | _ => None end.

End UI.

Module LoginUI.
Import Jsx UI LoginScreen LoginView.

Definition login_step (s : state) (ev : ui_event) : state :=
  gesture (fun _ => login_tree) (fun s a => (dispatch s a).1) s ev.

End LoginUI.

Module RegisterUI.
Import Jsx UI RegisterScreen RegisterView.

(** What happens on the Register screen: a gesture, or a setter called by
    a handler whose await settled. *)
Inductive occurrence := User (ev : ui_event) | Settle (ef : effect).

Definition register_step (tz : Z) (s : state) (o : occurrence) : state :=
  match o with
  | User ev => gesture (register_tree tz) (fun s a => (dispatch s a).1) s ev
  | Settle ef => apply_effect s ef
  end.

(** The placeholder of each text input (lines 103-135). *)
Definition field_placeholder (f : text_field) : string :=
  match f with
  | FEmail => "Email" | FPassword => "Password" | FConfirmPassword => "Confirm Password"
  | FUsername => "Username" | FFullName => "Full Name" | FDocNumber => "Document Number"
  | FAge => "Age" | FAddress => "Address"
  end.

Definition user_obs {V} (obs : ui_event -> option V) (o : occurrence) : option V :=
  match o with User ev => obs ev | Settle _ => None end.

(** The text an input shows after [os]: the last typed into it, or the
    [useState('')] it starts with. *)
Definition shown_text (ph : string) (os : list occurrence) : string :=
  from_option id "" (last_obs (user_obs (typed ph)) os).

(** The document type last chosen in the picker. *)
Definition picked (ev : ui_event) : option doc_type :=
  match ev with Pick v => doc_type_of v | _ => None end.

#[export] Instance text_field_eq_dec : EqDecision text_field.
Proof. solve_decision. Defined.

End RegisterUI.

(** ** Generic lemmas *)

Module UIProps.
Import UI.

Section Tracking.
Context {S O V : Type} (step : S -> O -> S) (get : S -> V) (obs : O -> option V).
Hypothesis step_obs : forall s o v, obs o = Some v -> get (step s o) = v.
Hypothesis step_other : forall s o, obs o = None -> get (step s o) = get s.

(** A field that each step either sets to what the step reports or
    leaves alone holds, after a run, the last value reported, or its
    initial value. *)
Lemma foldl_tracks (s : S) (os : list O) :
  get (foldl step s os) = from_option id (get s) (last_obs obs os).
Proof.
  unfold last_obs. induction os as [|o os IH] using rev_ind; [done|].
  rewrite foldl_app, omap_app. cbn [foldl].
  assert (Ho : omap obs [o] = from_option (fun v => [v]) [] (obs o)) by (cbn; by destruct (obs o)).
  rewrite Ho. destruct (obs o) as [v|] eqn:E; cbn [from_option].
  - rewrite last_snoc. cbn. by apply step_obs.
  - rewrite app_nil_r, step_other by done. exact IH.
Qed.

End Tracking.

Lemma head_filter_Some {A} (P : A -> Prop) `{!forall x, Decision (P x)} (l : list A) (x : A) :
  head (filter P l) = Some x -> x ∈ l /\ P x.
Proof.
  induction l as [|y l IH]; [discriminate|]. rewrite filter_cons.
  case_decide; cbn.
  - intros [= ->]. split; [left | done].
  - intros [? ?]%IH. split; [by right | done].
Qed.

Lemma omap_fmap_Some {A B} (f : A -> option B) (l : list A) :
  omap (fun x => Some <$> f x) l = Some <$> omap f l.
Proof. induction l as [|x l IH]; [done|]. cbn. destruct (f x); cbn; by rewrite IH. Qed.

Lemma last_fmap {A B} (f : A -> B) (l : list A) : last (f <$> l) = f <$> last l.
Proof. induction l as [|x [|y l] IH]; [done..|]. exact IH. Qed.

End UIProps.

(** ** The Login screen under the user's gestures *)

Module LoginUIProps.
Import Jsx UI UIProps LoginScreen LoginView LoginUI.

Lemma resolve_login (ev : ui_event) (a : action) :
  resolve login_tree ev = Some a ->
  match ev with
  | TypeText ph t => (ph = "correo@gmail.com" /\ a = ChangeEmail t) \/ (ph = "password" /\ a = ChangePassword t)
  | Press _ => a = PressSignIn \/ a = PressRegister
  | _ => False
  end.
Proof.
  destruct ev as [ph t|l|v|d]; unfold resolve; [|cbn..]; try discriminate.
  - rewrite ViewProps.inputs_login_tree, !filter_cons. cbn.
    repeat case_decide; cbn; intros; simplify_eq; auto.
  - repeat case_decide; cbn; intros; simplify_eq; auto.
Qed.

(** A gesture on the Login screen: typing sets the field of its input,
    every other gesture leaves the fields as they are. *)
Lemma login_step_spec (s : state) (ev : ui_event) :
  login_step s ev =
    match typed "correo@gmail.com" ev, typed "password" ev with
    | Some t, _ => setEmail t s
    | None, Some t => setPassword t s
    | None, None => s
    end.
Proof.
  unfold login_step, gesture. destruct (resolve login_tree ev) as [a|] eqn:E.
  - apply resolve_login in E. destruct ev as [ph t|l|v|d]; cbn; [|by destruct E as [-> | ->]|done..].
    destruct E as [[-> ->]|[-> ->]]; reflexivity.
  - destruct ev as [ph t|l|v|d]; cbn; [|done..].
    unfold resolve in E. rewrite ViewProps.inputs_login_tree, !filter_cons in E.
    destruct (String.eqb_spec ph "correo@gmail.com"), (String.eqb_spec ph "password"); subst;
      try reflexivity; repeat case_decide; cbn in *; congruence.
Qed.

Lemma login_email_tracks (s : state) (evs : list ui_event) :
  email (foldl login_step s evs) =
    from_option id (email s) (last_obs (fun ev => Some <$> typed "correo@gmail.com" ev) evs).
Proof.
  apply foldl_tracks.
  - intros s' ev v. rewrite login_step_spec.
    destruct (typed "correo@gmail.com" ev); cbn; [by intros [= <-] | discriminate].
  - intros s' ev. rewrite login_step_spec.
    destruct (typed "correo@gmail.com" ev); cbn; [discriminate|]. by destruct (typed "password" ev).
Qed.

(** A gesture types into one input at most. *)
Lemma typed_login_exclusive (ev : ui_event) (t t' : string) :
  typed "correo@gmail.com" ev = Some t -> typed "password" ev = Some t' -> False.
Proof.
  destruct ev as [ph ?| | |]; cbn; try discriminate.
  destruct (String.eqb_spec ph "correo@gmail.com"), (String.eqb_spec ph "password"); congruence.
Qed.

Lemma login_password_tracks (s : state) (evs : list ui_event) :
  password (foldl login_step s evs) =
    from_option id (password s) (last_obs (fun ev => Some <$> typed "password" ev) evs).
Proof.
  apply foldl_tracks.
  - intros s' ev v H. rewrite login_step_spec.
    destruct (typed "password" ev) as [t'|] eqn:E2; cbn in H; [injection H as <- | discriminate].
    destruct (typed "correo@gmail.com" ev) eqn:E1; [|done].
    destruct (typed_login_exclusive ev _ _ E1 E2).
  - intros s' ev H. rewrite login_step_spec.
    destruct (typed "correo@gmail.com" ev); [done|]. by destruct (typed "password" ev).
Qed.

(** From [initial], a field holds the last text typed into its input, or
    [undefined]. *)
Lemma login_initial_tracks (evs : list ui_event) :
  email (foldl login_step initial evs) = last_obs (typed "correo@gmail.com") evs /\
  password (foldl login_step initial evs) = last_obs (typed "password") evs.
Proof.
  rewrite login_email_tracks, login_password_tracks. unfold last_obs.
  rewrite !omap_fmap_Some, !last_fmap. cbn.
  split; by destruct (last _).
Qed.

Section WithEnv.
Context {W : Type} `{!Env W}.

(** C26 Whatever the user did on the Login screen, a tap on "Sign In"
    runs [logueo], whose only call is [signInWithEmailAndPassword] with
    the last text typed into the "correo@gmail.com" input and the last
    typed into the "password" input ([undefined] for an input never
    typed into), whatever Firebase answers. *)
Theorem login_ui_signin (evs : list ui_event) (w : W) :
  resolve login_tree (Press "Sign In") = Some PressSignIn /\
  (dispatch (foldl login_step initial evs) PressSignIn).2 = logueo (foldl login_step initial evs) /\
  calls (run (logueo (foldl login_step initial evs)) w).1.2 =
    [SignInWithEmailAndPassword (last_obs (typed "correo@gmail.com") evs)
                                (last_obs (typed "password") evs)].
Proof.
  split; [reflexivity|]. split; [reflexivity|].
  destruct (login_initial_tracks evs) as [<- <-]. unfold logueo.
  run_simpl. destruct (env_call _ w) as [w1 [r|e]]; reflexivity.
Qed.

End WithEnv.

End LoginUIProps.

(** ** The Register screen under the user's gestures and the setters *)

Module RegisterUIProps.
Import Jsx UI UIProps RegisterScreen RegisterView ViewProps RegisterUI.

Lemma presses_register_actions (tz : Z) (s : state) :
  snd <$> presses (register_tree tz s) = [PressPickImage; PressSelectBirthDate; PressRegister].
Proof. unfold presses. register_tree_cases s; reflexivity. Qed.

(** What a gesture on the Register screen can run. *)
Lemma resolve_register (tz : Z) (s : state) (ev : ui_event) (a : action) :
  resolve (register_tree tz s) ev = Some a ->
  match ev with
  | TypeText ph t => exists f, a = ChangeText f t /\ field_placeholder f = ph
  | Press _ => a = PressPickImage \/ a = PressSelectBirthDate \/ a = PressRegister
  | Pick v => exists d, doc_type_of v = Some d /\ a = ChangeDocType d
  | Answer d => a = PickDate d
  end.
Proof.
  destruct ev as [ph t|l|v|d]; unfold resolve.
  - destruct (head _) as [i|] eqn:E; [intros [= <-] | discriminate].
    apply head_filter_Some in E as [Hi Hp]. rewrite inputs_register_tree in Hi.
    unfold register_inputs in Hi. elem_of_cases Hi; eexists; split; reflexivity.
  - destruct (head _) as [p|] eqn:E; [intros [= <-] | discriminate].
    apply head_filter_Some in E as [Hp _]. apply (list_elem_of_fmap_2 snd) in Hp.
    rewrite presses_register_actions in Hp. elem_of_cases Hp; auto.
  - rewrite pickers_register_tree, filter_cons. case_decide; cbn; [|discriminate].
    destruct (doc_type_of v) as [d|]; cbn; [intros [= <-]; eauto | discriminate].
  - rewrite date_pickers_register_tree. destruct (showDatePicker s); cbn; [by intros [= <-] | discriminate].
Qed.

Lemma resolve_register_type (tz : Z) (s : state) (f : text_field) (t : string) :
  resolve (register_tree tz s) (TypeText (field_placeholder f) t) = Some (ChangeText f t).
Proof. unfold resolve. rewrite inputs_register_tree. by destruct f. Qed.

Lemma doc_type_of_item (v : string) (d : doc_type) :
  doc_type_of v = Some d -> v ∈ doc_type_items.*2.
Proof.
  unfold doc_type_of.
  destruct (String.eqb_spec v "DNI"), (String.eqb_spec v "PASAPORTE"), (String.eqb_spec v "RUC");
    intros; simplify_eq; solve_elem_of.
Qed.

Lemma resolve_register_pick (tz : Z) (s : state) (v : string) (d : doc_type) :
  doc_type_of v = Some d -> resolve (register_tree tz s) (Pick v) = Some (ChangeDocType d).
Proof.
  intros Hd. unfold resolve. rewrite pickers_register_tree, filter_cons.
  rewrite decide_True by exact (doc_type_of_item v d Hd). cbn. by rewrite Hd.
Qed.

Lemma get_set_text (f f' : text_field) (v : string) (s : state) :
  get_text f (set_text f' v s) = if decide (f = f') then v else get_text f s.
Proof. destruct s, f, f'; reflexivity. Qed.

(** Only typing changes the text of an input. *)
Lemma get_text_dispatch (f : text_field) (s : state) (a : action) :
  get_text f (dispatch s a).1 =
    match a with ChangeText f' v => if decide (f = f') then v else get_text f s | _ => get_text f s end.
Proof. destruct a; cbn [dispatch fst]; [apply get_set_text | destruct s, f; reflexivity..]. Qed.

Lemma get_text_apply_effect (f : text_field) (s : state) (ef : effect) :
  get_text f (apply_effect s ef) = get_text f s.
Proof. destruct s, ef, f; reflexivity. Qed.

Lemma docType_dispatch (s : state) (a : action) :
  docType (dispatch s a).1 = match a with ChangeDocType d => d | _ => docType s end.
Proof. destruct s, a; try reflexivity. by destruct f. Qed.

Lemma field_placeholder_inj (f f' : text_field) : field_placeholder f = field_placeholder f' -> f = f'.
Proof. destruct f, f'; cbn; congruence. Qed.

(** Each input holds the text last typed into it: setters, taps, picks
    and dates do not touch it. *)
Lemma register_text_tracks (tz : Z) (s : state) (os : list occurrence) (f : text_field) :
  get_text f (foldl (register_step tz) s os) =
    from_option id (get_text f s) (last_obs (user_obs (typed (field_placeholder f))) os).
Proof.
  apply foldl_tracks.
  - intros s' [[ph t| | |]|ef] v; cbn; try discriminate.
    destruct (String.eqb_spec ph (field_placeholder f)) as [->|]; [intros [= <-] | discriminate].
    unfold gesture. rewrite resolve_register_type, get_text_dispatch. by rewrite decide_True.
  - intros s' [ev|ef] H; cbn in *; [|apply get_text_apply_effect].
    unfold gesture. destruct (resolve _ ev) as [a|] eqn:E; [|done].
    apply resolve_register in E. rewrite get_text_dispatch.
    destruct ev as [ph t|l|v|d].
    + destruct E as (f' & -> & <-). rewrite decide_False; [done|]. intros ->.
      cbn in H. by rewrite String.eqb_refl in H.
    + by destruct E as [->|[->| ->]].
    + by destruct E as (d & _ & ->).
    + by subst.
Qed.

(** [docType] holds the document type last chosen in the picker. *)
Lemma register_docType_tracks (tz : Z) (s : state) (os : list occurrence) :
  docType (foldl (register_step tz) s os) =
    from_option id (docType s) (last_obs (user_obs picked) os).
Proof.
  apply foldl_tracks.
  - intros s' [[| |v|]|ef] d; cbn; try discriminate. intros Hd.
    unfold gesture. rewrite (resolve_register_pick _ _ _ _ Hd). by rewrite docType_dispatch.
  - intros s' [ev|ef] H; cbn in *; [|by destruct s', ef].
    unfold gesture. destruct (resolve _ ev) as [a|] eqn:E; [|done].
    apply resolve_register in E. rewrite docType_dispatch.
    destruct ev as [ph t|l|v|d].
    + by destruct E as (f' & -> & _).
    + by destruct E as [->|[->| ->]].
    + destruct E as (d & Hd & _). cbn in H. congruence.
    + by subst.
Qed.

Section WithEnv.
Context {W : Type} `{!Env W}.

(** The account [handleRegister] creates is that of the draft's email
    and password. *)
Lemma handleRegister_create_args (s : state) (w : W) :
  let '(_, tr, _) := run (handleRegister s) w in
  forall e p, CreateUserWithEmailAndPassword e p ∈ calls tr -> e = email s /\ p = password s.
Proof.
  unfold handleRegister, register_body, upload_profile_image.
  destruct (strict_neq_string _ _); destruct (birth_date_field (birthDate s)) eqn:Eb;
    destruct (imageUri s) as [uri|]; try destruct (truthy_string uri);
    run_exec; intros em pw Hin; elem_of_cases Hin; auto.
Qed.

(** C27 Whatever the user typed, tapped and picked on the Register
    screen, interleaved with the setters of running handlers, a
    submission creates the account of the last email and password typed
    into the "Email" and "Password" inputs, and the profile it writes
    holds the text last typed into each input ('' if none) and the
    document type last chosen in the picker (DNI if none). *)
Theorem register_ui_submission (tz now : Z) (os : list occurrence) (w : W) :
  let '(_, tr, _) := run (handleRegister (foldl (register_step tz) (initial now) os)) w in
  (forall e p, CreateUserWithEmailAndPassword e p ∈ calls tr ->
     e = shown_text "Email" os /\ p = shown_text "Password" os) /\
  (forall col k d, SetDoc col k d ∈ calls tr ->
     UserDoc.email d = shown_text "Email" os /\ UserDoc.username d = shown_text "Username" os /\
     UserDoc.fullName d = shown_text "Full Name" os /\
     UserDoc.docType d = doc_type_value (from_option id DNI (last_obs (user_obs picked) os)) /\
     UserDoc.docNumber d = shown_text "Document Number" os /\ UserDoc.age d = shown_text "Age" os /\
     UserDoc.address d = shown_text "Address" os).
Proof.
  set (s := foldl (register_step tz) (initial now) os).
  assert (Ht : forall f, get_text f s = shown_text (field_placeholder f) os)
    by (intros f; unfold s, shown_text; rewrite register_text_tracks; by destruct f).
  pose proof (register_docType_tracks tz (initial now) os) as Hd. fold s in Hd.
  pose proof (handleRegister_create_args s w) as Hc.
  pose proof (SchemaProps.handleRegister_setdoc_doc s w) as Hs.
  destruct (run (handleRegister s) w) as [[w' tr] o]. split.
  - intros e p [-> ->]%Hc. exact (conj (Ht FEmail) (Ht FPassword)).
  - intros col k d Hin. destruct (Hs _ _ _ Hin) as (b & ph & _ & ->). cbn.
    rewrite Hd. repeat split; [exact (Ht FEmail) | exact (Ht FUsername) | exact (Ht FFullName)
                              | exact (Ht FDocNumber) | exact (Ht FAge) | exact (Ht FAddress)].
Qed.

End WithEnv.

End RegisterUIProps.

Module InteractionWitnesses.
Import Jsx UI LoginUI LoginUIProps RegisterUI RegisterUIProps.

(** Ana mistypes her email, fixes it, types her password and signs in;
    the password input never shown to anyone else. *)
Definition ana_login : list ui_event :=
  [TypeText "correo@gmail.com" "ana@huellitas"; TypeText "password" "secret1";
   TypeText "correo@gmail.com" "ana@huellitas.pe"; Press "Register"].

Lemma login_ui_signin_witness :
  last_obs (typed "correo@gmail.com") ana_login = Some "ana@huellitas.pe" /\
  calls (run (LoginScreen.logueo (foldl login_step LoginScreen.initial ana_login)) (mk_script [])).1.2 =
    [SignInWithEmailAndPassword (Some "ana@huellitas.pe") (Some "secret1")].
Proof.
  split; [reflexivity|].
  exact (proj2 (proj2 (login_ui_signin ana_login (mk_script [])))).
Defined.

(** Bea fills the form, a failed attempt leaves an error behind, she
    picks PASAPORTE, then RUC, and corrects her address. *)
Definition bea_session : list occurrence :=
  [User (TypeText "Email" "bea@huellitas.pe"); User (TypeText "Password" "secret2");
   User (TypeText "Confirm Password" "secret2"); User (Pick "PASAPORTE");
   User (TypeText "Address" "Av. Arequipa 100"); User (Press "Register");
   Settle (SetError "Network request failed"); User (Pick "RUC");
   User (TypeText "Address" "Av. Arequipa 1050")].

Definition bea_services : script :=
  mk_script [Fulfilled (RCredential (mk_credential (mk_user "uid-8"))); Fulfilled RUnit].

Lemma register_ui_submission_witness :
  shown_text "Address" bea_session = "Av. Arequipa 1050" /\
  last_obs (user_obs picked) bea_session = Some RegisterScreen.RUC /\
  (let '(_, tr, _) := run (RegisterScreen.handleRegister
                             (foldl (register_step 0) (RegisterScreen.initial 0) bea_session)) bea_services in
   (forall e p, CreateUserWithEmailAndPassword e p ∈ calls tr ->
      e = shown_text "Email" bea_session /\ p = shown_text "Password" bea_session) /\
   (forall col k d, SetDoc col k d ∈ calls tr ->
      UserDoc.email d = shown_text "Email" bea_session /\
      UserDoc.username d = shown_text "Username" bea_session /\
      UserDoc.fullName d = shown_text "Full Name" bea_session /\
      UserDoc.docType d = RegisterScreen.doc_type_value
                            (from_option id RegisterScreen.DNI (last_obs (user_obs picked) bea_session)) /\
      UserDoc.docNumber d = shown_text "Document Number" bea_session /\
      UserDoc.age d = shown_text "Age" bea_session /\
      UserDoc.address d = shown_text "Address" bea_session)).
Proof.
  split; [reflexivity|]. split; [reflexivity|].
  apply (register_ui_submission 0 0 bea_session bea_services).
Defined.

End InteractionWitnesses.
